(** * auto-update-mmdb: extraction of the CN networks and generation of the
      nftables set files (src/main.go)

    The program is a single Go file.  Its [main] drives a linear pipeline of
    I/O stages and, between them, classifies the networks of a MaxMind
    database with the help of Go's [net] package.  The development below
    embeds

    - the parts of Go's [net], [net/netip] and [path/filepath] packages that
      [main] calls ([ParseCIDR], [IPNet.String], [IP.To4], [filepath.Ext]),
    - the extraction loop and [writeSetFile],
    - the pipeline itself, as a function of the outcomes of its I/O calls
      that returns the trace of what the process did.

    Bytes and Go integers are [Z]; strings are Go strings, i.e. byte
    sequences ([string]); a nil slice is the empty list. *)

From Stdlib Require Import ZArith List String Ascii Bool Lia.
Import ListNotations.

Local Open Scope string_scope.
Local Open Scope Z_scope.

(** ** Bytes of a string and slices *)

Definition byte_of (c : ascii) : Z := Z.of_N (N_of_ascii c).

Definition chr (z : Z) : ascii := ascii_of_N (Z.to_N z).

(** [uint8(x)] for a non-negative Go int. *)
Definition uint8 (x : Z) : Z := x mod 256.

(** [l[i] = v] on a slice; the index is in range at every use. *)
Fixpoint store_nat (l : list Z) (i : nat) (v : Z) : list Z :=
  match l, i with
  | [], _ => []
  | _ :: t, O => v :: t
  | h :: t, S j => h :: store_nat t j v
  end.

Definition store (l : list Z) (i v : Z) : list Z := store_nat l (Z.to_nat i) v.

(** [l[i]] *)
Definition at_ (l : list Z) (i : Z) : Z := nth (Z.to_nat i) l 0.

(** [l[a:b]] *)
Definition slice (l : list Z) (a b : Z) : list Z :=
  firstn (Z.to_nat (b - a)) (skipn (Z.to_nat a) l).

Definition len {A} (l : list A) : Z := Z.of_nat (List.length l).

Definition strlen (s : string) : Z := Z.of_nat (String.length s).

(** [s[:i]] and [s[i:]] *)
Definition str_to (s : string) (i : Z) : string := substring 0 (Z.to_nat i) s.

Fixpoint str_from_nat (s : string) (i : nat) : string :=
  match i, s with
  | O, _ => s
  | S j, String _ t => str_from_nat t j
  | S _, EmptyString => EmptyString
  end.

Definition str_from (s : string) (i : Z) : string := str_from_nat s (Z.to_nat i).

(** [bytealg.IndexByteString]: index of the first [c] in [s], or -1. *)
Fixpoint IndexByteString (s : string) (c : ascii) : Z :=
  match s with
  | EmptyString => -1
  | String a t =>
      if Ascii.eqb a c then 0
      else let r := IndexByteString t c in if r <? 0 then -1 else r + 1
  end.

(** ** Go's net and net/netip packages

    The functions are those of the standard library since [net.ParseCIDR]
    and [IP.String] go through [net/netip] ([netip.ParseAddr],
    [Addr.String]); each definition names the Go function it follows.  A
    Go loop is a [Fixpoint] on the text that is left to read, or on the
    number of iterations the loop can make. *)

Module Net.

Definition IPv4len : Z := 4.
Definition IPv6len : Z := 16.

(** [type IP []byte], [type IPMask []byte] *)
Definition IP := list Z.
Definition IPMask := list Z.

(** [type IPNet struct { IP IP; Mask IPMask }] *)
Record IPNet : Type := mkIPNet { ipn_IP : IP; ipn_Mask : IPMask }.

Definition v4InV6Prefix : list Z := [0; 0; 0; 0; 0; 0; 0; 0; 0; 0; 255; 255].

Definition isZeros (p : list Z) : bool := forallb (fun b => b =? 0) p.

Definition allFF (p : list Z) : bool := forallb (fun b => b =? 255) p.

Definition bytes_eqb (a b : list Z) : bool :=
  (List.length a =? List.length b)%nat
  && forallb (fun xy => fst xy =? snd xy) (combine a b).

(** [func (ip IP) To4() IP] *)
Definition To4 (ip : IP) : IP :=
  if len ip =? IPv4len then ip
  else if (len ip =? IPv6len) && isZeros (slice ip 0 10)
          && (at_ ip 10 =? 255) && (at_ ip 11 =? 255)
       then slice ip 12 16
       else [].

(** [func CIDRMask(ones, bits int) IPMask] *)
Fixpoint CIDRMask_loop (l : nat) (n : Z) : list Z :=
  match l with
  | O => []
  | S l' =>
      if n >=? 8 then 255 :: CIDRMask_loop l' (n - 8)
      else Z.lxor 255 (Z.shiftr 255 n) :: CIDRMask_loop l' 0
  end.

Definition CIDRMask (ones bits : Z) : IPMask :=
  if negb (bits =? 8 * IPv4len) && negb (bits =? 8 * IPv6len) then []
  else if (ones <? 0) || (ones >? bits) then []
  else CIDRMask_loop (Z.to_nat (bits / 8)) ones.

(** [func (ip IP) Mask(mask IPMask) IP] *)
Definition Mask (ip : IP) (mask : IPMask) : IP :=
  let mask :=
    if (len mask =? IPv6len) && (len ip =? IPv4len) && allFF (slice mask 0 12)
    then slice mask 12 16 else mask in
  let ip :=
    if (len mask =? IPv4len) && (len ip =? IPv6len)
       && bytes_eqb (slice ip 0 12) v4InV6Prefix
    then slice ip 12 16 else ip in
  if negb (len ip =? len mask) then []
  else map (fun xy => Z.land (fst xy) (snd xy)) (combine ip mask).

(** [func simpleMaskLength(mask IPMask) int]: the number of leading ones
    when the mask is in canonical form, -1 otherwise. *)
Fixpoint leading_ones (fuel : nat) (v n : Z) : Z * Z :=
  match fuel with
  | O => (v, n)
  | S f =>
      if negb (Z.land v 128 =? 0) then leading_ones f (uint8 (Z.shiftl v 1)) (n + 1)
      else (v, n)
  end.

Fixpoint simpleMaskLength_loop (mask : list Z) (n : Z) : Z :=
  match mask with
  | [] => n
  | v :: rest =>
      if v =? 255 then simpleMaskLength_loop rest (n + 8)
      else
        let '(v', n') := leading_ones 8 v n in
        if negb (v' =? 0) then -1
        else if isZeros rest then n' else -1
  end.

Definition simpleMaskLength (mask : IPMask) : Z := simpleMaskLength_loop mask 0.

(** *** Parsing: net/netip *)

(** [netip.Addr]: an IPv4 address, or an IPv6 address with its zone.  The
    128-bit value is kept as its 16 bytes in network order. *)
Inductive Addr : Type :=
| AddrFrom4 (b : list Z)
| AddrFrom16 (b : list Z) (zone : string).

Definition Zone (a : Addr) : string :=
  match a with AddrFrom4 _ => "" | AddrFrom16 _ z => z end.

Definition BitLen (a : Addr) : Z :=
  match a with AddrFrom4 _ => 32 | AddrFrom16 _ _ => 128 end.

Definition As16 (a : Addr) : list Z :=
  match a with AddrFrom4 b => (v4InV6Prefix ++ b)%list | AddrFrom16 b _ => b end.

Definition is_digit (c : ascii) : bool :=
  (byte_of "0" <=? byte_of c) && (byte_of c <=? byte_of "9").

Definition is_char (c d : ascii) : bool := Ascii.eqb c d.

(** The loop of [parseIPv4Fields] from position [i] on: [s] is what is left
    of the input from [i], [prev] is [s[i-1]] ([None] when [i = 0]).
    [None] is an error return. *)
Fixpoint parseIPv4Fields_loop (s : string) (prev : option ascii)
    (val pos digLen : Z) (fields : list Z) : option (Z * Z * list Z) :=
  match s with
  | EmptyString => Some (val, pos, fields)
  | String c rest =>
      if is_digit c then
        if (digLen =? 1) && (val =? 0) then None
        else
          let val := val * 10 + (byte_of c - byte_of "0") in
          let digLen := digLen + 1 in
          if val >? 255 then None
          else parseIPv4Fields_loop rest (Some c) val pos digLen fields
      else if is_char c "." then
        if match prev with None => true | Some p => is_char p "." end
           || match rest with EmptyString => true | _ => false end
        then None
        else if pos =? 3 then None
        else parseIPv4Fields_loop rest (Some c) 0 (pos + 1) 0
               (store fields pos (uint8 val))
      else None
  end.

(** [parseIPv4Fields(in, off, end, fields)], on [s = in[off:end]]; returns
    the four fields. *)
Definition parseIPv4Fields (s : string) : option (list Z) :=
  match parseIPv4Fields_loop s None 0 0 0 [0; 0; 0; 0] with
  | None => None
  | Some (val, pos, fields) =>
      if pos <? 3 then None else Some (store fields 3 (uint8 val))
  end.

Definition parseIPv4 (s : string) : option Addr :=
  match parseIPv4Fields s with
  | None => None
  | Some fields => Some (AddrFrom4 fields)
  end.

Definition hexval (c : ascii) : option Z :=
  let b := byte_of c in
  if (byte_of "0" <=? b) && (b <=? byte_of "9") then Some (b - byte_of "0")
  else if (byte_of "a" <=? b) && (b <=? byte_of "f") then Some (b - byte_of "a" + 10)
  else if (byte_of "A" <=? b) && (b <=? byte_of "F") then Some (b - byte_of "A" + 10)
  else None.

(** The inner loop of [parseIPv6] that reads one hex group: returns [off],
    [acc] and [s[off:]]; [None] is an error return.  [acc] is a uint32. *)
Fixpoint hexLoop (s : string) (off acc : Z) : option (Z * Z * string) :=
  match s with
  | EmptyString => Some (off, acc, s)
  | String c rest =>
      match hexval c with
      | None => Some (off, acc, s)
      | Some v =>
          let acc := (Z.shiftl acc 4 + v) mod 2 ^ 32 in
          if off >? 3 then None
          else if acc >? 65535 then None
          else hexLoop rest (off + 1) acc
      end
  end.

(** The main loop of [parseIPv6], [for i < 16 { ... }].  Every iteration
    that does not leave the loop adds 2 to [i], so eight iterations are
    enough; the result is the state [(s, i, ip, ellipsis)] at the loop's
    exit, [None] an error return. *)
Fixpoint parseIPv6_loop (iters : nat) (s : string) (i : Z) (ip : list Z)
    (ellipsis : Z) : option (string * Z * list Z * Z) :=
  match iters with
  | O => Some (s, i, ip, ellipsis)
  | S iters' =>
      if negb (i <? 16) then Some (s, i, ip, ellipsis)
      else
        match hexLoop s 0 0 with
        | None => None
        | Some (off, acc, rest) =>
            if off =? 0 then None
            else if match rest with String c _ => is_char c "." | _ => false end
            then
              if (ellipsis <? 0) && negb (i =? 12) then None
              else if i + 4 >? 16 then None
              else
                match parseIPv4Fields s with
                | None => None
                | Some f =>
                    let ip := store ip i (at_ f 0) in
                    let ip := store ip (i + 1) (at_ f 1) in
                    let ip := store ip (i + 2) (at_ f 2) in
                    let ip := store ip (i + 3) (at_ f 3) in
                    Some ("", i + 4, ip, ellipsis)
                end
            else
              let ip := store ip i (uint8 (Z.shiftr acc 8)) in
              let ip := store ip (i + 1) (uint8 acc) in
              let i := i + 2 in
              match rest with
              | EmptyString => Some (rest, i, ip, ellipsis)
              | String c s1 =>
                  if negb (is_char c ":") then None
                  else
                    match s1 with
                    | EmptyString => None
                    | String c1 s2 =>
                        if is_char c1 ":" then
                          if ellipsis >=? 0 then None
                          else
                            match s2 with
                            | EmptyString => Some (s2, i, ip, i)
                            | _ => parseIPv6_loop iters' s2 i ip i
                            end
                        else parseIPv6_loop iters' s1 i ip ellipsis
                    end
              end
        end
  end.

(** The expansion of the ellipsis: [ip[ellipsis:i]] moves to the end of the
    array ([for j := i-1; j >= ellipsis; j-- { ip[j+n] = ip[j] }]) and the
    gap is cleared. *)
Fixpoint move_up (count : nat) (j n : Z) (ip : list Z) : list Z :=
  match count with
  | O => ip
  | S c => move_up c (j - 1) n (store ip (j + n) (at_ ip j))
  end.

Fixpoint clear_range (count : nat) (from : Z) (ip : list Z) : list Z :=
  match count with
  | O => ip
  | S c => clear_range c (from + 1) (store ip from 0)
  end.

Definition zeros16 : list Z := repeat 0 16.

(** [len(s) >= 2 && s[0] == ':' && s[1] == ':'] *)
Definition leading_ellipsis (s : string) : bool :=
  match s with
  | String c0 (String c1 _) => is_char c0 ":" && is_char c1 ":"
  | _ => false
  end.

(** [func parseIPv6(in string) (Addr, error)] *)
Definition parseIPv6 (input : string) : option Addr :=
  let i := IndexByteString input "%" in
  match
    (if negb (i =? -1) then
       let zone := str_from input (i + 1) in
       if String.eqb zone "" then None else Some (str_to input i, zone)
     else Some (input, ""))
  with
  | None => None
  | Some (s, zone) =>
      (* Might have leading ellipsis *)
      let lead := leading_ellipsis s in
      let ellipsis := if lead then 0 else -1 in
      let s := if lead then str_from s 2 else s in
      (* Might be only ellipsis *)
      if lead && (strlen s =? 0) then Some (AddrFrom16 zeros16 zone)
      else
        match parseIPv6_loop 8 s 0 zeros16 ellipsis with
        | None => None
        | Some (s, i, ip, ellipsis) =>
            (* Must have used entire string. *)
            if negb (strlen s =? 0) then None
            else if i <? 16 then
              (* If didn't parse enough, expand ellipsis. *)
              if ellipsis <? 0 then None
              else
                let n := 16 - i in
                let ip := move_up (Z.to_nat (i - ellipsis)) (i - 1) n ip in
                let ip := clear_range (Z.to_nat n) ellipsis ip in
                Some (AddrFrom16 ip zone)
            else if ellipsis >=? 0 then None
            else Some (AddrFrom16 ip zone)
        end
  end.

(** [func ParseAddr(s string) (Addr, error)]: the first of '.', ':' and '%'
    in [s] selects the parser. *)
Fixpoint ParseAddr_scan (whole s : string) : option Addr :=
  match s with
  | EmptyString => None
  | String c rest =>
      if is_char c "." then parseIPv4 whole
      else if is_char c ":" then parseIPv6 whole
      else if is_char c "%" then None
      else ParseAddr_scan whole rest
  end.

Definition ParseAddr (s : string) : option Addr := ParseAddr_scan s s.

(** [func dtoi(s string) (n int, i int, ok bool)] *)
Definition big : Z := 16777215.

Fixpoint dtoi_loop (s : string) (n i : Z) : Z * Z * bool :=
  match s with
  | EmptyString => if i =? 0 then (0, 0, false) else (n, i, true)
  | String c rest =>
      if is_digit c then
        let n := n * 10 + (byte_of c - byte_of "0") in
        if n >=? big then (big, i, false) else dtoi_loop rest n (i + 1)
      else if i =? 0 then (0, 0, false) else (n, i, true)
  end.

Definition dtoi (s : string) : Z * Z * bool := dtoi_loop s 0 0.

(** [func ParseCIDR(s string) (IP, *IPNet, error)] *)
Definition ParseCIDR (s : string) : option (IP * IPNet) :=
  let i := IndexByteString s "/" in
  if i <? 0 then None
  else
    let addr := str_to s i in
    let mask := str_from s (i + 1) in
    match ParseAddr addr with
    | None => None
    | Some ipAddr =>
        if negb (String.eqb (Zone ipAddr) "") then None
        else
          let '(n, i, ok) := dtoi mask in
          if negb ok || negb (i =? strlen mask) || (n <? 0) || (n >? BitLen ipAddr)
          then None
          else
            let m := CIDRMask n (BitLen ipAddr) in
            let addr16 := As16 ipAddr in
            Some (addr16, mkIPNet (Mask addr16 m) m)
    end.

(** *** Printing *)

(** [const digits = "0123456789abcdef"]; [digits[x]] *)
Definition digits : string := "0123456789abcdef".

Definition digit (x : Z) : ascii :=
  match String.get (Z.to_nat x) digits with
  | Some c => c
  | None => "000"%char
  end.

Definition str1 (c : ascii) : string := String c EmptyString.

(** [func appendDecimal(b []byte, x uint8) []byte]: the appended text. *)
Definition appendDecimal (x : Z) : string :=
  ((if x >=? 100 then str1 (digit (x / 100)) else "")
   ++ (if x >=? 10 then str1 (digit (x / 10 mod 10)) else "")
   ++ str1 (digit (x mod 10)))%string.

(** [func appendHex(b []byte, x uint16) []byte]: the appended text. *)
Definition appendHex (x : Z) : string :=
  ((if x >=? 4096 then str1 (digit (Z.shiftr x 12)) else "")
   ++ (if x >=? 256 then str1 (digit (Z.land (Z.shiftr x 8) 15)) else "")
   ++ (if x >=? 16 then str1 (digit (Z.land (Z.shiftr x 4) 15)) else "")
   ++ str1 (digit (Z.land x 15)))%string.

(** [func (ip Addr) string4() string] on the four bytes. *)
Definition string4 (b : list Z) : string :=
  (appendDecimal (at_ b 0) ++ "." ++ appendDecimal (at_ b 1) ++ "."
   ++ appendDecimal (at_ b 2) ++ "." ++ appendDecimal (at_ b 3))%string.

(** [func (ip Addr) v6u16(i uint8) uint16]: the i-th 16-bit group. *)
Definition v6u16 (b : list Z) (i : Z) : Z :=
  Z.lor (Z.shiftl (at_ b (2 * i)) 8) (at_ b (2 * i + 1)).

(** [for j < 8 && ip.v6u16(j) == 0 { j++ }] *)
Fixpoint zero_run_end (fuel : nat) (b : list Z) (j : Z) : Z :=
  match fuel with
  | O => j
  | S f => if (j <? 8) && (v6u16 b j =? 0) then zero_run_end f b (j + 1) else j
  end.

(** The first loop of [appendTo6]: the longest run of at least two zero
    groups; [zeroStart] and [zeroEnd] are uint8, 255 when there is none. *)
Fixpoint zero_run_loop (count : nat) (b : list Z) (i zeroStart zeroEnd : Z)
    : Z * Z :=
  match count with
  | O => (zeroStart, zeroEnd)
  | S c =>
      let j := zero_run_end 8 b i in
      let l := uint8 (j - i) in
      if (l >=? 2) && (l >? uint8 (zeroEnd - zeroStart))
      then zero_run_loop c b (i + 1) i j
      else zero_run_loop c b (i + 1) zeroStart zeroEnd
  end.

(** The second loop of [appendTo6], from [i] on. *)
Fixpoint appendTo6_loop (fuel : nat) (b : list Z) (zeroStart zeroEnd i : Z)
    : string :=
  match fuel with
  | O => ""
  | S f =>
      if negb (i <? 8) then ""
      else if i =? zeroStart then
        ("::" ++
         (let i := zeroEnd in
          if i >=? 8 then ""
          else appendHex (v6u16 b i)
               ++ appendTo6_loop f b zeroStart zeroEnd (i + 1)))%string
      else
        ((if i >? 0 then ":" else "")
         ++ appendHex (v6u16 b i)
         ++ appendTo6_loop f b zeroStart zeroEnd (i + 1))%string
  end.

Definition string6 (b : list Z) : string :=
  let '(zeroStart, zeroEnd) := zero_run_loop 8 b 0 255 255 in
  appendTo6_loop 8 b zeroStart zeroEnd 0.

Definition Is4In6 (b : list Z) : bool :=
  isZeros (slice b 0 10) && (at_ b 10 =? 255) && (at_ b 11 =? 255).

(** [func (ip Addr) String() string] *)
Definition Addr_String (a : Addr) : string :=
  match a with
  | AddrFrom4 b => string4 b
  | AddrFrom16 b zone =>
      ((if Is4In6 b then "::ffff:" ++ string4 (slice b 12 16) else string6 b)
       ++ (if String.eqb zone "" then "" else "%" ++ zone))%string
  end.

(** [func hexString(b []byte) string] *)
Fixpoint hexString (b : list Z) : string :=
  match b with
  | [] => ""
  | tn :: rest =>
      String (digit (Z.shiftr tn 4)) (String (digit (Z.land tn 15)) (hexString rest))
  end.

(** [func (ip IP) String() string] *)
Definition IP_String (ip : IP) : string :=
  if len ip =? 0 then "<nil>"
  else if negb (len ip =? IPv4len) && negb (len ip =? IPv6len)
  then ("?" ++ hexString ip)%string
  else
    let p4 := To4 ip in
    if len p4 =? IPv4len then Addr_String (AddrFrom4 p4)
    else Addr_String (AddrFrom16 ip "").

(** [func (m IPMask) String() string] *)
Definition IPMask_String (m : IPMask) : string :=
  if len m =? 0 then "<nil>" else hexString m.

(** [func uitoa(val uint) string]; the buffer has 20 bytes. *)
Fixpoint uitoa_loop (fuel : nat) (val : Z) (acc : string) : string :=
  match fuel with
  | O => acc
  | S f =>
      if val >=? 10 then
        let q := val / 10 in
        uitoa_loop f q (String (chr (byte_of "0" + val - q * 10)) acc)
      else String (chr (byte_of "0" + val)) acc
  end.

Definition uitoa (val : Z) : string :=
  if val =? 0 then "0" else uitoa_loop 20 val "".

(** [func networkNumberAndMask(n *IPNet) (ip IP, m IPMask)]; [None] is the
    return of two nils. *)
Definition networkNumberAndMask (n : IPNet) : option (IP * IPMask) :=
  let ip4 := To4 (ipn_IP n) in
  match
    (if len ip4 =? 0 then
       if negb (len (ipn_IP n) =? IPv6len) then None else Some (ipn_IP n)
     else Some ip4)
  with
  | None => None
  | Some ip =>
      let m := ipn_Mask n in
      if len m =? IPv4len then
        if negb (len ip =? IPv4len) then None else Some (ip, m)
      else if len m =? IPv6len then
        if len ip =? IPv4len then Some (ip, slice m 12 16) else Some (ip, m)
      else None
  end.

(** [func (n *IPNet) String() string] *)
Definition IPNet_String (n : IPNet) : string :=
  match networkNumberAndMask n with
  | None => "<nil>"
  | Some (nn, m) =>
      let l := simpleMaskLength m in
      if l =? -1 then (IP_String nn ++ "/" ++ IPMask_String m)%string
      else (IP_String nn ++ "/" ++ uitoa l)%string
  end.

End Net.

(** ** path/filepath *)

(** [func Ext(path string) string]: the suffix of [path] from the last dot
    of its last element; the loop runs from the end of the string and stops
    at a path separator ('/'). *)
Fixpoint Ext_scan (rev_path : list ascii) (suffix : string) : string :=
  match rev_path with
  | [] => ""
  | c :: rest =>
      if Ascii.eqb c "/" then ""
      else if Ascii.eqb c "." then String c suffix
      else Ext_scan rest (String c suffix)
  end.

Definition Ext (path : string) : string :=
  Ext_scan (rev (list_ascii_of_string path)) "".

(** ** main.go *)

Definition apiURL : string := "https://api.github.com/repos/P3TERX/GeoLite.mmdb/releases/latest".
Definition saveMMDB : string := "/usr/share/GeoIP/GeoLite2-Country.mmdb".
Definition tmpMMDB : string := "/tmp/GeoLite2-Country.mmdb".
Definition outCN4 : string := "/etc/nftables.d/cn4.nft".
Definition outCN6 : string := "/etc/nftables.d/cn6.nft".

Record GitHubAsset : Type := mkAsset {
  Name : string;
  BrowserDownloadURL : string
}.

Record GitHubRelease : Type := mkRelease {
  TagName : string;
  Assets : list GitHubAsset
}.

(** [CountryRecord]: the only field read is [Country.ISOCode]. *)
Record CountryRecord : Type := mkCountryRecord { ISOCode : string }.

(** What one step of the database iterator gives: [networks.Network(&rec)]
    returns an error, or the network with [rec] filled in. *)
Inductive entry : Type :=
| DecodeError
| Decoded (network : Net.IPNet) (rec : CountryRecord).

(** The body of the loop over the networks (main.go, lines 137-154), on the
    two slices [cnIPv4] and [cnIPv6]. *)
Definition extract_step (st : list string * list string) (e : entry)
    : list string * list string :=
  let '(cnIPv4, cnIPv6) := st in
  match e with
  | DecodeError => st
  | Decoded network rec =>
      if String.eqb (ISOCode rec) "CN" then
        match Net.ParseCIDR (Net.IPNet_String network) with
        | None => st
        | Some (_, ipNet) =>
            if negb (len (Net.To4 (Net.ipn_IP ipNet)) =? 0)
            then ((cnIPv4 ++ [Net.IPNet_String ipNet])%list, cnIPv6)
            else (cnIPv4, (cnIPv6 ++ [Net.IPNet_String ipNet])%list)
        end
      else st
  end.

(** The loop [for networks.Next() { ... }] over the entries of the
    database, starting from the two nil slices. *)
Definition extract (db : list entry) : list string * list string :=
  fold_left extract_step db ([], []).

(** *** The process: trace, deferred calls, exit *)

Inductive result (A : Type) : Type :=
| Ok (a : A)
| Err (msg : string).

Arguments Ok {A} a.
Arguments Err {A} msg.

Inductive resource : Type :=
| ResBody (url : string)
| ResFile (path : string)
| ResDB (path : string).

(** What the process does, in order.  A successful [EvHttpGet], [EvCreate]
    or [EvOpenDB] acquires the response body, the file handle or the
    database handle; [EvClose] is a call of the resource's [Close]. *)
Inductive event : Type :=
| EvLogInfo (msg : string)
| EvLogErr (msg : string)
| EvHttpGet (url : string) (ok : bool)
| EvCreate (path : string) (ok : bool)
| EvWrite (path data : string) (ok : bool)
| EvRename (oldpath newpath : string) (ok : bool)
| EvOpenDB (path : string) (ok : bool)
| EvExec (cmd : string) (ok : bool)
| EvClose (r : resource)
| EvExit (code : Z).

(** The state of the running process: the trace so far and the deferred
    calls of the function being executed, last deferred first. *)
Record state : Type := mkState { trace : list event; deferred : list resource }.

(** A computation either goes on with a value, or the process has exited
    ([None]). *)
Definition Proc (A : Type) : Type := state -> option A * state.

Definition ret {A} (a : A) : Proc A := fun st => (Some a, st).

Definition bind {A B} (c : Proc A) (k : A -> Proc B) : Proc B :=
  fun st =>
    match c st with
    | (Some a, st') => k a st'
    | (None, st') => (None, st')
    end.

Declare Scope proc_scope.
Delimit Scope proc_scope with proc.
Notation "x <- c ;; k" := (bind c (fun x => k))
  (at level 61, c at next level, right associativity) : proc_scope.
Notation "c ;; k" := (bind c (fun _ => k))
  (at level 61, right associativity) : proc_scope.
Local Open Scope proc_scope.

Definition emit (e : event) : Proc unit :=
  fun st => (Some tt, mkState (trace st ++ [e]) (deferred st)).

(** [defer r.Close()] *)
Definition defer (r : resource) : Proc unit :=
  fun st => (Some tt, mkState (trace st) (r :: deferred st)).

(** [os.Exit(code)]: the process ends here; deferred calls are not run. *)
Definition os_Exit {A} (code : Z) : Proc A :=
  fun st => (None, mkState (trace st ++ [EvExit code]) (deferred st)).

(** A function call: the body runs with its own deferred calls, which are
    run, last first, when the body returns. *)
Definition call {A} (body : Proc A) : Proc A :=
  fun st =>
    match body (mkState (trace st) []) with
    | (Some a, st') =>
        (Some a, mkState (trace st' ++ map EvClose (deferred st')) (deferred st))
    | (None, st') => (None, st')
    end.

Definition logInfo (msg : string) : Proc unit := emit (EvLogInfo msg).

Definition logErr (err : string) : Proc unit := emit (EvLogErr err).

(** [if err != nil { logErr(err); os.Exit(1) }] *)
Definition check {A} (r : result A) : Proc A :=
  match r with
  | Ok a => ret a
  | Err e => logErr e ;; os_Exit 1
  end.

Definition is_ok {A} (r : result A) : bool :=
  match r with Ok _ => true | Err _ => false end.

(** *** The outcomes of the I/O calls *)

(** An HTTP response: its status, what decoding its body as a release
    gives, and what copying its body gives. *)
Record Response : Type := mkResponse {
  StatusCode : Z;
  BodyRelease : result GitHubRelease;
  BodyCopy : result string
}.

Record World : Type := mkWorld {
  w_GetMeta : result Response;               (* http.Get(apiURL) *)
  w_GetDownload : string -> result Response; (* http.Get(downloadURL) *)
  w_Create : string -> result unit;          (* os.Create(path) *)
  w_Fprintf : string -> nat -> bool;         (* the k-th fmt.Fprintf on path *)
  w_Rename : result unit;                    (* os.Rename(tmpMMDB, saveMMDB) *)
  w_Open : result (list entry);              (* maxminddb.Open(saveMMDB) *)
  w_Restart : string * bool                  (* CombinedOutput: output, err == nil *)
}.

(** *** writeSetFile *)

Definition nl : string := String "010"%char EmptyString.

(** The texts of the [fmt.Fprintf] calls of [writeSetFile], in order. *)
Definition set_header (setName addrType : string) : list string :=
  [ "set " ++ setName ++ " {" ++ nl;
    "    type " ++ addrType ++ nl;
    "    flags interval" ++ nl;
    "    elements = {" ++ nl ]%string.

Definition set_element (n : string) : string := ("        " ++ n ++ "," ++ nl)%string.

Definition set_footer : string := ("    }" ++ nl ++ "}" ++ nl)%string.

Definition set_writes (setName addrType : string) (items : list string)
    : list string :=
  (set_header setName addrType ++ map set_element items ++ [set_footer])%list.

(** The text of the file when every write succeeds: the texts written, one
    after the other. *)
Definition join_texts (texts : list string) : string :=
  fold_right String.append "" texts.

Definition serialize (setName addrType : string) (items : list string) : string :=
  join_texts (set_writes setName addrType items).

(** [fmt.Fprintf(f, ...)], the k-th on this file; its results are dropped. *)
Definition Fprintf (w : World) (path : string) (k : nat) (data : string)
    : Proc unit :=
  emit (EvWrite path data (w_Fprintf w path k)).

Fixpoint Fprintf_all (w : World) (path : string) (k : nat) (texts : list string)
    : Proc unit :=
  match texts with
  | [] => ret tt
  | t :: rest => Fprintf w path k t ;; Fprintf_all w path (S k) rest
  end.

Definition writeSetFile (w : World) (path setName addrType : string)
    (items : list string) : Proc unit :=
  call (
    emit (EvCreate path (is_ok (w_Create w path))) ;;
    check (w_Create w path) ;;
    defer (ResFile path) ;;
    Fprintf_all w path 0 (set_writes setName addrType items)).

(** *** main *)

(** The loop over [release.Assets] (main.go, lines 70-76). *)
Fixpoint findDownloadURL (assets : list GitHubAsset) : string :=
  match assets with
  | [] => ""
  | a :: rest =>
      if String.eqb (Ext (Name a)) ".mmdb" then BrowserDownloadURL a
      else findDownloadURL rest
  end.

(** [%d] of a Go int *)
Definition fmt_d (n : Z) : string :=
  if n <? 0 then ("-" ++ Net.uitoa (- n))%string else Net.uitoa n.

(** Steps 1 to 4 of [main]: fetch the release, find the asset, download it
    and put it in place (main.go, lines 51-119). *)
Definition main_fetch (w : World) : Proc unit :=
  logInfo "Fetching latest GitHub release metadata..." ;;
  (* 1. Fetch GitHub release info *)
  emit (EvHttpGet apiURL (is_ok (w_GetMeta w))) ;;
  resp <- check (w_GetMeta w) ;;
  defer (ResBody apiURL) ;;
  release <- check (BodyRelease resp) ;;
  logInfo ("Latest tag: " ++ TagName release) ;;
  (* 2. Find mmdb download URL *)
  let downloadURL := findDownloadURL (Assets release) in
  (if String.eqb downloadURL "" then
     logErr "no mmdb file found in release" ;; os_Exit 1
   else ret tt) ;;
  logInfo ("MMDB download URL: " ++ downloadURL) ;;
  (* 3. Download mmdb *)
  logInfo "Downloading MMDB..." ;;
  emit (EvCreate tmpMMDB (is_ok (w_Create w tmpMMDB))) ;;
  check (w_Create w tmpMMDB) ;;
  defer (ResFile tmpMMDB) ;;
  emit (EvHttpGet downloadURL (is_ok (w_GetDownload w downloadURL))) ;;
  resp2 <- check (w_GetDownload w downloadURL) ;;
  defer (ResBody downloadURL) ;;
  (if negb (StatusCode resp2 =? 200) then
     logErr ("download failed: " ++ fmt_d (StatusCode resp2)) ;; os_Exit 1
   else ret tt) ;;
  data <- check (BodyCopy resp2) ;;
  emit (EvWrite tmpMMDB data true) ;;
  logInfo "Download complete." ;;
  (* 4. Replace system MMDB *)
  logInfo "Replacing old MMDB..." ;;
  emit (EvRename tmpMMDB saveMMDB (is_ok (w_Rename w))) ;;
  check (w_Rename w).

(** Steps 5 to 7 of [main]: extract the CN networks, write the two set
    files and reload nftables (main.go, lines 121-173). *)
Definition main_generate (w : World) : Proc unit :=
  (* 5. Parse MMDB and extract CN networks *)
  logInfo "Parsing MMDB and generating nftables sets..." ;;
  emit (EvOpenDB saveMMDB (is_ok (w_Open w))) ;;
  db <- check (w_Open w) ;;
  defer (ResDB saveMMDB) ;;
  let '(cnIPv4, cnIPv6) := extract db in
  (* 6. Write nftables set files *)
  writeSetFile w outCN4 "cn4" "ipv4_addr" cnIPv4 ;;
  writeSetFile w outCN6 "cn6" "ipv6_addr" cnIPv6 ;;
  logInfo "Generated:" ;;
  logInfo ("- " ++ outCN4 ++ " (" ++ fmt_d (len cnIPv4) ++ " IPv4 ranges)") ;;
  logInfo ("- " ++ outCN6 ++ " (" ++ fmt_d (len cnIPv6) ++ " IPv6 ranges)") ;;
  (* 7. Reload nftables *)
  logInfo "Reloading nftables..." ;;
  emit (EvExec "systemctl restart nftables" (snd (w_Restart w))) ;;
  (if negb (snd (w_Restart w)) then
     logErr ("systemctl output: " ++ fst (w_Restart w)) ;; os_Exit 1
   else ret tt) ;;
  logInfo "Done.".

(** The body of [func main()]. *)
Definition main_body (w : World) : Proc unit :=
  main_fetch w ;; main_generate w.

Definition main (w : World) : Proc unit := call (main_body w).

(** The trace of a run of the program. *)
Definition run (w : World) : list event :=
  trace (snd (main w (mkState [] []))).

(** The exit status of the process: that of [os.Exit] when the run ends
    with it, 0 when [main] returns. *)
Definition exit_status (tr : list event) : Z :=
  match last tr (EvLogInfo "") with
  | EvExit code => code
  | _ => 0
  end.

(** *** Reading a trace *)

Definition resource_eqb (a b : resource) : bool :=
  match a, b with
  | ResBody x, ResBody y => String.eqb x y
  | ResFile x, ResFile y => String.eqb x y
  | ResDB x, ResDB y => String.eqb x y
  | _, _ => false
  end.

Definition acquired (e : event) : option resource :=
  match e with
  | EvHttpGet url true => Some (ResBody url)
  | EvCreate path true => Some (ResFile path)
  | EvOpenDB path true => Some (ResDB path)
  | _ => None
  end.

Fixpoint remove_first (r : resource) (l : list resource) : list resource :=
  match l with
  | [] => []
  | x :: t => if resource_eqb r x then t else x :: remove_first r t
  end.

(** The resources that are open after a trace that starts with the
    resources [held]. *)
Fixpoint open_after (tr : list event) (held : list resource) : list resource :=
  match tr with
  | [] => held
  | e :: rest =>
      match e with
      | EvClose r => open_after rest (remove_first r held)
      | _ =>
          match acquired e with
          | Some r => open_after rest (r :: held)
          | None => open_after rest held
          end
      end
  end.

Definition is_log_err (e : event) : bool :=
  match e with EvLogErr _ => true | _ => false end.

(** The content of the file at [path] after a trace, [None] when the trace
    never created it: [os.Create] truncates, a successful write appends. *)
Fixpoint file_content (tr : list event) (path : string) (cur : option string)
    : option string :=
  match tr with
  | [] => cur
  | e :: rest =>
      match e with
      | EvCreate p true =>
          if String.eqb p path then file_content rest path (Some "")
          else file_content rest path cur
      | EvWrite p data true =>
          if String.eqb p path
          then file_content rest path
                 (match cur with Some c => Some (c ++ data)%string | None => None end)
          else file_content rest path cur
      | _ => file_content rest path cur
      end
  end.

(** The events of the [fmt.Fprintf] calls on [path], from the k-th on. *)
Fixpoint write_events (w : World) (path : string) (k : nat) (texts : list string)
    : list event :=
  match texts with
  | [] => []
  | t :: rest => EvWrite path t (w_Fprintf w path k) :: write_events w path (S k) rest
  end.

(** Every stage before the extraction succeeds. *)
Definition fetch_ok (w : World) : bool :=
  match w_GetMeta w with
  | Err _ => false
  | Ok resp =>
      match BodyRelease resp with
      | Err _ => false
      | Ok release =>
          let url := findDownloadURL (Assets release) in
          negb (String.eqb url "")
          && is_ok (w_Create w tmpMMDB)
          && match w_GetDownload w url with
             | Err _ => false
             | Ok resp2 => (StatusCode resp2 =? 200) && is_ok (BodyCopy resp2)
             end
          && is_ok (w_Rename w)
      end
  end.

(** Every call whose error [main] and [writeSetFile] check succeeds. *)
Definition all_ok (w : World) : bool :=
  fetch_ok w && is_ok (w_Open w) && is_ok (w_Create w outCN4)
  && is_ok (w_Create w outCN6) && snd (w_Restart w).

(** A [Close] of one of the two set files, the only ones that
    [writeSetFile] defers. *)
Definition closes_set_file (e : event) : bool :=
  match e with
  | EvClose (ResFile p) => String.eqb p outCN4 || String.eqb p outCN6
  | EvClose _ => false
  | _ => true
  end.

(** The creations of and the writes to the two set files succeed. *)
Definition writes_ok (w : World) : Prop :=
  w_Create w outCN4 = Ok tt /\ w_Create w outCN6 = Ok tt
  /\ forall path k, w_Fprintf w path k = true.

(** The same world with another status on the metadata response. *)
Definition with_meta_status (status : Z) (w : World) : World :=
  mkWorld
    (match w_GetMeta w with
     | Ok resp => Ok (mkResponse status (BodyRelease resp) (BodyCopy resp))
     | Err e => Err e
     end)
    (w_GetDownload w) (w_Create w) (w_Fprintf w) (w_Rename w) (w_Open w)
    (w_Restart w).

(** *** The classifier and the extractor in the words of the specification *)

Inductive family : Type := IPv4 | IPv6.

(** [classify(network, record, targetCode)]: nothing unless the code is the
    target code and the network re-parses; then the family, by the 4-byte
    form of the base address, and the canonical CIDR text. *)
Definition spec_classify (targetCode : string) (e : entry) : option (family * string) :=
  match e with
  | DecodeError => None
  | Decoded network rec =>
      if String.eqb (ISOCode rec) targetCode then
        match Net.ParseCIDR (Net.IPNet_String network) with
        | None => None
        | Some (_, ipNet) =>
            Some (match Net.To4 (Net.ipn_IP ipNet) with [] => IPv6 | _ => IPv4 end,
                  Net.IPNet_String ipNet)
        end
      else None
  end.

Definition of_family (f : family) (c : option (family * string)) : list string :=
  match f, c with
  | IPv4, Some (IPv4, s) => [s]
  | IPv6, Some (IPv6, s) => [s]
  | _, _ => []
  end.

(** [extract(db, targetCode)] as an order-preserving filterMap. *)
Definition spec_extract (targetCode : string) (db : list entry)
    : list string * list string :=
  (flat_map (fun e => of_family IPv4 (spec_classify targetCode e)) db,
   flat_map (fun e => of_family IPv6 (spec_classify targetCode e)) db).

(** An entry that fails on its own: its record does not decode, or its
    network does not re-parse. *)
Definition entry_fails (e : entry) : Prop :=
  match e with
  | DecodeError => True
  | Decoded network _ => Net.ParseCIDR (Net.IPNet_String network) = None
  end.

(** An element parses as a CIDR of the family; the family is decided by the
    4-byte form of the parsed network's base address. *)
Definition parses_as (f : family) (s : string) : Prop :=
  exists ip ipNet,
    Net.ParseCIDR s = Some (ip, ipNet)
    /\ match f with
       | IPv4 => Net.To4 (Net.ipn_IP ipNet) <> []
       | IPv6 => Net.To4 (Net.ipn_IP ipNet) = []
       end.

(** A computation only adds to the trace. *)
Definition extends {A} (p : Proc A) : Prop :=
  forall st, exists t, trace (snd (p st)) = (trace st ++ t)%list.

(** An event of the download stage: the creation of the temporary file, a
    write to it, or a request that is not the metadata request. *)
Definition download_event (e : event) : bool :=
  match e with
  | EvCreate p _ => String.eqb p tmpMMDB
  | EvWrite p _ _ => String.eqb p tmpMMDB
  | EvHttpGet url _ => negb (String.eqb url apiURL)
  | _ => false
  end.

(** The lines of a set file, without their line ends. *)
Definition set_lines (setName addrType : string) (items : list string)
    : list string :=
  ([ "set " ++ setName ++ " {"; "    type " ++ addrType; "    flags interval";
     "    elements = {" ]%string
   ++ map (fun n => "        " ++ n ++ ",")%string items
   ++ [ "    }"; "}" ])%list.

(** *** Sample inputs *)

Definition sample_before : list entry :=
  [ Decoded (Net.mkIPNet [10; 0; 0; 0] (Net.CIDRMask 8 32)) (mkCountryRecord "CN");
    Decoded (Net.mkIPNet [192; 168; 0; 0] (Net.CIDRMask 16 32)) (mkCountryRecord "US");
    DecodeError ].

(** An entry whose network has no mask: its text is "<nil>". *)
Definition sample_bad : entry :=
  Decoded (Net.mkIPNet [0; 0; 0; 0] []) (mkCountryRecord "CN").

Definition sample_after : list entry :=
  [ Decoded (Net.mkIPNet [32; 1; 13; 184; 0; 0; 0; 0; 0; 0; 0; 0; 0; 0; 0; 0]
               (Net.CIDRMask 32 128)) (mkCountryRecord "CN");
    Decoded (Net.mkIPNet [1; 2; 3; 0] (Net.CIDRMask 24 32)) (mkCountryRecord "cn") ].

Definition sample_db : list entry := (sample_before ++ sample_bad :: sample_after)%list.

Definition sample_release : GitHubRelease :=
  mkRelease "2026.10.30"
    [ mkAsset "GeoLite2-ASN.tar.gz" "https://example.org/asn.tar.gz";
      mkAsset "GeoLite2-Country.mmdb" "https://example.org/country.mmdb";
      mkAsset "GeoLite2-City.mmdb" "https://example.org/city.mmdb" ].

(** A world in which every call succeeds. *)
Definition sample_world : World :=
  mkWorld
    (Ok (mkResponse 200 (Ok sample_release) (Err "not read")))
    (fun _ => Ok (mkResponse 200 (Err "not json") (Ok "mmdb bytes")))
    (fun _ => Ok tt)
    (fun _ _ => true)
    (Ok tt)
    (Ok sample_db)
    ("", true).

(** The same world, but the release has no asset with the extension. *)
Definition world_no_asset : World :=
  mkWorld
    (Ok (mkResponse 200
           (Ok (mkRelease "2026.10.30"
                  [ mkAsset "GeoLite2-ASN.tar.gz" "https://example.org/asn.tar.gz";
                    mkAsset "mmdb" "https://example.org/mmdb" ]))
           (Err "not read")))
    (w_GetDownload sample_world) (w_Create sample_world) (w_Fprintf sample_world)
    (w_Rename sample_world) (w_Open sample_world) (w_Restart sample_world).

(** The same world, but the second write to the IPv4 set file fails. *)
Definition world_write_fails : World :=
  mkWorld
    (w_GetMeta sample_world) (w_GetDownload sample_world) (w_Create sample_world)
    (fun path k => negb (String.eqb path outCN4 && Nat.eqb k 1))
    (w_Rename sample_world) (w_Open sample_world) (w_Restart sample_world).

(** The same world, but the body of the metadata response is not a release. *)
Definition world_bad_json : World :=
  mkWorld
    (Ok (mkResponse 200 (Err "invalid character '<'") (Err "not read")))
    (w_GetDownload sample_world) (w_Create sample_world) (w_Fprintf sample_world)
    (w_Rename sample_world) (w_Open sample_world) (w_Restart sample_world).

(** The same world, but the database does not open. *)
Definition world_bad_db : World :=
  mkWorld
    (w_GetMeta sample_world) (w_GetDownload sample_world) (w_Create sample_world)
    (w_Fprintf sample_world) (w_Rename sample_world)
    (Err "error opening database: invalid MaxMind DB file")
    (w_Restart sample_world).

(** ** Notions used in the proofs *)

Import Net.

(** The integers from 0 to [n - 1]: a property with a boolean test holds on
    the range when the test evaluates to true on each of them. *)
Definition upto (n : nat) : list Z := map Z.of_nat (seq 0 n).

(** A value of Go's [byte]. *)
Definition is_byte (x : Z) : Prop := 0 <= x < 256.

(** [digits[d]] is the hex digit of value [d] and no separator. *)
Definition digit_ok (d : Z) : bool :=
  match hexval (digit d) with Some v => v =? d | None => false end
  && negb (is_char (digit d) ":") && negb (is_char (digit d) ".")
  && negb (is_char (digit d) "%") && negb (is_char (digit d) "/").

(** [digits[d]] is the decimal digit of value [d]. *)
Definition decimal_ok (d : Z) : bool :=
  is_digit (digit d) && (byte_of (digit d) - byte_of "0" =? d).

(** The characters that separate: none of them is a digit. *)
Definition separator (c : ascii) : bool :=
  is_char c ":" || is_char c "." || is_char c "%" || is_char c "/".

(** The mask of [k] ones of an IPv4 network has four bytes and the length
    [k]. *)
Definition mask4_ok (k : Z) : bool :=
  (simpleMaskLength (CIDRMask k 32) =? k)
  && (List.length (CIDRMask k 32) =? 4)%nat
  && forallb (fun b => (0 <=? b) && (b <? 256)) (CIDRMask k 32).

(** The same for an IPv6 network; its last four bytes are the IPv4 mask of
    the ones beyond the first 96. *)
Definition mask16_ok (k : Z) : bool :=
  (simpleMaskLength (CIDRMask k 128) =? k)
  && (List.length (CIDRMask k 128) =? 16)%nat
  && forallb (fun b => (0 <=? b) && (b <? 256)) (CIDRMask k 128)
  && bytes_eqb (slice (CIDRMask k 128) 12 16) (CIDRMask (Z.max 0 (k - 96)) 32).

(** The printed prefix length [k] reads back as [k], to its end. *)
Definition prefix_ok (k : Z) : bool :=
  let '(n, i, ok) := dtoi (uitoa k) in
  (n =? k) && (i =? strlen (uitoa k)) && ok.

(** Every character of [s] passes the test [P]. *)
Fixpoint str_forall (P : ascii -> bool) (s : string) : bool :=
  match s with
  | EmptyString => true
  | String c t => P c && str_forall P t
  end.

Definition not_separator (c : ascii) : bool := negb (separator c).

(** A value of Go's [uint16]: a group of an IPv6 address. *)
Definition is_u16 (g : Z) : Prop := 0 <= g < 65536.

(** What may follow a printed group: the end of the text, or a character
    that is not a hex digit. *)
Definition group_end (rest : string) : Prop :=
  match rest with
  | EmptyString => True
  | String c _ => hexval c = None
  end.

(** A hex digit, of either case. *)
Definition is_hex (c : ascii) : bool :=
  match hexval c with Some _ => true | None => false end.

(** [ip[i] = byte(acc >> 8); ip[i+1] = byte(acc)] *)
Definition store_group (ip : list Z) (i g : Z) : list Z :=
  store (store ip i (uint8 (Z.shiftr g 8))) (i + 1) (uint8 g).

(** A text that starts with a hex digit. *)
Definition starts_group (s : string) : Prop :=
  exists c t, s = String c t /\ is_hex c = true /\ not_separator c = true.

(** What the first loop of [appendTo6] leaves in [zeroStart] and [zeroEnd]:
    nothing, or the bounds of a run of at least two zero groups. *)
Definition zero_run (b : list Z) (zs ze : Z) : Prop :=
  (zs = 255 /\ ze = 255)
  \/ (0 <= zs /\ zs + 2 <= ze <= 8 /\ forall k, zs <= k < ze -> v6u16 b k = 0).

(** The characters of a printed IPv6 address. *)
Definition hex_or_colon (c : ascii) : bool :=
  (is_hex c && not_separator c) || is_char c ":".

(** A slice of [n] bytes. *)
Definition bytes (n : nat) (b : list Z) : Prop :=
  List.length b = n /\ Forall is_byte b.

(** An address of 4 or of 16 bytes. *)
Definition wf_addr (a : Addr) : Prop :=
  match a with
  | AddrFrom4 b => bytes 4 b
  | AddrFrom16 b _ => bytes 16 b
  end.

(** [out[i] = ip[i] & mask[i]] *)
Definition land_bytes (ip mask : list Z) : list Z :=
  map (fun xy => Z.land (fst xy) (snd xy)) (combine ip mask).

(** ** The run in direct style, and what is counted in a trace *)

(** *** The trace of a run, stage by stage *)

(** [logErr(err); os.Exit(1)] *)
Definition die (msg : string) : list event := [EvLogErr msg; EvExit 1].

(** The events of one call of [writeSetFile], followed by [next] when the
    call returns. *)
Definition set_file_events (w : World) (path setName addrType : string)
    (items : list string) (next : list event) : list event :=
  match w_Create w path with
  | Err e => EvCreate path false :: die e
  | Ok _ =>
      EvCreate path true
      :: (write_events w path 0 (set_writes setName addrType items)
          ++ EvClose (ResFile path) :: next)%list
  end.

(** The events of steps 5 to 7 of [main], when the database opened with the
    entries [db] and [url] was the download URL. *)
Definition generate_events (w : World) (url : string) (db : list entry)
    : list event :=
  let '(cnIPv4, cnIPv6) := extract db in
  set_file_events w outCN4 "cn4" "ipv4_addr" cnIPv4
    (set_file_events w outCN6 "cn6" "ipv6_addr" cnIPv6
       (EvLogInfo "Generated:"
        :: EvLogInfo ("- " ++ outCN4 ++ " (" ++ fmt_d (len cnIPv4) ++ " IPv4 ranges)")
        :: EvLogInfo ("- " ++ outCN6 ++ " (" ++ fmt_d (len cnIPv6) ++ " IPv6 ranges)")
        :: EvLogInfo "Reloading nftables..."
        :: EvExec "systemctl restart nftables" (snd (w_Restart w))
        :: (if snd (w_Restart w)
            then [ EvLogInfo "Done.";
                   EvClose (ResDB saveMMDB); EvClose (ResBody url);
                   EvClose (ResFile tmpMMDB); EvClose (ResBody apiURL) ]
            else die ("systemctl output: " ++ fst (w_Restart w))))).

(** The events of the download and of what follows it, for the URL [url]. *)
Definition download_events (w : World) (url : string) : list event :=
  EvLogInfo ("MMDB download URL: " ++ url)
  :: EvLogInfo "Downloading MMDB..."
  :: EvCreate tmpMMDB (is_ok (w_Create w tmpMMDB))
  :: match w_Create w tmpMMDB with
     | Err e => die e
     | Ok _ =>
         EvHttpGet url (is_ok (w_GetDownload w url))
         :: match w_GetDownload w url with
            | Err e => die e
            | Ok resp2 =>
                if StatusCode resp2 =? 200 then
                  match BodyCopy resp2 with
                  | Err e => die e
                  | Ok data =>
                      EvWrite tmpMMDB data true
                      :: EvLogInfo "Download complete."
                      :: EvLogInfo "Replacing old MMDB..."
                      :: EvRename tmpMMDB saveMMDB (is_ok (w_Rename w))
                      :: match w_Rename w with
                         | Err e => die e
                         | Ok _ =>
                             EvLogInfo "Parsing MMDB and generating nftables sets..."
                             :: EvOpenDB saveMMDB (is_ok (w_Open w))
                             :: match w_Open w with
                                | Err e => die e
                                | Ok db => generate_events w url db
                                end
                         end
                  end
                else die ("download failed: " ++ fmt_d (StatusCode resp2))
            end
     end.

(** The whole run. *)
Definition run_events (w : World) : list event :=
  EvLogInfo "Fetching latest GitHub release metadata..."
  :: EvHttpGet apiURL (is_ok (w_GetMeta w))
  :: match w_GetMeta w with
     | Err e => die e
     | Ok resp =>
         match BodyRelease resp with
         | Err e => die e
         | Ok release =>
             EvLogInfo ("Latest tag: " ++ TagName release)
             :: (if String.eqb (findDownloadURL (Assets release)) ""
                 then die "no mmdb file found in release"
                 else download_events w (findDownloadURL (Assets release)))
         end
     end.

(** The number of events of a trace that pass a test. *)
Definition count (P : event -> bool) (tr : list event) : nat :=
  List.length (filter P tr).

Definition is_http_get (e : event) : bool :=
  match e with EvHttpGet _ _ => true | _ => false end.

Definition is_create (e : event) : bool :=
  match e with EvCreate _ _ => true | _ => false end.

Definition is_rename (e : event) : bool :=
  match e with EvRename _ _ _ => true | _ => false end.

Definition is_open_db (e : event) : bool :=
  match e with EvOpenDB _ _ => true | _ => false end.

Definition is_exec (e : event) : bool :=
  match e with EvExec _ _ => true | _ => false end.

Definition is_write (e : event) : bool :=
  match e with EvWrite _ _ _ => true | _ => false end.

(** The asset's name has the extension of a database. *)
Definition has_mmdb_ext (a : GitHubAsset) : bool := String.eqb (Ext (Name a)) ".mmdb".

(** Every step up to the restart succeeds: the two set files are there. *)
Definition sets_written (w : World) : bool :=
  fetch_ok w && is_ok (w_Open w) && is_ok (w_Create w outCN4)
  && is_ok (w_Create w outCN6).

(** The world of the sample in which [systemctl] fails. *)
Definition world_restart_fails : World :=
  mkWorld
    (w_GetMeta sample_world) (w_GetDownload sample_world) (w_Create sample_world)
    (w_Fprintf sample_world) (w_Rename sample_world) (w_Open sample_world)
    ("Job for nftables.service failed.", false).

(** The release of the sample, with a first database asset that has no
    address. *)
Definition world_empty_url : World :=
  mkWorld
    (Ok (mkResponse 200
           (Ok (mkRelease "2026.10.30"
                  [ mkAsset "GeoLite2-ASN.tar.gz" "https://example.org/asn.tar.gz";
                    mkAsset "GeoLite2-Country.mmdb" "";
                    mkAsset "GeoLite2-City.mmdb" "https://example.org/city.mmdb" ]))
           (Err "not read")))
    (w_GetDownload sample_world) (w_Create sample_world) (w_Fprintf sample_world)
    (w_Rename sample_world) (w_Open sample_world) (w_Restart sample_world).

(** The text of an IPv4 network in canonical form: dotted decimal, a
    prefix length up to 32, no bit set beyond the prefix. *)
Definition canonical4 (x : string) : Prop :=
  exists c k,
    bytes 4 c /\ 0 <= k <= 32 /\ land_bytes c (CIDRMask k 32) = c
    /\ x = (string4 c ++ "/" ++ uitoa k)%string.

(** The same for an IPv6 network that is not an IPv4-mapped one. *)
Definition canonical6 (x : string) : Prop :=
  exists c k,
    bytes 16 c /\ Is4In6 c = false /\ 0 <= k <= 128
    /\ land_bytes c (CIDRMask k 128) = c
    /\ x = (string6 c ++ "/" ++ uitoa k)%string.

(** A mask of [k] ones whose twelfth byte is full has its first twelve
    bytes full. *)
Definition mapped_mask_ok (k : Z) : bool :=
  negb (at_ (CIDRMask k 128) 11 =? 255) || allFF (slice (CIDRMask k 128) 0 12).

(** * Properties *)

Local Open Scope proc_scope.

(** ** The process *)

Lemma Fprintf_all_trace (w : World) (path : string) (texts : list string) :
  forall k st,
    Fprintf_all w path k texts st
    = (Some tt, mkState (trace st ++ write_events w path k texts) (deferred st)).
Proof.
  induction texts as [|t rest IH]; intros k st; simpl.
  - unfold ret. rewrite app_nil_r. now destruct st.
  - unfold bind, Fprintf, emit. rewrite IH. simpl.
    now rewrite <- app_assoc.
Qed.

Lemma writeSetFile_created (w : World) (path setName addrType : string)
    (items : list string) (st : state) :
  w_Create w path = Ok tt ->
  writeSetFile w path setName addrType items st
  = (Some tt,
     mkState (trace st ++ EvCreate path true
                :: write_events w path 0 (set_writes setName addrType items)
                ++ [EvClose (ResFile path)])
             (deferred st)).
Proof.
  intros Hc. unfold writeSetFile, call, bind, emit, check, defer.
  rewrite Hc. unfold ret. cbn [trace deferred is_ok].
  rewrite Fprintf_all_trace. cbn [trace deferred map].
  f_equal. f_equal. rewrite <- !app_assoc. reflexivity.
Qed.

Lemma writeSetFile_failed (w : World) (path setName addrType : string)
    (items : list string) (st : state) (e : string) :
  w_Create w path = Err e ->
  writeSetFile w path setName addrType items st
  = (None, mkState (trace st ++ [EvCreate path false; EvLogErr e; EvExit 1]) []).
Proof.
  intros Hc. unfold writeSetFile, call, bind, emit, check, defer.
  rewrite Hc. unfold logErr, emit, os_Exit, bind. cbn [trace deferred is_ok].
  rewrite <- !app_assoc. reflexivity.
Qed.

Lemma file_content_app (tr1 tr2 : list event) (path : string) :
  forall cur,
    file_content (tr1 ++ tr2) path cur
    = file_content tr2 path (file_content tr1 path cur).
Proof.
  induction tr1 as [|e tr1 IH]; intros cur; simpl; [reflexivity|].
  destruct e; try apply IH.
  - destruct ok; [destruct (String.eqb path0 path)|]; apply IH.
  - destruct ok; [destruct (String.eqb path0 path)|]; apply IH.
Qed.

Lemma string_app_assoc (a b c : string) : ((a ++ b) ++ c = a ++ (b ++ c))%string.
Proof. induction a; simpl; [reflexivity | now rewrite IHa]. Qed.

Lemma string_app_nil_r (a : string) : (a ++ "" = a)%string.
Proof. induction a; simpl; [reflexivity | now rewrite IHa]. Qed.

Lemma file_content_writes (w : World) (path : string) (texts : list string) :
  (forall k, w_Fprintf w path k = true) ->
  forall k c,
    file_content (write_events w path k texts) path (Some c)
    = Some (c ++ join_texts texts)%string.
Proof.
  intros Hw. induction texts as [|t rest IH]; intros k c; simpl.
  - now rewrite string_app_nil_r.
  - rewrite Hw, String.eqb_refl, IH. now rewrite string_app_assoc.
Qed.

Lemma file_content_writes_other (w : World) (path other : string)
    (texts : list string) :
  String.eqb path other = false ->
  forall k cur, file_content (write_events w path k texts) other cur = cur.
Proof.
  intros Hne. induction texts as [|t rest IH]; intros k cur; simpl; [reflexivity|].
  rewrite Hne. destruct (w_Fprintf w path k); apply IH.
Qed.

(** Steps 1 to 4 in a world in which each of them succeeds. *)
Lemma main_fetch_ok (w : World) :
  fetch_ok w = true ->
  exists pre held,
    main_fetch w (mkState [] []) = (Some tt, mkState pre held)
    /\ file_content pre outCN4 None = None
    /\ file_content pre outCN6 None = None
    /\ Forall (fun e => is_log_err e = false) pre.
Proof.
  unfold fetch_ok. intros H.
  destruct (w_GetMeta w) as [resp|] eqn:Hm; [|discriminate].
  destruct (BodyRelease resp) as [release|] eqn:Hr; [|discriminate].
  destruct (String.eqb (findDownloadURL (Assets release)) "") eqn:Hu; [discriminate|].
  destruct (w_Create w tmpMMDB) as [[]|] eqn:Hc; [|discriminate].
  destruct (w_GetDownload w (findDownloadURL (Assets release))) as [resp2|] eqn:Hd;
    [|discriminate].
  destruct (StatusCode resp2 =? 200) eqn:Hs; [|discriminate].
  destruct (BodyCopy resp2) as [data|] eqn:Hb; [|discriminate].
  destruct (w_Rename w) as [[]|] eqn:Hn; [|discriminate].
  unfold main_fetch, bind, logInfo, emit. cbn [trace deferred].
  rewrite Hm. cbn [check ret is_ok defer trace deferred].
  rewrite Hr. cbn [check ret is_ok defer trace deferred].
  rewrite Hu. cbn [check ret is_ok defer trace deferred].
  rewrite Hc. cbn [check ret is_ok defer trace deferred].
  rewrite Hd. cbn [check ret is_ok defer trace deferred].
  rewrite Hs. cbn [check ret is_ok defer trace deferred negb].
  rewrite Hb. cbn [check ret is_ok defer trace deferred].
  rewrite Hn. cbn [check ret is_ok defer trace deferred app].
  eexists. eexists. split; [reflexivity|].
  split; [reflexivity|]. split; [reflexivity|].
  repeat constructor.
Qed.

(** The extraction loop is the order-preserving filterMap. *)
Lemma extract_step_classify (cn4 cn6 : list string) (e : entry) :
  extract_step (cn4, cn6) e
  = ((cn4 ++ of_family IPv4 (spec_classify "CN" e))%list,
     (cn6 ++ of_family IPv6 (spec_classify "CN" e))%list).
Proof.
  destruct e as [|network rec]; simpl.
  - now rewrite !app_nil_r.
  - destruct (String.eqb (ISOCode rec) "CN"); [|now rewrite !app_nil_r].
    destruct (Net.ParseCIDR (Net.IPNet_String network)) as [[ip ipNet]|];
      [|now rewrite !app_nil_r].
    unfold len. destruct (Net.To4 (Net.ipn_IP ipNet)); simpl;
      now rewrite !app_nil_r.
Qed.

Lemma extract_from (db : list entry) :
  forall cn4 cn6,
    fold_left extract_step db (cn4, cn6)
    = ((cn4 ++ fst (spec_extract "CN" db))%list,
       (cn6 ++ snd (spec_extract "CN" db))%list).
Proof.
  induction db as [|e db IH]; intros cn4 cn6; cbn [fold_left].
  - simpl. now rewrite !app_nil_r.
  - rewrite extract_step_classify, IH. simpl. now rewrite <- !app_assoc.
Qed.

Lemma extract_is_filterMap (db : list entry) : extract db = spec_extract "CN" db.
Proof. unfold extract. now rewrite extract_from. Qed.

Lemma file_content_closes (rs : list resource) (path : string) (cur : option string) :
  file_content (map EvClose rs) path cur = cur.
Proof. induction rs; simpl; auto. Qed.

(** The set files after a run in which everything up to their writing
    succeeds. *)
Lemma run_contents (w : World) (db : list entry) :
  fetch_ok w = true -> writes_ok w -> w_Open w = Ok db ->
  file_content (run w) outCN4 None
  = Some (serialize "cn4" "ipv4_addr" (fst (extract db)))
  /\ file_content (run w) outCN6 None
     = Some (serialize "cn6" "ipv6_addr" (snd (extract db))).
Proof.
  intros Hf (Hc4 & Hc6 & Hw) Ho.
  destruct (main_fetch_ok w Hf) as (pre & held & Hrun & Hp4 & Hp6 & _).
  remember (run w) as tr eqn:Htr.
  unfold run, main, call, main_body in Htr. cbn [trace deferred] in Htr.
  unfold bind at 1 in Htr. rewrite Hrun in Htr.
  unfold main_generate, bind, logInfo, emit in Htr. cbn [trace deferred] in Htr.
  rewrite Ho in Htr. revert Htr. cbn [check ret is_ok defer trace deferred].
  destruct (extract db) as [cnIPv4 cnIPv6]. cbn [fst snd].
  rewrite (writeSetFile_created _ _ _ _ _ _ Hc4). cbn [trace deferred].
  rewrite (writeSetFile_created _ _ _ _ _ _ Hc6). cbn [trace deferred].
  intros Htr.
  assert (H4 : forall cur, file_content
            (EvCreate outCN4 true
             :: write_events w outCN4 0 (set_writes "cn4" "ipv4_addr" cnIPv4)
             ++ [EvClose (ResFile outCN4)]) outCN4 cur
          = Some (serialize "cn4" "ipv4_addr" cnIPv4)).
  { intros cur. cbn [file_content]. rewrite String.eqb_refl, file_content_app.
    rewrite file_content_writes by (intro; apply Hw). reflexivity. }
  assert (H6 : forall cur, file_content
            (EvCreate outCN6 true
             :: write_events w outCN6 0 (set_writes "cn6" "ipv6_addr" cnIPv6)
             ++ [EvClose (ResFile outCN6)]) outCN6 cur
          = Some (serialize "cn6" "ipv6_addr" cnIPv6)).
  { intros cur. cbn [file_content]. rewrite String.eqb_refl, file_content_app.
    rewrite file_content_writes by (intro; apply Hw). reflexivity. }
  assert (H46 : forall cur, file_content
            (EvCreate outCN4 true
             :: write_events w outCN4 0 (set_writes "cn4" "ipv4_addr" cnIPv4)
             ++ [EvClose (ResFile outCN4)]) outCN6 cur = cur).
  { intros cur. cbn [file_content].
    replace (String.eqb outCN4 outCN6) with false by reflexivity.
    rewrite file_content_app, file_content_writes_other by reflexivity.
    reflexivity. }
  assert (H64 : forall cur, file_content
            (EvCreate outCN6 true
             :: write_events w outCN6 0 (set_writes "cn6" "ipv6_addr" cnIPv6)
             ++ [EvClose (ResFile outCN6)]) outCN4 cur = cur).
  { intros cur. cbn [file_content].
    replace (String.eqb outCN6 outCN4) with false by reflexivity.
    rewrite file_content_app, file_content_writes_other by reflexivity.
    reflexivity. }
  destruct (snd (w_Restart w));
    cbn [negb ret logErr emit os_Exit trace deferred snd] in Htr; subst tr;
    split;
    rewrite !file_content_app, ?file_content_closes, ?Hp4, ?Hp6, ?H4, ?H6, ?H46, ?H64;
    cbn [file_content];
    rewrite ?H4, ?H6, ?H46, ?H64; reflexivity.
Qed.


(** ** Go's net package: what is printed parses back *)

(** *** Checking a property on a range of integers by evaluation *)

Lemma in_upto (n : nat) (k : Z) : 0 <= k < Z.of_nat n -> In k (upto n).
Proof.
  intros H. unfold upto. apply in_map_iff. exists (Z.to_nat k). split; [lia|].
  apply in_seq. lia.
Qed.

Lemma forall_upto (P : Z -> bool) (n : nat) :
  forallb P (upto n) = true -> forall k, 0 <= k < Z.of_nat n -> P k = true.
Proof.
  intros H k Hk. rewrite forallb_forall in H. apply H. now apply in_upto.
Qed.

(** *** Bytes and slices *)

Lemma length_store (l : list Z) (i v : Z) :
  List.length (store l i v) = List.length l.
Proof.
  unfold store. generalize (Z.to_nat i). intros n. revert n.
  induction l as [|h t IH]; intros [|n]; simpl; auto.
Qed.

Lemma Forall_store (P : Z -> Prop) (l : list Z) (i v : Z) :
  Forall P l -> P v -> Forall P (store l i v).
Proof.
  unfold store. generalize (Z.to_nat i). intros n Hl Hv. revert n.
  induction Hl as [|h t Hh Ht IH]; intros [|n]; simpl; auto.
Qed.

Lemma is_byte_at (l : list Z) (i : Z) : Forall is_byte l -> is_byte (at_ l i).
Proof.
  unfold at_. generalize (Z.to_nat i). intros n Hl. revert n.
  induction Hl as [|h t Hh Ht IH]; intros [|n]; simpl; auto; unfold is_byte; lia.
Qed.

Lemma is_byte_uint8 (x : Z) : is_byte (uint8 x).
Proof. unfold is_byte, uint8. apply Z.mod_pos_bound. lia. Qed.

Lemma uint8_byte (x : Z) : is_byte x -> uint8 x = x.
Proof. unfold is_byte, uint8. intros H. now apply Z.mod_small. Qed.

(** *** Digits *)

Lemma digit_ok_all (d : Z) : 0 <= d < 16 -> digit_ok d = true.
Proof. apply (forall_upto digit_ok 16). vm_compute. reflexivity. Qed.

Lemma decimal_ok_all (d : Z) : 0 <= d < 10 -> decimal_ok d = true.
Proof. apply (forall_upto decimal_ok 10). vm_compute. reflexivity. Qed.

Lemma hexval_digit (d : Z) : 0 <= d < 16 -> hexval (digit d) = Some d.
Proof.
  intros H. pose proof (digit_ok_all d H) as Hd. unfold digit_ok in Hd.
  destruct (hexval (digit d)) as [v|]; [|discriminate].
  rewrite !andb_true_iff in Hd. destruct Hd as [[[[Hv _] _] _] _].
  apply Z.eqb_eq in Hv. now subst.
Qed.

Lemma digit_not_separator (d : Z) : 0 <= d < 16 -> separator (digit d) = false.
Proof.
  intros H. pose proof (digit_ok_all d H) as Hd. unfold digit_ok in Hd.
  rewrite !andb_true_iff, !negb_true_iff in Hd.
  destruct Hd as [[[[_ H1] H2] H3] H4]. unfold separator.
  now rewrite H1, H2, H3, H4.
Qed.

Lemma is_digit_digit (d : Z) : 0 <= d < 10 -> is_digit (digit d) = true.
Proof.
  intros H. pose proof (decimal_ok_all d H) as Hd. unfold decimal_ok in Hd.
  now apply andb_true_iff in Hd.
Qed.

Lemma value_digit (d : Z) : 0 <= d < 10 -> byte_of (digit d) - byte_of "0" = d.
Proof.
  intros H. pose proof (decimal_ok_all d H) as Hd. unfold decimal_ok in Hd.
  apply andb_true_iff in Hd. now apply Z.eqb_eq.
Qed.

(** *** Masks *)

Lemma bytes_eqb_eq (a b : list Z) : bytes_eqb a b = true -> a = b.
Proof.
  unfold bytes_eqb. revert b. induction a as [|x a IH]; intros [|y b]; simpl;
    try discriminate; auto.
  rewrite !andb_true_iff. intros [Hl [Hxy Hr]]. apply Z.eqb_eq in Hxy. subst.
  f_equal. apply IH. now rewrite Hl, Hr.
Qed.

Lemma mask4_ok_all (k : Z) : 0 <= k <= 32 -> mask4_ok k = true.
Proof. intros H. apply (forall_upto mask4_ok 33); [vm_compute; reflexivity | lia]. Qed.

Lemma mask16_ok_all (k : Z) : 0 <= k <= 128 -> mask16_ok k = true.
Proof. intros H. apply (forall_upto mask16_ok 129); [vm_compute; reflexivity | lia]. Qed.

(** *** Prefix lengths *)

Lemma prefix_ok_all (k : Z) : 0 <= k <= 128 -> prefix_ok k = true.
Proof. intros H. apply (forall_upto prefix_ok 129); [vm_compute; reflexivity | lia]. Qed.

Lemma dtoi_uitoa (k : Z) :
  0 <= k <= 128 -> dtoi (uitoa k) = (k, strlen (uitoa k), true).
Proof.
  intros H. pose proof (prefix_ok_all k H) as Hp. unfold prefix_ok in Hp.
  destruct (dtoi (uitoa k)) as [[n i] ok].
  rewrite !andb_true_iff in Hp. destruct Hp as [[Hn Hi] Hok].
  apply Z.eqb_eq in Hn, Hi. now subst.
Qed.


(** *** Strings *)

Lemma str_forall_app (P : ascii -> bool) (a b : string) :
  str_forall P (a ++ b) = str_forall P a && str_forall P b.
Proof. induction a as [|c a IH]; simpl; [reflexivity|]. now rewrite IH, andb_assoc. Qed.

Lemma str_forall_impl (P Q : ascii -> bool) (s : string) :
  (forall c, P c = true -> Q c = true) ->
  str_forall P s = true -> str_forall Q s = true.
Proof.
  intros H. induction s as [|c s IH]; simpl; [reflexivity|].
  rewrite !andb_true_iff. intros [Hc Hs]. auto.
Qed.

Lemma strlen_app (a b : string) : strlen (a ++ b) = strlen a + strlen b.
Proof. unfold strlen. induction a as [|c a IH]; simpl String.length; lia. Qed.

Lemma strlen_nonneg (a : string) : 0 <= strlen a.
Proof. unfold strlen. lia. Qed.

Lemma IndexByteString_absent (s : string) (c : ascii) :
  str_forall (fun x => negb (is_char x c)) s = true -> IndexByteString s c = -1.
Proof.
  induction s as [|a s IH]; simpl; [reflexivity|].
  rewrite andb_true_iff, negb_true_iff. unfold is_char. intros [Ha Hs].
  rewrite Ha, (IH Hs). reflexivity.
Qed.

Lemma IndexByteString_first (a b : string) (c : ascii) :
  str_forall (fun x => negb (is_char x c)) a = true ->
  IndexByteString (a ++ String c b) c = strlen a.
Proof.
  induction a as [|x a IH]; simpl.
  - intros _. now rewrite Ascii.eqb_refl.
  - rewrite andb_true_iff, negb_true_iff. unfold is_char. intros [Hx Ha].
    rewrite Hx, (IH Ha). pose proof (strlen_nonneg a).
    destruct (strlen a <? 0) eqn:E; [lia|]. unfold strlen. simpl String.length. lia.
Qed.

Lemma str_to_app (a b : string) : str_to (a ++ b) (strlen a) = a.
Proof.
  unfold str_to, strlen. rewrite Nat2Z.id.
  induction a as [|x a IH]; simpl.
  - now destruct b.
  - now rewrite IH.
Qed.

Lemma str_from_app (a b : string) (c : ascii) :
  str_from (a ++ String c b) (strlen a + 1) = b.
Proof.
  unfold str_from, strlen.
  replace (Z.to_nat (Z.of_nat (String.length a) + 1)) with (S (String.length a)) by lia.
  induction a as [|x a IH]; cbn [String.length String.append str_from_nat].
  - now destruct b.
  - exact IH.
Qed.

(** *** Dotted decimal *)

Lemma appendDecimal_digits (x : Z) :
  is_byte x -> str_forall is_digit (appendDecimal x) = true.
Proof.
  unfold is_byte, appendDecimal. intros H.
  destruct (x >=? 100) eqn:E1; destruct (x >=? 10) eqn:E2; simpl;
    rewrite ?is_digit_digit; auto;
    try (apply Z.mod_pos_bound; lia);
    try (split; [apply Z.div_pos; lia | apply Z.div_lt_upper_bound; lia]).
Qed.

Lemma is_digit_not_separator (c : ascii) : is_digit c = true -> not_separator c = true.
Proof.
  unfold is_digit, not_separator, separator, is_char, byte_of.
  destruct c as [[] [] [] [] [] [] [] []]; vm_compute; congruence.
Qed.

(** Reading one printed byte: the loop comes out of the digits with the
    value of the byte, after a character that is not a dot. *)
Lemma parseIPv4Fields_loop_byte (x : Z) :
  is_byte x ->
  exists p dl,
    is_char p "." = false
    /\ forall rest prev pos fields,
         parseIPv4Fields_loop (appendDecimal x ++ rest) prev 0 pos 0 fields
         = parseIPv4Fields_loop rest (Some p) x pos dl fields.
Proof.
  unfold is_byte. intros H.
  assert (Hd : forall d, 0 <= d < 10 -> is_char (digit d) "." = false).
  { intros d Hd. pose proof (digit_not_separator d ltac:(lia)) as Hs.
    unfold separator in Hs. rewrite !orb_false_iff in Hs. tauto. }
  unfold appendDecimal.
  destruct (x >=? 100) eqn:E1; destruct (x >=? 10) eqn:E2; try lia.
  - (* three digits *)
    assert (H1 : 0 <= x / 100 < 10) by (Z.div_mod_to_equations; lia).
    assert (H2 : 0 <= x / 10 mod 10 < 10) by (apply Z.mod_pos_bound; lia).
    assert (H3 : 0 <= x mod 10 < 10) by (apply Z.mod_pos_bound; lia).
    exists (digit (x mod 10)), 3. split; [now apply Hd|].
    intros rest prev pos fields. simpl.
    rewrite !is_digit_digit, !value_digit by assumption.
    assert (Hv1 : 1 <= x / 100 <= 2) by (Z.div_mod_to_equations; lia).
    assert (Hv2 : x / 100 * 10 + x / 10 mod 10 = x / 10)
      by (Z.div_mod_to_equations; lia).
    assert (Hv3 : x / 10 <= 25) by (Z.div_mod_to_equations; lia).
    assert (Hx : x / 10 * 10 + x mod 10 = x) by (Z.div_mod_to_equations; lia).
    replace (0 * 10 + x / 100) with (x / 100) by lia.
    destruct (x / 100 >? 255) eqn:G1; [lia|].
    replace (0 + 1 =? 1) with true by reflexivity.
    destruct (x / 100 =? 0) eqn:G2; [lia|]. cbn [andb].
    rewrite Hv2.
    destruct (x / 10 >? 255) eqn:G3; [lia|].
    replace (0 + 1 + 1 =? 1) with false by reflexivity. cbn [andb].
    rewrite Hx. destruct (x >? 255) eqn:G4; [lia|]. reflexivity.
  - (* two digits *)
    assert (H2 : 0 <= x / 10 mod 10 < 10) by (apply Z.mod_pos_bound; lia).
    assert (H3 : 0 <= x mod 10 < 10) by (apply Z.mod_pos_bound; lia).
    exists (digit (x mod 10)), 2. split; [now apply Hd|].
    intros rest prev pos fields. simpl.
    rewrite !is_digit_digit, !value_digit by assumption.
    assert (Hs : x / 10 mod 10 = x / 10).
    { apply Z.mod_small. split; [apply Z.div_pos; lia|].
      apply Z.div_lt_upper_bound; lia. }
    assert (Hv : 1 <= x / 10) by (apply Z.div_le_lower_bound; lia).
    rewrite Hs in *.
    replace (0 * 10 + x / 10) with (x / 10) by lia.
    destruct (x / 10 >? 255) eqn:G1; [lia|].
    replace (0 + 1 =? 1) with true by reflexivity.
    destruct (x / 10 =? 0) eqn:G2; [lia|]. cbn [andb].
    assert (Hx : x / 10 * 10 + x mod 10 = x)
      by (pose proof (Z.div_mod x 10 ltac:(lia)); lia).
    rewrite Hx. destruct (x >? 255) eqn:G4; [lia|]. reflexivity.
  - (* one digit *)
    assert (H3 : x mod 10 = x) by (apply Z.mod_small; lia).
    exists (digit x), 1. split; [apply Hd; lia|].
    intros rest prev pos fields. simpl. rewrite H3.
    rewrite !is_digit_digit, !value_digit by lia.
    replace (0 * 10 + x) with x by lia.
    destruct (x >? 255) eqn:G4; [lia|]. reflexivity.
Qed.

Lemma appendDecimal_cons (x : Z) : exists c t, appendDecimal x = String c t.
Proof.
  unfold appendDecimal.
  destruct (x >=? 100); destruct (x >=? 10); unfold str1; simpl;
    do 2 eexists; reflexivity.
Qed.

Lemma parseIPv4Fields_loop_dot (x : Z) (rest : string) (prev : option ascii)
    (pos : Z) (fields : list Z) :
  is_byte x -> (exists c t, rest = String c t) -> pos <> 3 ->
  parseIPv4Fields_loop (appendDecimal x ++ String "." rest) prev 0 pos 0 fields
  = parseIPv4Fields_loop rest (Some "."%char) 0 (pos + 1) 0 (store fields pos x).
Proof.
  intros Hx (c & t & ->) Hpos.
  destruct (parseIPv4Fields_loop_byte x Hx) as (p & dl & Hp & Hloop).
  rewrite Hloop. cbn [parseIPv4Fields_loop].
  replace (is_digit ".") with false by reflexivity.
  replace (is_char "." ".") with true by reflexivity.
  rewrite Hp. cbn [orb].
  destruct (pos =? 3) eqn:E; [lia|].
  now rewrite uint8_byte.
Qed.

Lemma parseIPv4Fields_string4 (a b c d : Z) :
  is_byte a -> is_byte b -> is_byte c -> is_byte d ->
  parseIPv4Fields (string4 [a; b; c; d]) = Some [a; b; c; d].
Proof.
  intros Ha Hb Hc Hd. unfold parseIPv4Fields, string4.
  change (at_ [a; b; c; d] 0) with a. change (at_ [a; b; c; d] 1) with b.
  change (at_ [a; b; c; d] 2) with c. change (at_ [a; b; c; d] 3) with d.
  cbn [String.append].
  assert (Hn : forall x s, exists c0 t, (appendDecimal x ++ s)%string = String c0 t).
  { intros x s. destruct (appendDecimal_cons x) as (c0 & t & ->). simpl. eauto. }
  rewrite parseIPv4Fields_loop_dot by (auto; lia).
  rewrite parseIPv4Fields_loop_dot by (auto; lia).
  rewrite parseIPv4Fields_loop_dot
    by (auto; try lia; destruct (appendDecimal_cons d) as (c0 & t & ->); eauto).
  destruct (parseIPv4Fields_loop_byte d Hd) as (p & dl & Hp & Hloop).
  rewrite <- (string_app_nil_r (appendDecimal d)), Hloop.
  cbn. now rewrite uint8_byte.
Qed.

(** A printed IPv4 address consists of digits and dots, and has a dot. *)
Lemma ParseAddr_scan_digits (whole a rest : string) :
  str_forall is_digit a = true ->
  ParseAddr_scan whole (a ++ String "." rest) = parseIPv4 whole.
Proof.
  induction a as [|c a IH]; simpl; [reflexivity|].
  rewrite andb_true_iff. intros [Hc Ha].
  pose proof (is_digit_not_separator c Hc) as Hs.
  unfold not_separator, separator in Hs.
  rewrite negb_true_iff, !orb_false_iff in Hs.
  destruct Hs as [[[H1 H2] H3] H4]. rewrite H1, H2, H3. now apply IH.
Qed.

Lemma ParseAddr_string4 (a b c d : Z) :
  is_byte a -> is_byte b -> is_byte c -> is_byte d ->
  ParseAddr (string4 [a; b; c; d]) = Some (AddrFrom4 [a; b; c; d]).
Proof.
  intros Ha Hb Hc Hd. unfold ParseAddr.
  assert (Hs : string4 [a; b; c; d]
               = (appendDecimal a ++ String "." (appendDecimal b ++ "." ++
                  appendDecimal c ++ "." ++ appendDecimal d))%string) by reflexivity.
  rewrite Hs at 2. rewrite ParseAddr_scan_digits by now apply appendDecimal_digits.
  unfold parseIPv4. now rewrite parseIPv4Fields_string4.
Qed.

Lemma string4_no_slash (a b c d : Z) :
  is_byte a -> is_byte b -> is_byte c -> is_byte d ->
  str_forall (fun x => negb (is_char x "/")) (string4 [a; b; c; d]) = true.
Proof.
  intros Ha Hb Hc Hd. unfold string4.
  change (at_ [a; b; c; d] 0) with a. change (at_ [a; b; c; d] 1) with b.
  change (at_ [a; b; c; d] 2) with c. change (at_ [a; b; c; d] 3) with d.
  assert (Hx : forall x, is_byte x ->
                str_forall (fun x => negb (is_char x "/")) (appendDecimal x) = true).
  { intros x Hx. apply (str_forall_impl is_digit); [|now apply appendDecimal_digits].
    intros ch Hch. pose proof (is_digit_not_separator ch Hch) as Hs.
    unfold not_separator, separator in Hs.
    rewrite negb_true_iff, !orb_false_iff in Hs. destruct Hs as [_ Hs].
    now rewrite Hs. }
  rewrite !str_forall_app, !Hx by assumption. reflexivity.
Qed.


(** *** Hex groups *)

Lemma hexLoop_digit (d : Z) (rest : string) (off acc : Z) :
  0 <= d < 16 ->
  hexLoop (String (digit d) rest) off acc
  = if off >? 3 then None
    else if (Z.shiftl acc 4 + d) mod 2 ^ 32 >? 65535 then None
    else hexLoop rest (off + 1) ((Z.shiftl acc 4 + d) mod 2 ^ 32).
Proof. intros H. cbn [hexLoop]. now rewrite hexval_digit. Qed.

Lemma hexLoop_end (rest : string) (off acc : Z) :
  group_end rest -> hexLoop rest off acc = Some (off, acc, rest).
Proof. destruct rest as [|c t]; simpl; [reflexivity|]. now intros ->. Qed.

Lemma land15 (x : Z) : Z.land x 15 = x mod 16.
Proof. change 15 with (Z.ones 4). now rewrite Z.land_ones by lia. Qed.

Lemma hexLoop_appendHex (g : Z) (rest : string) :
  is_u16 g -> group_end rest ->
  exists off, 1 <= off /\ hexLoop (appendHex g ++ rest) 0 0 = Some (off, g, rest).
Proof.
  unfold is_u16. intros Hg Hr. unfold appendHex.
  rewrite !land15, !Z.shiftr_div_pow2 by lia.
  change (2 ^ 12) with 4096. change (2 ^ 8) with 256. change (2 ^ 4) with 16.
  assert (D3 : 0 <= g / 4096 < 16) by (Z.div_mod_to_equations; lia).
  assert (D2 : 0 <= g / 256 mod 16 < 16) by (apply Z.mod_pos_bound; lia).
  assert (D1 : 0 <= g / 16 mod 16 < 16) by (apply Z.mod_pos_bound; lia).
  assert (D0 : 0 <= g mod 16 < 16) by (apply Z.mod_pos_bound; lia).
  assert (Hstep : forall acc d, 0 <= acc < 4096 -> 0 <= d < 16 ->
            (Z.shiftl acc 4 + d) mod 2 ^ 32 = acc * 16 + d).
  { intros acc d Ha Hd. rewrite Z.shiftl_mul_pow2 by lia. change (2 ^ 4) with 16.
    apply Z.mod_small. change (2 ^ 32) with 4294967296. lia. }
  destruct (g >=? 4096) eqn:E3; destruct (g >=? 256) eqn:E2;
    destruct (g >=? 16) eqn:E1; try lia; unfold str1; cbn [String.append].
  - exists 4. split; [lia|].
    rewrite hexLoop_digit by assumption. cbn [Z.gtb Z.compare].
    rewrite Hstep by lia.
    destruct (0 * 16 + g / 4096 >? 65535) eqn:G3; [lia|].
    rewrite hexLoop_digit by assumption.
    replace (0 + 1 >? 3) with false by reflexivity.
    rewrite Hstep by lia.
    destruct ((0 * 16 + g / 4096) * 16 + g / 256 mod 16 >? 65535) eqn:G2; [lia|].
    rewrite hexLoop_digit by assumption.
    replace (0 + 1 + 1 >? 3) with false by reflexivity.
    rewrite Hstep by lia.
    destruct (((0 * 16 + g / 4096) * 16 + g / 256 mod 16) * 16 + g / 16 mod 16 >? 65535)
      eqn:G1; [lia|].
    rewrite hexLoop_digit by assumption.
    replace (0 + 1 + 1 + 1 >? 3) with false by reflexivity.
    assert (Hacc : 0 <= ((0 * 16 + g / 4096) * 16 + g / 256 mod 16) * 16 + g / 16 mod 16
                   < 4096) by lia.
    rewrite Hstep by lia.
    assert (Hv : (((0 * 16 + g / 4096) * 16 + g / 256 mod 16) * 16 + g / 16 mod 16) * 16
                 + g mod 16 = g) by (Z.div_mod_to_equations; lia).
    rewrite Hv. destruct (g >? 65535) eqn:G0; [lia|].
    now rewrite hexLoop_end.
  - exists 3. split; [lia|].
    rewrite hexLoop_digit by assumption. cbn [Z.gtb Z.compare].
    rewrite Hstep by lia.
    destruct (0 * 16 + g / 256 mod 16 >? 65535) eqn:G2; [lia|].
    rewrite hexLoop_digit by assumption.
    replace (0 + 1 >? 3) with false by reflexivity.
    rewrite Hstep by lia.
    destruct ((0 * 16 + g / 256 mod 16) * 16 + g / 16 mod 16 >? 65535) eqn:G1; [lia|].
    rewrite hexLoop_digit by assumption.
    replace (0 + 1 + 1 >? 3) with false by reflexivity.
    rewrite Hstep by lia.
    assert (Hv : ((0 * 16 + g / 256 mod 16) * 16 + g / 16 mod 16) * 16 + g mod 16 = g)
      by (Z.div_mod_to_equations; lia).
    rewrite Hv. destruct (g >? 65535) eqn:G0; [lia|].
    now rewrite hexLoop_end.
  - exists 2. split; [lia|].
    rewrite hexLoop_digit by assumption. cbn [Z.gtb Z.compare].
    rewrite Hstep by lia.
    destruct (0 * 16 + g / 16 mod 16 >? 65535) eqn:G1; [lia|].
    rewrite hexLoop_digit by assumption.
    replace (0 + 1 >? 3) with false by reflexivity.
    rewrite Hstep by lia.
    assert (Hv : (0 * 16 + g / 16 mod 16) * 16 + g mod 16 = g)
      by (Z.div_mod_to_equations; lia).
    rewrite Hv. destruct (g >? 65535) eqn:G0; [lia|].
    now rewrite hexLoop_end.
  - exists 1. split; [lia|].
    rewrite hexLoop_digit by assumption. cbn [Z.gtb Z.compare].
    rewrite Hstep by lia.
    assert (Hv : 0 * 16 + g mod 16 = g) by (Z.div_mod_to_equations; lia).
    rewrite Hv. destruct (g >? 65535) eqn:G0; [lia|].
    now rewrite hexLoop_end.
Qed.

Lemma appendHex_hex (g : Z) :
  is_u16 g ->
  str_forall (fun c => is_hex c && not_separator c) (appendHex g) = true
  /\ exists c t, appendHex g = String c t /\ is_hex c = true /\ not_separator c = true.
Proof.
  unfold is_u16. intros Hg. unfold appendHex.
  rewrite !land15, !Z.shiftr_div_pow2 by lia.
  change (2 ^ 12) with 4096. change (2 ^ 8) with 256. change (2 ^ 4) with 16.
  assert (D3 : 0 <= g / 4096 < 16) by (Z.div_mod_to_equations; lia).
  assert (D2 : 0 <= g / 256 mod 16 < 16) by (apply Z.mod_pos_bound; lia).
  assert (D1 : 0 <= g / 16 mod 16 < 16) by (apply Z.mod_pos_bound; lia).
  assert (D0 : 0 <= g mod 16 < 16) by (apply Z.mod_pos_bound; lia).
  assert (Hd : forall d, 0 <= d < 16 ->
            is_hex (digit d) = true /\ not_separator (digit d) = true).
  { intros d H. unfold is_hex, not_separator.
    now rewrite hexval_digit, digit_not_separator. }
  destruct (Hd _ D3) as [A3 B3]. destruct (Hd _ D2) as [A2 B2].
  destruct (Hd _ D1) as [A1 B1]. destruct (Hd _ D0) as [A0 B0].
  destruct (g >=? 4096); destruct (g >=? 256); destruct (g >=? 16);
    unfold str1; cbn [String.append str_forall];
    rewrite ?A3, ?A2, ?A1, ?A0, ?B3, ?B2, ?B1, ?B0;
    (split; [reflexivity | do 2 eexists; split; [reflexivity | split; assumption]]).
Qed.

(** *** One iteration of the loop of parseIPv6 *)

Lemma starts_group_appendHex (g : Z) (rest : string) :
  is_u16 g -> starts_group (appendHex g ++ rest).
Proof.
  intros Hg. destruct (appendHex_hex g Hg) as (_ & c & t & -> & Hc & Hs).
  exists c, (t ++ rest)%string. auto.
Qed.

Lemma not_separator_chars (c : ascii) :
  not_separator c = true ->
  is_char c ":" = false /\ is_char c "." = false /\ is_char c "%" = false
  /\ is_char c "/" = false.
Proof.
  unfold not_separator, separator. rewrite negb_true_iff, !orb_false_iff. tauto.
Qed.

Lemma loop_last (n : nat) (g i : Z) (ip : list Z) (e : Z) :
  is_u16 g -> i < 16 ->
  parseIPv6_loop (S n) (appendHex g) i ip e
  = Some ("", i + 2, store_group ip i g, e).
Proof.
  intros Hg Hi. cbn [parseIPv6_loop].
  destruct (i <? 16) eqn:E; [|lia]. cbn [negb].
  destruct (hexLoop_appendHex g "" Hg I) as (off & Hoff & Hl).
  rewrite string_app_nil_r in Hl. rewrite Hl.
  destruct (off =? 0) eqn:E0; [lia|]. reflexivity.
Qed.

Lemma loop_colon (n : nat) (g i : Z) (ip : list Z) (e : Z) (s1 : string) :
  is_u16 g -> i < 16 -> starts_group s1 ->
  parseIPv6_loop (S n) (appendHex g ++ String ":" s1) i ip e
  = parseIPv6_loop n s1 (i + 2) (store_group ip i g) e.
Proof.
  intros Hg Hi (c1 & t & -> & Hc & Hs). cbn [parseIPv6_loop].
  destruct (i <? 16) eqn:E; [|lia]. cbn [negb].
  destruct (hexLoop_appendHex g (String ":" (String c1 t)) Hg eq_refl)
    as (off & Hoff & Hl).
  rewrite Hl. destruct (off =? 0) eqn:E0; [lia|].
  replace (is_char ":" ".") with false by reflexivity.
  replace (is_char ":" ":") with true by reflexivity. cbn [negb].
  destruct (not_separator_chars c1 Hs) as (H1 & _). rewrite H1. reflexivity.
Qed.

Lemma loop_ellipsis_end (n : nat) (g i : Z) (ip : list Z) :
  is_u16 g -> i < 16 ->
  parseIPv6_loop (S n) (appendHex g ++ "::") i ip (-1)
  = Some ("", i + 2, store_group ip i g, i + 2).
Proof.
  intros Hg Hi. cbn [parseIPv6_loop].
  destruct (i <? 16) eqn:E; [|lia]. cbn [negb].
  destruct (hexLoop_appendHex g "::" Hg eq_refl) as (off & Hoff & Hl).
  rewrite Hl. destruct (off =? 0) eqn:E0; [lia|]. reflexivity.
Qed.

Lemma loop_ellipsis (n : nat) (g i : Z) (ip : list Z) (s2 : string) :
  is_u16 g -> i < 16 -> starts_group s2 ->
  parseIPv6_loop (S n) (appendHex g ++ String ":" (String ":" s2)) i ip (-1)
  = parseIPv6_loop n s2 (i + 2) (store_group ip i g) (i + 2).
Proof.
  intros Hg Hi (c & t & -> & Hc & Hs). cbn [parseIPv6_loop].
  destruct (i <? 16) eqn:E; [|lia]. cbn [negb].
  destruct (hexLoop_appendHex g (String ":" (String ":" (String c t))) Hg eq_refl)
    as (off & Hoff & Hl).
  rewrite Hl. destruct (off =? 0) eqn:E0; [lia|]. reflexivity.
Qed.

(** The bytes of a group. *)
Lemma lor_bytes (hi lo : Z) :
  is_byte hi -> is_byte lo -> Z.lor (Z.shiftl hi 8) lo = hi * 256 + lo.
Proof.
  unfold is_byte. intros Hh Hl.
  rewrite Z.shiftl_mul_pow2 by lia. change (2 ^ 8) with 256.
  assert (Hand : Z.land (hi * 256) lo = 0).
  { apply Z.bits_inj'. intros k Hk. rewrite Z.land_spec, Z.bits_0.
    destruct (Z.ltb_spec k 8).
    - change 256 with (2 ^ 8). rewrite Z.mul_pow2_bits_low by lia. reflexivity.
    - rewrite (Z.bits_above_log2 lo); [apply andb_false_r | lia |].
      destruct (Z.eq_dec lo 0) as [->|Hne]; [simpl; lia|].
      apply Z.lt_le_trans with 8; [|lia]. apply Z.log2_lt_pow2; lia. }
  rewrite <- Z.lxor_lor, <- Z.add_nocarry_lxor by assumption. reflexivity.
Qed.

Lemma v6u16_bytes (b : list Z) (i : Z) :
  Forall is_byte b -> v6u16 b i = at_ b (2 * i) * 256 + at_ b (2 * i + 1).
Proof.
  intros Hb. unfold v6u16. apply lor_bytes; now apply is_byte_at.
Qed.

Lemma v6u16_range (b : list Z) (i : Z) : Forall is_byte b -> is_u16 (v6u16 b i).
Proof.
  intros Hb. rewrite v6u16_bytes by assumption.
  pose proof (is_byte_at b (2 * i) Hb) as H1.
  pose proof (is_byte_at b (2 * i + 1) Hb) as H2.
  unfold is_byte, is_u16 in *. lia.
Qed.

Lemma v6u16_hi (b : list Z) (i : Z) :
  Forall is_byte b -> uint8 (Z.shiftr (v6u16 b i) 8) = at_ b (2 * i).
Proof.
  intros Hb. rewrite v6u16_bytes by assumption.
  pose proof (is_byte_at b (2 * i) Hb) as H1.
  pose proof (is_byte_at b (2 * i + 1) Hb) as H2.
  unfold is_byte, uint8 in *. rewrite Z.shiftr_div_pow2 by lia.
  change (2 ^ 8) with 256. Z.div_mod_to_equations. lia.
Qed.

Lemma v6u16_lo (b : list Z) (i : Z) :
  Forall is_byte b -> uint8 (v6u16 b i) = at_ b (2 * i + 1).
Proof.
  intros Hb. rewrite v6u16_bytes by assumption.
  pose proof (is_byte_at b (2 * i) Hb) as H1.
  pose proof (is_byte_at b (2 * i + 1) Hb) as H2.
  unfold is_byte, uint8 in *. Z.div_mod_to_equations. lia.
Qed.

Lemma v6u16_zero (b : list Z) (i : Z) :
  Forall is_byte b -> v6u16 b i = 0 -> at_ b (2 * i) = 0 /\ at_ b (2 * i + 1) = 0.
Proof.
  intros Hb. rewrite v6u16_bytes by assumption.
  pose proof (is_byte_at b (2 * i) Hb) as H1.
  pose proof (is_byte_at b (2 * i + 1) Hb) as H2.
  unfold is_byte in *. lia.
Qed.

(** *** The run of zero groups that is printed as "::" *)

Lemma zero_run_end_spec (b : list Z) (fuel : nat) :
  forall j,
    j <= zero_run_end fuel b j <= Z.max j 8
    /\ forall k, j <= k < zero_run_end fuel b j -> v6u16 b k = 0.
Proof.
  induction fuel as [|f IH]; intros j; cbn [zero_run_end].
  - split; [lia|]. intros k Hk. lia.
  - destruct (j <? 8) eqn:E1; cbn [andb]; [|split; [lia | intros k Hk; lia]].
    destruct (v6u16 b j =? 0) eqn:E2; [|split; [lia | intros k Hk; lia]].
    destruct (IH (j + 1)) as [H1 H2]. split; [lia|].
    intros k Hk. destruct (Z.eq_dec k j) as [->|Hne]; [now apply Z.eqb_eq|].
    apply H2. lia.
Qed.

Lemma zero_run_loop_spec (b : list Z) (count : nat) :
  forall i zs ze,
    0 <= i -> zero_run b zs ze ->
    zero_run b (fst (zero_run_loop count b i zs ze))
               (snd (zero_run_loop count b i zs ze)).
Proof.
  induction count as [|c IH]; intros i zs ze Hi Hz; cbn [zero_run_loop];
    [exact Hz|].
  destruct (zero_run_end_spec b 8 i) as [H1 H2].
  set (j := zero_run_end 8 b i) in *.
  destruct ((uint8 (j - i) >=? 2) && (uint8 (j - i) >? uint8 (ze - zs))) eqn:E.
  - apply IH; [lia|]. right.
    apply andb_true_iff in E. destruct E as [E _].
    assert (Hj : j - i >= 2).
    { destruct (Z.eq_dec j i) as [->|Hne].
      - rewrite Z.sub_diag in E. discriminate.
      - assert (0 <= j - i < 256) by lia.
        unfold uint8 in E. rewrite Z.mod_small in E by assumption. lia. }
    repeat split; try lia. exact H2.
  - apply IH; [lia | exact Hz].
Qed.

Lemma zero_run_found (b : list Z) :
  zero_run b (fst (zero_run_loop 8 b 0 255 255)) (snd (zero_run_loop 8 b 0 255 255)).
Proof. apply zero_run_loop_spec; [lia|]. left. auto. Qed.

(** *** The characters of a printed IPv6 address *)

Lemma appendTo6_loop_chars (b : list Z) (zs ze : Z) :
  Forall is_byte b ->
  forall fuel i, str_forall hex_or_colon (appendTo6_loop fuel b zs ze i) = true.
Proof.
  intros Hb. 
  assert (Hh : forall k, str_forall hex_or_colon (appendHex (v6u16 b k)) = true).
  { intros k. destruct (appendHex_hex _ (v6u16_range b k Hb)) as [H _].
    apply (str_forall_impl _ _ _ (fun c Hc => orb_true_intro _ _ (or_introl Hc)) H). }
  induction fuel as [|f IH]; intros i; cbn [appendTo6_loop]; [reflexivity|].
  destruct (i <? 8); cbn [negb]; [|reflexivity].
  destruct (i =? zs).
  - cbn [String.append str_forall].
    replace (hex_or_colon ":") with true by reflexivity. cbn [andb].
    destruct (ze >=? 8); [reflexivity|].
    now rewrite str_forall_app, Hh, IH.
  - rewrite !str_forall_app, Hh, IH. now destruct (i >? 0).
Qed.

Lemma string6_chars (b : list Z) :
  Forall is_byte b -> str_forall hex_or_colon (string6 b) = true.
Proof.
  intros Hb. unfold string6. destruct (zero_run_loop 8 b 0 255 255) as [zs ze].
  now apply appendTo6_loop_chars.
Qed.

Lemma hex_or_colon_not (c x : ascii) :
  hex_or_colon c = true -> is_char ":" x = false -> separator x = true ->
  negb (is_char c x) = true.
Proof.
  unfold hex_or_colon. rewrite orb_true_iff, andb_true_iff.
  intros [[_ Hs]|Hc] Hx Hsep.
  - unfold not_separator, separator, is_char in *.
    destruct (Ascii.eqb_spec c x) as [->|]; [|reflexivity].
    rewrite Hsep in Hs. discriminate.
  - unfold is_char in Hc. apply Ascii.eqb_eq in Hc. subst c. now rewrite Hx.
Qed.

Lemma string6_no (b : list Z) (x : ascii) :
  Forall is_byte b -> is_char ":" x = false -> separator x = true ->
  IndexByteString (string6 b) x = -1.
Proof.
  intros Hb Hx Hsep. apply IndexByteString_absent.
  apply (str_forall_impl hex_or_colon); [|now apply string6_chars].
  intros c Hc. now apply hex_or_colon_not.
Qed.

Lemma ParseAddr_scan_colon (whole a rest : string) :
  str_forall (fun c => is_hex c && not_separator c) a = true ->
  ParseAddr_scan whole (a ++ String ":" rest) = parseIPv6 whole.
Proof.
  induction a as [|c a IH]; cbn [String.append ParseAddr_scan str_forall];
    [reflexivity|].
  rewrite !andb_true_iff. intros [[_ Hc] Ha].
  destruct (not_separator_chars c Hc) as (H1 & H2 & H3 & _).
  rewrite H1, H2, H3. now apply IH.
Qed.


(** *** A printed IPv6 address parses back *)

Lemma leading_ellipsis_group (s : string) :
  starts_group s -> leading_ellipsis s = false.
Proof.
  intros (c & t & -> & _ & Hs). destruct (not_separator_chars c Hs) as (H & _).
  unfold leading_ellipsis. destruct t; [reflexivity|]. now rewrite H.
Qed.

(** [parseIPv6] on a text without '%'. *)
Lemma parseIPv6_no_zone (s : string) :
  IndexByteString s "%" = -1 ->
  parseIPv6 s
  = if leading_ellipsis s && (strlen (if leading_ellipsis s then str_from s 2 else s) =? 0)
    then Some (AddrFrom16 zeros16 "")
    else
      match parseIPv6_loop 8 (if leading_ellipsis s then str_from s 2 else s) 0 zeros16
              (if leading_ellipsis s then 0 else -1) with
      | None => None
      | Some (s', i, ip, ellipsis) =>
          if negb (strlen s' =? 0) then None
          else if i <? 16 then
            if ellipsis <? 0 then None
            else Some (AddrFrom16
                         (clear_range (Z.to_nat (16 - i)) ellipsis
                            (move_up (Z.to_nat (i - ellipsis)) (i - 1) (16 - i) ip)) "")
          else if ellipsis >=? 0 then None
          else Some (AddrFrom16 ip "")
      end.
Proof. intros H. unfold parseIPv6. rewrite H. reflexivity. Qed.

Lemma length16 (b : list Z) :
  List.length b = 16%nat ->
  exists c0 c1 c2 c3 c4 c5 c6 c7 c8 c9 c10 c11 c12 c13 c14 c15,
    b = [c0; c1; c2; c3; c4; c5; c6; c7; c8; c9; c10; c11; c12; c13; c14; c15].
Proof.
  intros H.
  do 16 (destruct b as [|? b]; [discriminate|]).
  destruct b; [|discriminate]. repeat eexists.
Qed.

Lemma starts_group_appendHex_only (g : Z) : is_u16 g -> starts_group (appendHex g).
Proof.
  intros Hg. destruct (appendHex_hex g Hg) as (_ & c & t & -> & Hc & Hs).
  exists c, t. auto.
Qed.

Ltac group_side Hb :=
  first [ apply v6u16_range; exact Hb
        | apply starts_group_appendHex; apply v6u16_range; exact Hb
        | apply starts_group_appendHex_only; apply v6u16_range; exact Hb
        | lia ].

Ltac loop_steps Hb :=
  repeat first
    [ rewrite loop_colon by group_side Hb
    | rewrite loop_ellipsis by group_side Hb
    | rewrite loop_ellipsis_end by group_side Hb
    | rewrite loop_last by group_side Hb ].

Ltac no_text_left :=
  lazymatch goal with
  | |- context [appendHex] => fail "a group is left to parse"
  | |- _ => idtac
  end.

Lemma parseIPv6_string6_plain (b : list Z) :
  List.length b = 16%nat -> Forall is_byte b ->
  zero_run_loop 8 b 0 255 255 = (255, 255) ->
  parseIPv6 (string6 b) = Some (AddrFrom16 b "").
Proof.
  intros Hl Hb Hz.
  rewrite parseIPv6_no_zone by (apply string6_no; auto).
  unfold string6. rewrite Hz.
  destruct (length16 b Hl) as (c0 & c1 & c2 & c3 & c4 & c5 & c6 & c7 & c8 & c9
                                 & c10 & c11 & c12 & c13 & c14 & c15 & E).
  remember b as bb eqn:Ebb in Hb |- *. rewrite E in Ebb.
  cbn [appendTo6_loop Z.ltb Z.eqb Z.gtb Z.geb Z.compare negb Z.add Pos.add Pos.succ
       Pos.compare Pos.compare_cont Pos.eqb String.append].
  rewrite string_app_nil_r.
  rewrite leading_ellipsis_group
    by (apply starts_group_appendHex; apply v6u16_range; exact Hb).
  cbn [andb].
  loop_steps Hb.
  unfold store_group. rewrite !v6u16_hi, !v6u16_lo by exact Hb.
  subst bb. no_text_left. vm_compute. reflexivity.
Qed.

Lemma leading_ellipsis_colons (s : string) :
  leading_ellipsis (String ":" (String ":" s)) = true.
Proof. reflexivity. Qed.

Lemma str_from_colons (s : string) : str_from (String ":" (String ":" s)) 2 = s.
Proof. unfold str_from. change (Z.to_nat 2) with 2%nat. now destruct s. Qed.

Lemma strlen_group (s : string) : starts_group s -> (strlen s =? 0) = false.
Proof.
  intros (c & t & -> & _). unfold strlen. cbn [String.length]. apply Z.eqb_neq. lia.
Qed.

(** The bytes of the groups [from .. 7] that the hypothesis says are zero. *)
Ltac zero_bytes Hb Hzero :=
  let go k :=
    try (let Ha := fresh "Ha" in
         let Hc := fresh "Hc" in
         destruct (v6u16_zero _ k Hb (Hzero k ltac:(lia))) as [Ha Hc];
         vm_compute in Ha; vm_compute in Hc) in
  go 0; go 1; go 2; go 3; go 4; go 5; go 6; go 7.

Lemma parseIPv6_string6_run (b : list Z) (zs ze : Z) :
  List.length b = 16%nat -> Forall is_byte b ->
  zero_run_loop 8 b 0 255 255 = (zs, ze) ->
  0 <= zs -> zs + 2 <= ze <= 8 -> (forall k, zs <= k < ze -> v6u16 b k = 0) ->
  parseIPv6 (string6 b) = Some (AddrFrom16 b "").
Proof.
  intros Hl Hb Hz H0 H1 Hzero.
  rewrite parseIPv6_no_zone by (apply string6_no; auto).
  unfold string6. rewrite Hz. clear Hz.
  destruct (length16 b Hl) as (c0 & c1 & c2 & c3 & c4 & c5 & c6 & c7 & c8 & c9
                                 & c10 & c11 & c12 & c13 & c14 & c15 & ->).
  clear Hl.
  assert (Hzs : zs = 0 \/ zs = 1 \/ zs = 2 \/ zs = 3 \/ zs = 4 \/ zs = 5 \/ zs = 6)
    by lia.
  assert (Hze : ze = 2 \/ ze = 3 \/ ze = 4 \/ ze = 5 \/ ze = 6 \/ ze = 7 \/ ze = 8)
    by lia.
  destruct Hzs as [->|[->|[->|[->|[->|[->| ->]]]]]];
    destruct Hze as [->|[->|[->|[->|[->|[->| ->]]]]]]; try lia;
    zero_bytes Hb Hzero; subst; clear Hzero H0 H1;
    match goal with
    | H : Forall is_byte ?l |- _ => remember l as bb eqn:Ebb in H |- *
    end;
    cbn [appendTo6_loop Z.ltb Z.eqb Z.gtb Z.geb Z.compare negb Z.add Pos.add Pos.succ
         Pos.compare Pos.compare_cont Pos.eqb String.append];
    rewrite ?string_app_nil_r;
    rewrite ?leading_ellipsis_colons, ?str_from_colons;
    rewrite ?leading_ellipsis_group by group_side Hb;
    rewrite ?strlen_group by group_side Hb;
    cbn [andb];
    loop_steps Hb;
    unfold store_group; rewrite ?v6u16_hi, ?v6u16_lo by exact Hb;
    subst bb; no_text_left; vm_compute; reflexivity.
Qed.

Lemma parseIPv6_string6 (b : list Z) :
  List.length b = 16%nat -> Forall is_byte b ->
  parseIPv6 (string6 b) = Some (AddrFrom16 b "").
Proof.
  intros Hl Hb. pose proof (zero_run_found b) as Hz.
  destruct (zero_run_loop 8 b 0 255 255) as [zs ze] eqn:E. cbn [fst snd] in Hz.
  destruct Hz as [[-> ->]|(H0 & H1 & Hzero)].
  - now apply parseIPv6_string6_plain.
  - now apply (parseIPv6_string6_run b zs ze).
Qed.

Lemma string6_colon (b : list Z) :
  Forall is_byte b ->
  exists a rest,
    string6 b = (a ++ String ":" rest)%string
    /\ str_forall (fun c => is_hex c && not_separator c) a = true.
Proof.
  intros Hb. unfold string6. destruct (zero_run_loop 8 b 0 255 255) as [zs ze].
  cbn [appendTo6_loop]. replace (0 <? 8) with true by reflexivity. cbn [negb].
  destruct (0 =? zs).
  - exists "". eexists. split; [reflexivity|reflexivity].
  - replace (0 >? 0) with false by reflexivity.
    replace (0 + 1 <? 8) with true by reflexivity. cbn [negb].
    exists (appendHex (v6u16 b 0)).
    destruct (appendHex_hex _ (v6u16_range b 0 Hb)) as [Hh _].
    destruct (0 + 1 =? zs).
    + eexists. split; [reflexivity | exact Hh].
    + replace (0 + 1 >? 0) with true by reflexivity.
      eexists. split; [reflexivity | exact Hh].
Qed.

Lemma ParseAddr_string6 (b : list Z) :
  List.length b = 16%nat -> Forall is_byte b ->
  ParseAddr (string6 b) = Some (AddrFrom16 b "").
Proof.
  intros Hl Hb. unfold ParseAddr.
  destruct (string6_colon b Hb) as (a & rest & E & Ha).
  rewrite E at 2. rewrite ParseAddr_scan_colon by exact Ha.
  now apply parseIPv6_string6.
Qed.


(** *** What the parsers return *)

Lemma bytes_store (n : nat) (b : list Z) (i v : Z) :
  bytes n b -> is_byte v -> bytes n (store b i v).
Proof.
  intros [Hl Hb] Hv. split; [now rewrite length_store | now apply Forall_store].
Qed.

Lemma bytes_at (n : nat) (b : list Z) (i : Z) : bytes n b -> is_byte (at_ b i).
Proof. intros [_ Hb]. now apply is_byte_at. Qed.

Lemma is_byte_0 : is_byte 0.
Proof. unfold is_byte. lia. Qed.

Lemma parseIPv4Fields_loop_bytes (s : string) :
  forall prev val pos dl fields val' pos' fields',
    parseIPv4Fields_loop s prev val pos dl fields = Some (val', pos', fields') ->
    bytes 4 fields -> bytes 4 fields'.
Proof.
  induction s as [|c s IH]; intros prev val pos dl fields val' pos' fields' H Hf;
    cbn [parseIPv4Fields_loop] in H.
  - now inversion H; subst.
  - destruct (is_digit c).
    + destruct ((dl =? 1) && (val =? 0)); [discriminate|].
      destruct (val * 10 + (byte_of c - byte_of "0") >? 255); [discriminate|].
      now apply IH in H.
    + destruct (is_char c "."); [|discriminate].
      destruct (_ || _); [discriminate|].
      destruct (pos =? 3); [discriminate|].
      apply IH in H; [exact H|]. apply bytes_store; [exact Hf | apply is_byte_uint8].
Qed.

Lemma parseIPv4Fields_bytes (s : string) (f : list Z) :
  parseIPv4Fields s = Some f -> bytes 4 f.
Proof.
  unfold parseIPv4Fields. intros H.
  destruct (parseIPv4Fields_loop s None 0 0 0 [0; 0; 0; 0]) as [[[val pos] fields]|] eqn:E;
    [|discriminate].
  destruct (pos <? 3); [discriminate|]. inversion H; subst.
  apply bytes_store; [|apply is_byte_uint8].
  apply (parseIPv4Fields_loop_bytes _ _ _ _ _ _ _ _ _ E).
  split; [reflexivity|]. repeat constructor; apply is_byte_0.
Qed.

Lemma parseIPv6_loop_bytes (iters : nat) :
  forall s i ip e s' i' ip' e',
    parseIPv6_loop iters s i ip e = Some (s', i', ip', e') ->
    bytes 16 ip -> bytes 16 ip'.
Proof.
  induction iters as [|n IH]; intros s i ip e s' i' ip' e' H Hip;
    cbn [parseIPv6_loop] in H.
  - now inversion H; subst.
  - destruct (negb (i <? 16)); [now inversion H; subst|].
    destruct (hexLoop s 0 0) as [[[off acc] rest]|]; [|discriminate].
    destruct (off =? 0); [discriminate|].
    destruct (match rest with String c _ => is_char c "." | _ => false end).
    + destruct ((e <? 0) && negb (i =? 12)); [discriminate|].
      destruct (i + 4 >? 16); [discriminate|].
      destruct (parseIPv4Fields s) as [f|] eqn:Ef; [|discriminate].
      pose proof (parseIPv4Fields_bytes s f Ef) as Hf.
      inversion H; subst.
      repeat (apply bytes_store; [|now apply (bytes_at 4 f)]). exact Hip.
    + assert (Hip2 : bytes 16 (store (store ip i (uint8 (Z.shiftr acc 8))) (i + 1)
                                  (uint8 acc)))
        by (repeat (apply bytes_store; [|apply is_byte_uint8]); exact Hip).
      destruct rest as [|c s1]; [now inversion H; subst|].
      destruct (negb (is_char c ":")); [discriminate|].
      destruct s1 as [|c1 s2]; [discriminate|].
      destruct (is_char c1 ":").
      * destruct (e >=? 0); [discriminate|].
        destruct s2; [now inversion H; subst | now apply IH in H].
      * now apply IH in H.
Qed.

Lemma move_up_bytes (count : nat) :
  forall j n ip, bytes 16 ip -> bytes 16 (move_up count j n ip).
Proof.
  induction count as [|c IH]; intros j n ip Hip; cbn [move_up]; [exact Hip|].
  apply IH. apply bytes_store; [exact Hip | now apply (bytes_at 16 ip)].
Qed.

Lemma clear_range_bytes (count : nat) :
  forall from ip, bytes 16 ip -> bytes 16 (clear_range count from ip).
Proof.
  induction count as [|c IH]; intros from ip Hip; cbn [clear_range]; [exact Hip|].
  apply IH. apply bytes_store; [exact Hip | apply is_byte_0].
Qed.

Lemma zeros16_bytes : bytes 16 zeros16.
Proof. split; [reflexivity|]. unfold zeros16. apply Forall_forall.
  intros x Hx. apply repeat_spec in Hx. subst. apply is_byte_0. Qed.

Lemma parseIPv6_wf (s : string) (a : Addr) : parseIPv6 s = Some a -> wf_addr a.
Proof.
  unfold parseIPv6. intros H.
  destruct (if negb (IndexByteString s "%" =? -1) then _ else _) as [[s0 zone]|];
    [|discriminate].
  destruct (leading_ellipsis s0 && _).
  - inversion H; subst. apply zeros16_bytes.
  - destruct (parseIPv6_loop 8 _ 0 zeros16 _) as [[[[s' i] ip] e]|] eqn:E;
      [|discriminate].
    pose proof (parseIPv6_loop_bytes _ _ _ _ _ _ _ _ _ E zeros16_bytes) as Hip.
    destruct (negb (strlen s' =? 0)); [discriminate|].
    destruct (i <? 16).
    + destruct (e <? 0); [discriminate|]. inversion H; subst.
      cbn [wf_addr]. now apply clear_range_bytes, move_up_bytes.
    + destruct (e >=? 0); [discriminate|]. now inversion H; subst.
Qed.

Lemma parseIPv4_wf (s : string) (a : Addr) : parseIPv4 s = Some a -> wf_addr a.
Proof.
  unfold parseIPv4. intros H.
  destruct (parseIPv4Fields s) as [f|] eqn:E; [|discriminate].
  inversion H; subst. now apply (parseIPv4Fields_bytes s).
Qed.

Lemma ParseAddr_wf (s : string) (a : Addr) : ParseAddr s = Some a -> wf_addr a.
Proof.
  unfold ParseAddr. generalize s at 1. intros whole.
  induction s as [|c s IH]; cbn [ParseAddr_scan]; [discriminate|].
  destruct (is_char c "."); [apply parseIPv4_wf|].
  destruct (is_char c ":"); [apply parseIPv6_wf|].
  destruct (is_char c "%"); [discriminate | exact IH].
Qed.


(** *** Masking *)

Lemma is_byte_land (a b : Z) : is_byte a -> is_byte b -> is_byte (Z.land a b).
Proof.
  unfold is_byte. intros Ha Hb.
  rewrite <- (Z2N.id a), <- (Z2N.id b), <- N2Z.inj_land by lia.
  pose proof (N.land_le_l (Z.to_N a) (Z.to_N b)). lia.
Qed.

Lemma length4 (b : list Z) :
  List.length b = 4%nat -> exists c0 c1 c2 c3, b = [c0; c1; c2; c3].
Proof.
  intros H. do 4 (destruct b as [|? b]; [discriminate|]).
  destruct b; [|discriminate]. repeat eexists.
Qed.

Lemma land_bytes_bytes (n : nat) (ip mask : list Z) :
  bytes n ip -> bytes n mask -> bytes n (land_bytes ip mask).
Proof.
  intros [Hl Hb] [Hlm Hm]. split.
  - unfold land_bytes. rewrite length_map, length_combine. lia.
  - unfold land_bytes. clear Hl Hlm. revert mask Hm.
    induction Hb as [|x ip Hx Hip IH]; intros mask Hm; [constructor|].
    destruct Hm as [|y mask Hy Hmask]; [constructor|].
    cbn [combine map fst snd]. constructor; [now apply is_byte_land | now apply IH].
Qed.

Lemma land_bytes_idem (ip mask : list Z) :
  land_bytes (land_bytes ip mask) mask = land_bytes ip mask.
Proof.
  unfold land_bytes. revert mask.
  induction ip as [|x ip IH]; intros [|y mask]; cbn [combine map fst snd];
    try reflexivity.
  now rewrite IH, <- Z.land_assoc, Z.land_diag.
Qed.

Lemma Mask_4 (b m : list Z) :
  bytes 4 b -> bytes 4 m -> Mask (v4InV6Prefix ++ b)%list m = land_bytes b m.
Proof.
  intros [Hb _] [Hm _].
  destruct (length4 b Hb) as (b0 & b1 & b2 & b3 & ->).
  destruct (length4 m Hm) as (m0 & m1 & m2 & m3 & ->).
  reflexivity.
Qed.

Lemma Mask_16 (b m : list Z) :
  bytes 16 b -> bytes 16 m -> Mask b m = land_bytes b m.
Proof.
  intros [Hb _] [Hm _].
  destruct (length16 b Hb) as (b0 & b1 & b2 & b3 & b4 & b5 & b6 & b7 & b8 & b9
                                 & b10 & b11 & b12 & b13 & b14 & b15 & ->).
  destruct (length16 m Hm) as (m0 & m1 & m2 & m3 & m4 & m5 & m6 & m7 & m8 & m9
                                 & m10 & m11 & m12 & m13 & m14 & m15 & ->).
  reflexivity.
Qed.

(** *** The masks of ParseCIDR *)

Lemma forallb_bytes (l : list Z) :
  forallb (fun b => (0 <=? b) && (b <? 256)) l = true -> Forall is_byte l.
Proof.
  rewrite forallb_forall, Forall_forall. intros H x Hx. specialize (H x Hx).
  unfold is_byte. lia.
Qed.

Lemma CIDRMask_32 (k : Z) :
  0 <= k <= 32 ->
  bytes 4 (CIDRMask k 32) /\ simpleMaskLength (CIDRMask k 32) = k.
Proof.
  intros H. pose proof (mask4_ok_all k H) as Hm. unfold mask4_ok in Hm.
  rewrite !andb_true_iff in Hm. destruct Hm as [[H1 H2] H3].
  split; [split|].
  - now apply Nat.eqb_eq.
  - now apply forallb_bytes.
  - now apply Z.eqb_eq.
Qed.

Lemma CIDRMask_128 (k : Z) :
  0 <= k <= 128 ->
  bytes 16 (CIDRMask k 128) /\ simpleMaskLength (CIDRMask k 128) = k
  /\ slice (CIDRMask k 128) 12 16 = CIDRMask (Z.max 0 (k - 96)) 32.
Proof.
  intros H. pose proof (mask16_ok_all k H) as Hm. unfold mask16_ok in Hm.
  rewrite !andb_true_iff in Hm. destruct Hm as [[[H1 H2] H3] H4].
  split; [split|split].
  - now apply Nat.eqb_eq.
  - now apply forallb_bytes.
  - now apply Z.eqb_eq.
  - now apply bytes_eqb_eq.
Qed.

(** *** ParseCIDR, forwards and on a printed network *)

Lemma ParseCIDR_inv (s : string) (ip : IP) (n : IPNet) :
  ParseCIDR s = Some (ip, n) ->
  exists a k,
    wf_addr a /\ Zone a = "" /\ 0 <= k <= BitLen a
    /\ ip = As16 a
    /\ n = mkIPNet (Mask (As16 a) (CIDRMask k (BitLen a))) (CIDRMask k (BitLen a)).
Proof.
  unfold ParseCIDR. intros H.
  destruct (IndexByteString s "/" <? 0); [discriminate|].
  destruct (ParseAddr _) as [a|] eqn:Ea; [|discriminate].
  destruct (String.eqb (Zone a) "") eqn:Ez; cbn [negb] in H; [|discriminate].
  destruct (dtoi _) as [[k i] ok].
  destruct (negb ok || negb (i =? strlen _) || (k <? 0) || (k >? BitLen a)) eqn:Ec;
    [discriminate|].
  rewrite !orb_false_iff in Ec. destruct Ec as [[[_ _] Hk0] Hk1].
  inversion H; subst. exists a, k.
  split; [exact (ParseAddr_wf _ a Ea)|]. split; [now apply String.eqb_eq|].
  split; [lia|]. split; reflexivity.
Qed.

Lemma ParseCIDR_printed (addr : string) (a : Addr) (k : Z) :
  str_forall (fun x => negb (is_char x "/")) addr = true ->
  ParseAddr addr = Some a -> Zone a = "" -> 0 <= k <= BitLen a ->
  ParseCIDR (addr ++ "/" ++ uitoa k)
  = Some (As16 a,
          mkIPNet (Mask (As16 a) (CIDRMask k (BitLen a))) (CIDRMask k (BitLen a))).
Proof.
  intros Hs Ha Hz Hk. unfold ParseCIDR.
  cbn [String.append].
  rewrite (IndexByteString_first addr (uitoa k) "/" Hs).
  pose proof (strlen_nonneg addr) as Hn.
  destruct (strlen addr <? 0) eqn:E; [lia|].
  rewrite str_to_app, str_from_app, Ha, Hz. cbn [String.eqb negb].
  assert (Hk128 : 0 <= k <= 128) by (destruct a; cbn [BitLen] in Hk; lia).
  rewrite (dtoi_uitoa k Hk128). rewrite Z.eqb_refl. cbn [negb orb].
  destruct (k <? 0) eqn:E1; [lia|]. destruct (k >? BitLen a) eqn:E2; [lia|].
  reflexivity.
Qed.

(** *** The text of a network with a canonical mask *)

Lemma To4_4 (c : list Z) : bytes 4 c -> To4 c = c.
Proof.
  intros [Hc _]. destruct (length4 c Hc) as (c0 & c1 & c2 & c3 & ->). reflexivity.
Qed.

Lemma To4_16 (c : list Z) :
  bytes 16 c -> To4 c = if Is4In6 c then slice c 12 16 else [].
Proof.
  intros [Hc _].
  destruct (length16 c Hc) as (c0 & c1 & c2 & c3 & c4 & c5 & c6 & c7 & c8 & c9
                                 & c10 & c11 & c12 & c13 & c14 & c15 & ->).
  reflexivity.
Qed.

Lemma slice_12_16 (c : list Z) : bytes 16 c -> bytes 4 (slice c 12 16).
Proof.
  intros [Hc Hb].
  destruct (length16 c Hc) as (c0 & c1 & c2 & c3 & c4 & c5 & c6 & c7 & c8 & c9
                                 & c10 & c11 & c12 & c13 & c14 & c15 & ->).
  split; [reflexivity|]. change (Forall is_byte [c12; c13; c14; c15]).
  do 12 (apply Forall_inv_tail in Hb). exact Hb.
Qed.

Lemma IPNet_String_4 (c m : list Z) (k : Z) :
  bytes 4 c -> bytes 4 m -> simpleMaskLength m = k -> 0 <= k ->
  IPNet_String (mkIPNet c m) = (string4 c ++ "/" ++ uitoa k)%string.
Proof.
  intros [Hc _] [Hm _] Hk H0.
  destruct (length4 c Hc) as (c0 & c1 & c2 & c3 & ->).
  destruct (length4 m Hm) as (m0 & m1 & m2 & m3 & ->).
  unfold IPNet_String.
  change (networkNumberAndMask (mkIPNet [c0; c1; c2; c3] [m0; m1; m2; m3]))
    with (Some ([c0; c1; c2; c3], [m0; m1; m2; m3])).
  cbv beta iota. rewrite Hk. destruct (k =? -1) eqn:E; [lia|]. reflexivity.
Qed.

Lemma IPNet_String_16 (c m : list Z) (k : Z) :
  bytes 16 c -> bytes 16 m -> Is4In6 c = false ->
  simpleMaskLength m = k -> 0 <= k ->
  IPNet_String (mkIPNet c m) = (string6 c ++ "/" ++ uitoa k)%string.
Proof.
  intros Hc [Hm _] H4 Hk H0.
  assert (Hn : networkNumberAndMask (mkIPNet c m) = Some (c, m)).
  { unfold networkNumberAndMask. cbn [ipn_IP ipn_Mask].
    rewrite (To4_16 c Hc), H4. destruct Hc as [Hc _].
    unfold len. rewrite Hc, Hm. cbn. rewrite Hc. reflexivity. }
  unfold IPNet_String. rewrite Hn, Hk. destruct (k =? -1) eqn:E; [lia|].
  unfold IP_String. rewrite (To4_16 c Hc), H4. destruct Hc as [Hc _].
  unfold len at 1 2 3. rewrite Hc. cbn [Addr_String]. rewrite H4.
  cbn. now rewrite string_app_nil_r.
Qed.

Lemma IPNet_String_mapped (c m : list Z) (k : Z) :
  bytes 16 c -> bytes 16 m -> Is4In6 c = true ->
  simpleMaskLength (slice m 12 16) = k -> 0 <= k ->
  IPNet_String (mkIPNet c m) = (string4 (slice c 12 16) ++ "/" ++ uitoa k)%string.
Proof.
  intros Hc [Hm _] H4 Hk H0.
  pose proof (slice_12_16 c Hc) as [Hs _].
  assert (Hn : networkNumberAndMask (mkIPNet c m)
               = Some (slice c 12 16, slice m 12 16)).
  { unfold networkNumberAndMask. cbn [ipn_IP ipn_Mask].
    rewrite (To4_16 c Hc), H4. unfold len. rewrite Hs, Hm.
    change (Z.of_nat 4 =? 0) with false. cbv beta iota.
    change (Z.of_nat 16 =? IPv4len) with false.
    change (Z.of_nat 16 =? IPv6len) with true. cbv beta iota.
    rewrite Hs. reflexivity. }
  unfold IPNet_String. rewrite Hn, Hk. destruct (k =? -1) eqn:E; [lia|].
  unfold IP_String. rewrite (To4_4 _ (slice_12_16 c Hc)).
  unfold len. rewrite Hs. reflexivity.
Qed.

Lemma ParseAddr_string4_bytes (c : list Z) :
  bytes 4 c ->
  ParseAddr (string4 c) = Some (AddrFrom4 c)
  /\ str_forall (fun x => negb (is_char x "/")) (string4 c) = true.
Proof.
  intros [Hl Hb]. destruct (length4 c Hl) as (c0 & c1 & c2 & c3 & ->).
  inversion Hb as [|? ? H0 Hb1]; subst. inversion Hb1 as [|? ? H1 Hb2]; subst.
  inversion Hb2 as [|? ? H2 Hb3]; subst. inversion Hb3 as [|? ? H3 _]; subst.
  split; [now apply ParseAddr_string4 | now apply string4_no_slash].
Qed.

Lemma string6_no_slash (c : list Z) :
  bytes 16 c -> str_forall (fun x => negb (is_char x "/")) (string6 c) = true.
Proof.
  intros [_ Hb]. apply (str_forall_impl hex_or_colon); [|now apply string6_chars].
  intros x Hx. now apply hex_or_colon_not.
Qed.

(** A network that ParseCIDR returned prints as a text that parses again,
    to a network of the same family that prints as the same text. *)
Lemma ParseCIDR_reparse (s : string) (ip : IP) (n : IPNet) :
  ParseCIDR s = Some (ip, n) ->
  exists ip' n',
    ParseCIDR (IPNet_String n) = Some (ip', n')
    /\ IPNet_String n' = IPNet_String n
    /\ (To4 (ipn_IP n') = [] <-> To4 (ipn_IP n) = []).
Proof.
  intros H. destruct (ParseCIDR_inv s ip n H) as (a & k & Hwf & Hz & Hk & -> & ->).
  destruct a as [b|b zone]; cbn [wf_addr BitLen As16 Zone] in *.
  - (* an IPv4 address *)
    destruct (CIDRMask_32 k Hk) as [Hm Hsm].
    set (m := CIDRMask k 32) in *.
    rewrite (Mask_4 b m Hwf Hm).
    pose proof (land_bytes_bytes 4 b m Hwf Hm) as Hc.
    set (c := land_bytes b m) in *.
    destruct (ParseAddr_string4_bytes c Hc) as [Hp Hns].
    rewrite (IPNet_String_4 c m k Hc Hm Hsm) by lia.
    rewrite (ParseCIDR_printed (string4 c) (AddrFrom4 c) k Hns Hp eq_refl Hk).
    cbn [As16 BitLen]. fold m. rewrite (Mask_4 c m Hc Hm).
    unfold c at 2 3. rewrite land_bytes_idem. fold c.
    do 2 eexists. split; [reflexivity|]. split.
    + now rewrite (IPNet_String_4 c m k Hc Hm Hsm) by lia.
    + tauto.
  - (* an IPv6 address *)
    subst zone.
    destruct (CIDRMask_128 k Hk) as (Hm & Hsm & Hsl).
    set (m := CIDRMask k 128) in *.
    rewrite (Mask_16 b m Hwf Hm).
    pose proof (land_bytes_bytes 16 b m Hwf Hm) as Hc.
    set (c := land_bytes b m) in *.
    destruct (Is4In6 c) eqn:E4.
    + (* the masked address is an IPv4-mapped one *)
      assert (Hk4 : 0 <= Z.max 0 (k - 96) <= 32) by lia.
      destruct (CIDRMask_32 _ Hk4) as [Hm4 Hsm4].
      pose proof (slice_12_16 c Hc) as Hd.
      assert (Hs : IPNet_String (mkIPNet c m)
                   = (string4 (slice c 12 16) ++ "/" ++ uitoa (Z.max 0 (k - 96)))%string).
      { apply IPNet_String_mapped; auto; [now rewrite Hsl | lia]. }
      rewrite Hs.
      destruct (ParseAddr_string4_bytes _ Hd) as [Hp Hns].
      rewrite (ParseCIDR_printed _ (AddrFrom4 (slice c 12 16)) _ Hns Hp eq_refl Hk4).
      cbn [As16 BitLen]. rewrite (Mask_4 _ _ Hd Hm4).
      do 2 eexists. split; [reflexivity|]. split.
      * assert (Hd' : bytes 4 (land_bytes (slice c 12 16) (CIDRMask (Z.max 0 (k - 96)) 32)))
          by now apply land_bytes_bytes.
        rewrite (IPNet_String_4 _ _ _ Hd' Hm4 Hsm4) by lia.
        f_equal. f_equal. rewrite <- Hsl.
        (* masking the last four bytes again changes nothing *)
        destruct Hwf as [Hlb _]. destruct Hm as [Hlm _].
        destruct (length16 b Hlb) as (b0 & b1 & b2 & b3 & b4 & b5 & b6 & b7 & b8
                                        & b9 & b10 & b11 & b12 & b13 & b14 & b15 & Eb).
        destruct (length16 m Hlm) as (m0 & m1 & m2 & m3 & m4 & m5 & m6 & m7 & m8
                                        & m9 & m10 & m11 & m12 & m13 & m14 & m15 & Em).
        unfold c. rewrite Eb, Em.
        change (slice (land_bytes [b0; b1; b2; b3; b4; b5; b6; b7; b8; b9; b10; b11;
                                   b12; b13; b14; b15]
                                  [m0; m1; m2; m3; m4; m5; m6; m7; m8; m9; m10; m11;
                                   m12; m13; m14; m15]) 12 16)
          with (land_bytes [b12; b13; b14; b15] [m12; m13; m14; m15]).
        change (slice [m0; m1; m2; m3; m4; m5; m6; m7; m8; m9; m10; m11;
                       m12; m13; m14; m15] 12 16)
          with [m12; m13; m14; m15].
        now rewrite land_bytes_idem.
      * cbn [ipn_IP]. rewrite (To4_16 c Hc), E4.
        assert (Hd' : bytes 4 (land_bytes (slice c 12 16) (CIDRMask (Z.max 0 (k - 96)) 32)))
          by now apply land_bytes_bytes.
        rewrite (To4_4 _ Hd').
        destruct Hd' as [Hl1 _]. destruct Hd as [Hl2 _].
        split; intros Hnil; rewrite Hnil in *; discriminate.
    + (* a plain IPv6 address *)
      rewrite (IPNet_String_16 c m k Hc Hm E4 Hsm) by lia.
      destruct Hc as [Hlc Hbc].
      rewrite (ParseCIDR_printed (string6 c) (AddrFrom16 c "") k
                 (string6_no_slash c (conj Hlc Hbc))
                 (ParseAddr_string6 c Hlc Hbc) eq_refl Hk).
      cbn [As16 BitLen]. fold m. rewrite (Mask_16 c m (conj Hlc Hbc) Hm).
      unfold c at 2 3. rewrite land_bytes_idem. fold c.
      do 2 eexists. split; [reflexivity|]. split.
      * now rewrite (IPNet_String_16 c m k (conj Hlc Hbc) Hm E4 Hsm) by lia.
      * tauto.
Qed.


(** ** The classifier *)

Lemma app_one_neq {A} (l : list A) (x : A) : (l ++ [x])%list <> l.
Proof.
  intros H. apply (f_equal (@List.length A)) in H.
  rewrite length_app in H. simpl in H. lia.
Qed.

Lemma extract_step_match (cn4 cn6 : list string) (network : IPNet)
    (rec : CountryRecord) (ip : IP) (ipNet : IPNet) :
  ParseCIDR (IPNet_String network) = Some (ip, ipNet) ->
  extract_step (cn4, cn6) (Decoded network rec)
  = if String.eqb (ISOCode rec) "CN" then
      match To4 (ipn_IP ipNet) with
      | [] => (cn4, (cn6 ++ [IPNet_String ipNet])%list)
      | _ => ((cn4 ++ [IPNet_String ipNet])%list, cn6)
      end
    else (cn4, cn6).
Proof.
  intros H. cbn [extract_step]. rewrite H.
  destruct (String.eqb (ISOCode rec) "CN"); [|reflexivity].
  unfold len. now destruct (To4 (ipn_IP ipNet)).
Qed.

(** C1: for an entry whose record decodes and whose network re-parses, the
    loop adds an element to one of the two lists exactly when the country
    code is "CN"; the element is the text of the re-parsed network, whose
    base address is the parsed address masked by the prefix length, and this
    text is canonical: it parses again to a network with the same text; with
    any other code, the empty one included, both lists stay as they are. *)
Theorem classification_by_code (network : IPNet) (rec : CountryRecord)
    (cn4 cn6 : list string) (ip : IP) (ipNet : IPNet) :
  ParseCIDR (IPNet_String network) = Some (ip, ipNet) ->
  (extract_step (cn4, cn6) (Decoded network rec) <> (cn4, cn6)
   <-> ISOCode rec = "CN")
  /\ (ISOCode rec = "CN" ->
      extract_step (cn4, cn6) (Decoded network rec)
      = match To4 (ipn_IP ipNet) with
        | [] => (cn4, (cn6 ++ [IPNet_String ipNet])%list)
        | _ => ((cn4 ++ [IPNet_String ipNet])%list, cn6)
        end)
  /\ (ISOCode rec <> "CN" ->
      extract_step (cn4, cn6) (Decoded network rec) = (cn4, cn6))
  /\ (exists k bits,
        (bits = 32 \/ bits = 128) /\ 0 <= k <= bits
        /\ ipn_Mask ipNet = CIDRMask k bits
        /\ ipn_IP ipNet = Mask ip (CIDRMask k bits))
  /\ (exists ip' ipNet',
        ParseCIDR (IPNet_String ipNet) = Some (ip', ipNet')
        /\ IPNet_String ipNet' = IPNet_String ipNet).
Proof.
  intros H. rewrite (extract_step_match cn4 cn6 network rec ip ipNet H).
  split; [|split; [|split; [|split]]].
  - destruct (String.eqb_spec (ISOCode rec) "CN") as [E|E].
    + split; [auto|]. intros _.
      destruct (To4 (ipn_IP ipNet)); intros Hx; inversion Hx as [Hy];
        now apply app_one_neq in Hy.
    + split; [intros Hx; now elim Hx | intros Hx; now elim E].
  - intros E. apply String.eqb_eq in E. now rewrite E.
  - intros E. apply String.eqb_neq in E. now rewrite E.
  - destruct (ParseCIDR_inv _ ip ipNet H) as (a & k & Hwf & Hz & Hk & -> & ->).
    exists k, (BitLen a). cbn [ipn_IP ipn_Mask].
    split; [destruct a; cbn [BitLen]; auto|]. auto.
  - destruct (ParseCIDR_reparse _ ip ipNet H) as (ip' & n' & Hp & Hs & _).
    now exists ip', n'.
Qed.

Lemma classification_by_code_witness :
  (extract_step ([], []) (Decoded (mkIPNet [10; 0; 0; 0] (CIDRMask 8 32))
                            (mkCountryRecord "CN")) <> ([], [])
   <-> ISOCode (mkCountryRecord "CN") = "CN")
  /\ extract_step ([], []) (Decoded (mkIPNet [10; 0; 0; 0] (CIDRMask 8 32))
                              (mkCountryRecord "CN"))
     = (["10.0.0.0/8"], [])
  /\ extract_step ([], []) (Decoded (mkIPNet [10; 0; 0; 0] (CIDRMask 8 32))
                              (mkCountryRecord "cn"))
     = ([], []).
Proof.
  assert (H : ParseCIDR (IPNet_String (mkIPNet [10; 0; 0; 0] (CIDRMask 8 32)))
              = Some ([0; 0; 0; 0; 0; 0; 0; 0; 0; 0; 255; 255; 10; 0; 0; 0],
                      mkIPNet [10; 0; 0; 0] [255; 0; 0; 0]))
    by (vm_compute; reflexivity).
  split; [|split].
  - exact (proj1 (classification_by_code _ (mkCountryRecord "CN") [] [] _ _ H)).
  - exact (proj1 (proj2 (classification_by_code _ (mkCountryRecord "CN") [] [] _ _ H))
             eq_refl).
  - apply (proj1 (proj2 (proj2 (classification_by_code _ (mkCountryRecord "cn")
                                  [] [] _ _ H)))).
    discriminate.
Defined.

(** ** The two lists *)

Lemma classified_parses (f : family) (e : entry) (x : string) :
  In x (of_family f (spec_classify "CN" e)) -> parses_as f x.
Proof.
  destruct e as [|network rec]; cbn [spec_classify].
  - destruct f; intros [].
  - destruct (String.eqb (ISOCode rec) "CN"); [|destruct f; intros []].
    destruct (ParseCIDR (IPNet_String network)) as [[ip ipNet]|] eqn:E;
      [|destruct f; intros []].
    destruct (ParseCIDR_reparse _ ip ipNet E) as (ip' & n' & Hp & _ & Hf).
    destruct (To4 (ipn_IP ipNet)) as [|y t] eqn:E4; destruct f;
      cbn [of_family]; intros Hx; try (now destruct Hx);
      destruct Hx as [<-|[]]; exists ip', n'; (split; [exact Hp|]).
    + now apply Hf.
    + intros Hn. apply Hf in Hn. discriminate.
Qed.

Lemma parses_as_one_family (x : string) : parses_as IPv4 x -> parses_as IPv6 x -> False.
Proof.
  intros (ip1 & n1 & H1 & Hf1) (ip2 & n2 & H2 & Hf2).
  rewrite H1 in H2. inversion H2; subst. contradiction.
Qed.

(** C2: after the extraction, every element of the IPv4 list parses as a
    CIDR whose base address has a 4-byte form, every element of the IPv6
    list parses as a CIDR whose base address has none, and no element is in
    both lists. *)
Theorem families_partition (db : list entry) :
  (forall x, In x (fst (extract db)) -> parses_as IPv4 x)
  /\ (forall x, In x (snd (extract db)) -> parses_as IPv6 x)
  /\ (forall x, In x (fst (extract db)) -> ~ In x (snd (extract db))).
Proof.
  rewrite extract_is_filterMap. unfold spec_extract. cbn [fst snd].
  assert (H4 : forall x,
            In x (flat_map (fun e => of_family IPv4 (spec_classify "CN" e)) db) ->
            parses_as IPv4 x).
  { intros x Hx. apply in_flat_map in Hx. destruct Hx as (e & _ & He).
    now apply (classified_parses IPv4 e). }
  assert (H6 : forall x,
            In x (flat_map (fun e => of_family IPv6 (spec_classify "CN" e)) db) ->
            parses_as IPv6 x).
  { intros x Hx. apply in_flat_map in Hx. destruct Hx as (e & _ & He).
    now apply (classified_parses IPv6 e). }
  split; [exact H4|]. split; [exact H6|].
  intros x Hx4 Hx6. exact (parses_as_one_family x (H4 x Hx4) (H6 x Hx6)).
Qed.


(** The scenario of the specification: three entries, two of them for CN. *)
Example extract_scenario :
  extract
    [ Decoded (mkIPNet [10; 0; 0; 0] (CIDRMask 8 32)) (mkCountryRecord "CN");
      Decoded (mkIPNet [192; 168; 0; 0] (CIDRMask 16 32)) (mkCountryRecord "US");
      Decoded (mkIPNet [32; 1; 13; 184; 0; 0; 0; 0; 0; 0; 0; 0; 0; 0; 0; 0]
                 (CIDRMask 32 128)) (mkCountryRecord "CN") ]
  = (["10.0.0.0/8"], ["2001:db8::/32"]).
Proof. vm_compute. reflexivity. Qed.

(** A network without a mask prints as "<nil>", which does not parse: the
    entry is one that fails on its own. *)
Example sample_bad_fails : entry_fails sample_bad.
Proof. vm_compute. reflexivity. Qed.

(** An IPv4-mapped IPv6 text is classified, and printed, as IPv4. *)
Example mapped_text_is_IPv4 :
  option_map (fun r => IPNet_String (snd r)) (ParseCIDR "::ffff:1.2.3.4/120")
  = Some "1.2.3.0/24".
Proof. vm_compute. reflexivity. Qed.

(** ** The serializer *)

Lemma join_texts_app (a b : list string) :
  join_texts (a ++ b) = (join_texts a ++ join_texts b)%string.
Proof.
  induction a as [|x a IH]; simpl; [reflexivity|].
  now rewrite IH, string_app_assoc.
Qed.

Lemma serialize_lines (setName addrType : string) (items : list string) :
  serialize setName addrType items
  = join_texts (map (fun l => l ++ nl)%string (set_lines setName addrType items)).
Proof.
  unfold serialize, set_writes, set_lines.
  rewrite !map_app, !join_texts_app.
  assert (He : map set_element items
               = map (fun l => l ++ nl)%string
                   (map (fun n => "        " ++ n ++ ",")%string items)).
  { rewrite map_map. apply map_ext. intros n. unfold set_element.
    now rewrite !string_app_assoc. }
  rewrite He. unfold set_header, set_footer. cbn [map join_texts fold_right].
  now rewrite !string_app_assoc.
Qed.

Lemma writeSetFile_content (w : World) (path setName addrType : string)
    (items : list string) :
  w_Create w path = Ok tt -> (forall k, w_Fprintf w path k = true) ->
  file_content
    (trace (snd (writeSetFile w path setName addrType items (mkState [] []))))
    path None
  = Some (serialize setName addrType items).
Proof.
  intros Hc Hw. rewrite (writeSetFile_created _ _ _ _ _ _ Hc).
  cbn [snd trace app file_content]. rewrite String.eqb_refl, file_content_app.
  rewrite file_content_writes by assumption. reflexivity.
Qed.

(** C4: for every set name X and address type Y, the serialization of the
    empty element list is exactly
    "set X {\n    type Y\n    flags interval\n    elements = {\n    }\n}\n",
    and this is the content [writeSetFile] leaves in the file it creates. *)
Theorem serialize_empty_set (w : World) (path X Y : string) :
  w_Create w path = Ok tt -> (forall k, w_Fprintf w path k = true) ->
  serialize X Y []
  = ("set " ++ X ++ " {" ++ nl ++ "    type " ++ Y ++ nl ++ "    flags interval" ++ nl
     ++ "    elements = {" ++ nl ++ "    }" ++ nl ++ "}" ++ nl)%string
  /\ file_content
       (trace (snd (writeSetFile w path X Y [] (mkState [] [])))) path None
     = Some (serialize X Y []).
Proof.
  intros Hc Hw. split.
  - unfold serialize, set_writes, set_header, set_footer.
    cbn [app map join_texts fold_right].
    now rewrite !string_app_assoc, string_app_nil_r.
  - now apply writeSetFile_content.
Qed.

Lemma serialize_empty_set_witness :
  serialize "cn4" "ipv4_addr" []
  = ("set cn4 {" ++ nl ++ "    type ipv4_addr" ++ nl ++ "    flags interval" ++ nl
     ++ "    elements = {" ++ nl ++ "    }" ++ nl ++ "}" ++ nl)%string
  /\ file_content
       (trace (snd (writeSetFile sample_world outCN4 "cn4" "ipv4_addr" []
                      (mkState [] [])))) outCN4 None
     = Some (serialize "cn4" "ipv4_addr" []).
Proof.
  apply (serialize_empty_set sample_world outCN4 "cn4" "ipv4_addr");
    [reflexivity | intros k; reflexivity].
Defined.

(** C5: the serialized text consists of the four header lines, one line per
    element in the order of the list, each indented by eight spaces and
    ended by a comma, and the two closing lines; it is the content
    [writeSetFile] leaves in the file; and for ["1.2.3.0/24"; "5.6.7.0/24"],
    name cn4 and type ipv4_addr it is the text with both element lines in
    that order. *)
Theorem serialize_elements (w : World) (path X Y : string) (items : list string) :
  items <> [] ->
  w_Create w path = Ok tt -> (forall k, w_Fprintf w path k = true) ->
  serialize X Y items
  = join_texts
      (map (fun l => l ++ nl)%string
         ([ "set " ++ X ++ " {"; "    type " ++ Y; "    flags interval";
            "    elements = {" ]%string
          ++ map (fun n => "        " ++ n ++ ",")%string items
          ++ [ "    }"; "}" ])%list)
  /\ file_content
       (trace (snd (writeSetFile w path X Y items (mkState [] [])))) path None
     = Some (serialize X Y items)
  /\ serialize "cn4" "ipv4_addr" ["1.2.3.0/24"; "5.6.7.0/24"]
     = ("set cn4 {" ++ nl ++ "    type ipv4_addr" ++ nl ++ "    flags interval" ++ nl
        ++ "    elements = {" ++ nl
        ++ "        1.2.3.0/24," ++ nl
        ++ "        5.6.7.0/24," ++ nl
        ++ "    }" ++ nl ++ "}" ++ nl)%string.
Proof.
  intros _ Hc Hw. split; [|split].
  - apply serialize_lines.
  - now apply writeSetFile_content.
  - reflexivity.
Qed.

Lemma serialize_elements_witness :
  serialize "cn6" "ipv6_addr" ["2001:db8::/32"]
  = join_texts
      (map (fun l => l ++ nl)%string
         [ "set cn6 {"; "    type ipv6_addr"; "    flags interval";
           "    elements = {"; "        2001:db8::/32,"; "    }"; "}" ])
  /\ file_content
       (trace (snd (writeSetFile sample_world outCN6 "cn6" "ipv6_addr"
                      ["2001:db8::/32"] (mkState [] [])))) outCN6 None
     = Some (serialize "cn6" "ipv6_addr" ["2001:db8::/32"])
  /\ serialize "cn4" "ipv4_addr" ["1.2.3.0/24"; "5.6.7.0/24"]
     = ("set cn4 {" ++ nl ++ "    type ipv4_addr" ++ nl ++ "    flags interval" ++ nl
        ++ "    elements = {" ++ nl
        ++ "        1.2.3.0/24," ++ nl
        ++ "        5.6.7.0/24," ++ nl
        ++ "    }" ++ nl ++ "}" ++ nl)%string.
Proof.
  apply (serialize_elements sample_world outCN6 "cn6" "ipv6_addr" ["2001:db8::/32"]);
    [discriminate | reflexivity | intros k; reflexivity].
Defined.

(** ** Determinism and order *)



(** ** Entries that fail on their own *)

Lemma extract_app (db1 db2 : list entry) :
  extract (db1 ++ db2)
  = ((fst (extract db1) ++ fst (extract db2))%list,
     (snd (extract db1) ++ snd (extract db2))%list).
Proof.
  rewrite !extract_is_filterMap. unfold spec_extract. cbn [fst snd].
  now rewrite !flat_map_app.
Qed.

Lemma extract_failing (e : entry) : entry_fails e -> extract [e] = ([], []).
Proof.
  intros H. rewrite extract_is_filterMap. unfold spec_extract. cbn [flat_map].
  destruct e as [|network rec]; cbn [spec_classify]; [reflexivity|].
  cbn [entry_fails] in H. rewrite H.
  now destruct (String.eqb (ISOCode rec) "CN").
Qed.

(** Once the database is open, the next thing the process does is to
    create the first set file, whatever the entries are. *)
Lemma run_reaches_writes (w : World) (db : list entry) :
  fetch_ok w = true -> w_Open w = Ok db ->
  exists pre rest,
    run w = (pre ++ [EvOpenDB saveMMDB true;
                     EvCreate outCN4 (is_ok (w_Create w outCN4))] ++ rest)%list.
Proof.
  intros Hf Ho.
  destruct (main_fetch_ok w Hf) as (pre & held & Hrun & _).
  remember (run w) as tr eqn:Htr.
  unfold run, main, call, main_body in Htr. cbn [trace deferred] in Htr.
  unfold bind at 1 in Htr. rewrite Hrun in Htr.
  unfold main_generate in Htr.
  unfold bind at 1 in Htr. unfold logInfo at 1, emit at 1 in Htr.
  cbn [trace deferred] in Htr.
  unfold bind at 1 in Htr. unfold emit at 1 in Htr. cbn [trace deferred] in Htr.
  rewrite Ho in Htr.
  unfold bind at 1 in Htr. cbn [check ret is_ok] in Htr.
  unfold bind at 1 in Htr. cbn [defer trace deferred] in Htr.
  destruct (extract db) as [cnIPv4 cnIPv6].
  unfold bind, logInfo, logErr, emit, os_Exit in Htr.
  destruct (w_Create w outCN4) as [[]|e4] eqn:Hc4.
  - rewrite (writeSetFile_created _ _ _ _ _ _ Hc4) in Htr.
    destruct (w_Create w outCN6) as [[]|e6] eqn:Hc6.
    + rewrite (writeSetFile_created _ _ _ _ _ _ Hc6) in Htr.
      destruct (snd (w_Restart w));
        cbn [negb ret trace deferred snd] in Htr; subst tr;
        exists (pre ++ [EvLogInfo "Parsing MMDB and generating nftables sets..."])%list;
        eexists; rewrite <- !app_assoc; cbn [app is_ok]; reflexivity.
    + rewrite (writeSetFile_failed _ _ _ _ _ _ _ Hc6) in Htr.
      cbn [negb ret trace deferred snd] in Htr; subst tr.
      exists (pre ++ [EvLogInfo "Parsing MMDB and generating nftables sets..."])%list.
      eexists. rewrite <- !app_assoc. cbn [app is_ok]. reflexivity.
  - rewrite (writeSetFile_failed _ _ _ _ _ _ _ Hc4) in Htr.
    cbn [negb ret trace deferred snd] in Htr; subst tr.
    exists (pre ++ [EvLogInfo "Parsing MMDB and generating nftables sets..."])%list.
    eexists. rewrite <- !app_assoc. cbn [app is_ok]. reflexivity.
Qed.

(** C6: an entry whose record does not decode, or whose network does not
    re-parse, is skipped and nothing else: the lists are those of the
    database without the entry, and the run goes on from the opening of the
    database to the writing of the set files. *)
Theorem failing_entry_skipped (w : World) (before after : list entry) (e : entry) :
  entry_fails e ->
  fetch_ok w = true -> w_Open w = Ok (before ++ e :: after)%list ->
  extract (before ++ e :: after) = extract (before ++ after)
  /\ extract (before ++ e :: after)
     = ((fst (extract before) ++ fst (extract after))%list,
        (snd (extract before) ++ snd (extract after))%list)
  /\ exists pre rest,
       run w = (pre ++ [EvOpenDB saveMMDB true;
                        EvCreate outCN4 (is_ok (w_Create w outCN4))] ++ rest)%list.
Proof.
  intros He Hf Ho.
  assert (Hskip : extract (before ++ e :: after) = extract (before ++ after)).
  { change (e :: after) with ([e] ++ after)%list.
    rewrite !extract_app, (extract_failing e He). reflexivity. }
  split; [exact Hskip|]. split.
  - rewrite Hskip. apply extract_app.
  - now apply run_reaches_writes with (db := (before ++ e :: after)%list).
Qed.

Lemma failing_entry_skipped_witness :
  extract (sample_before ++ sample_bad :: sample_after)
  = extract (sample_before ++ sample_after)
  /\ extract (sample_before ++ sample_bad :: sample_after)
     = ((fst (extract sample_before) ++ fst (extract sample_after))%list,
        (snd (extract sample_before) ++ snd (extract sample_after))%list)
  /\ exists pre rest,
       run sample_world
       = (pre ++ [EvOpenDB saveMMDB true;
                  EvCreate outCN4 (is_ok (w_Create sample_world outCN4))] ++ rest)%list.
Proof.
  apply (failing_entry_skipped sample_world sample_before sample_after sample_bad);
    reflexivity.
Defined.


(** ** The trace only grows *)

Create HintDb extends_db.

Lemma extends_ret {A} (a : A) : extends (ret a).
Proof. intros st. exists []. simpl. now rewrite app_nil_r. Qed.

Lemma extends_emit (e : event) : extends (emit e).
Proof. intros st. exists [e]. reflexivity. Qed.

Lemma extends_defer (r : resource) : extends (defer r).
Proof. intros st. exists []. simpl. now rewrite app_nil_r. Qed.

Lemma extends_os_Exit {A} (code : Z) : extends (@os_Exit A code).
Proof. intros st. exists [EvExit code]. reflexivity. Qed.

Lemma extends_bind {A B} (c : Proc A) (k : A -> Proc B) :
  extends c -> (forall a, extends (k a)) -> extends (bind c k).
Proof.
  intros Hc Hk st. unfold bind. destruct (Hc st) as [t1 H1].
  destruct (c st) as [[a|] st1]; simpl in H1.
  - destruct (Hk a st1) as [t2 H2]. exists (t1 ++ t2)%list.
    now rewrite H2, H1, app_assoc.
  - exists t1. exact H1.
Qed.

Lemma extends_call {A} (body : Proc A) : extends body -> extends (call body).
Proof.
  intros Hb st. unfold call.
  destruct (Hb (mkState (trace st) [])) as [t H].
  destruct (body (mkState (trace st) [])) as [[a|] st1]; simpl in *.
  - exists (t ++ map EvClose (deferred st1))%list. now rewrite H, app_assoc.
  - exists t. exact H.
Qed.

Lemma extends_logInfo (msg : string) : extends (logInfo msg).
Proof. apply extends_emit. Qed.

Lemma extends_logErr (msg : string) : extends (logErr msg).
Proof. apply extends_emit. Qed.

Lemma extends_check {A} (r : result A) : extends (check r).
Proof.
  destruct r; simpl; [apply extends_ret|].
  apply extends_bind; [apply extends_logErr | intros; apply extends_os_Exit].
Qed.

Lemma extends_if {A} (b : bool) (p q : Proc A) :
  extends p -> extends q -> extends (if b then p else q).
Proof. now destruct b. Qed.

Lemma extends_Fprintf_all (w : World) (path : string) (texts : list string) (k : nat) :
  extends (Fprintf_all w path k texts).
Proof.
  intros st. rewrite Fprintf_all_trace. eexists. reflexivity.
Qed.

#[local] Hint Resolve extends_ret extends_emit extends_defer extends_os_Exit
  extends_logInfo extends_logErr extends_check extends_if extends_call
  extends_Fprintf_all : extends_db.

Ltac extends_tac :=
  repeat first
    [ solve [auto with extends_db]
    | apply extends_call
    | apply extends_bind; [|intro]
    | apply extends_if
    | match goal with |- extends (let '(_, _) := ?x in _) => destruct x end ].

Lemma extends_writeSetFile (w : World) (path setName addrType : string)
    (items : list string) :
  extends (writeSetFile w path setName addrType items).
Proof. unfold writeSetFile. extends_tac. Qed.

#[local] Hint Resolve extends_writeSetFile : extends_db.

Lemma extends_main_generate (w : World) : extends (main_generate w).
Proof. unfold main_generate. extends_tac. Qed.

#[local] Hint Resolve extends_main_generate : extends_db.

(** When the body of [main] comes to the computation [k] in the state
    [st0], the run starts with the trace of [st0]. *)
Lemma run_from (w : World) (st0 : state) (k : Proc unit) :
  main_body w (mkState [] []) = k st0 -> extends k ->
  exists rest, run w = (trace st0 ++ rest)%list.
Proof.
  intros H Hk. unfold run, main, call. cbn [trace]. rewrite H.
  destruct (Hk st0) as [t Ht].
  destruct (k st0) as [[a|] st1]; cbn [snd trace] in *; rewrite Ht.
  - eexists. rewrite <- app_assoc. reflexivity.
  - eexists. reflexivity.
Qed.

(** ** Asset resolution *)

Lemma findDownloadURL_first (assets : list GitHubAsset) :
  findDownloadURL assets
  = match find (fun a => String.eqb (Ext (Name a)) ".mmdb") assets with
    | Some a => BrowserDownloadURL a
    | None => ""
    end.
Proof.
  induction assets as [|a rest IH]; simpl; [reflexivity|].
  now destruct (String.eqb (Ext (Name a)) ".mmdb").
Qed.

(** C7: the URL that [main] resolves is that of the first asset, in the
    order of the list, whose name has the extension ".mmdb"; when no asset
    has it, the run logs one error and exits with status 1 without any
    event of the download stage; when the first such asset has a URL, the
    run goes on to the download stage with that URL. *)
Theorem asset_resolution (w : World) (resp : Response) (release : GitHubRelease) :
  w_GetMeta w = Ok resp -> BodyRelease resp = Ok release ->
  findDownloadURL (Assets release)
  = match find (fun a => String.eqb (Ext (Name a)) ".mmdb") (Assets release) with
    | Some a => BrowserDownloadURL a
    | None => ""
    end
  /\ (find (fun a => String.eqb (Ext (Name a)) ".mmdb") (Assets release) = None ->
      run w = [ EvLogInfo "Fetching latest GitHub release metadata...";
                EvHttpGet apiURL true;
                EvLogInfo ("Latest tag: " ++ TagName release);
                EvLogErr "no mmdb file found in release";
                EvExit 1 ]
      /\ exit_status (run w) = 1
      /\ forallb (fun e => negb (download_event e)) (run w) = true)
  /\ (forall a,
        find (fun a => String.eqb (Ext (Name a)) ".mmdb") (Assets release) = Some a ->
        BrowserDownloadURL a <> "" ->
        exists rest,
          run w = ([ EvLogInfo "Fetching latest GitHub release metadata...";
                     EvHttpGet apiURL true;
                     EvLogInfo ("Latest tag: " ++ TagName release);
                     EvLogInfo ("MMDB download URL: " ++ BrowserDownloadURL a);
                     EvLogInfo "Downloading MMDB...";
                     EvCreate tmpMMDB (is_ok (w_Create w tmpMMDB)) ] ++ rest)%list).
Proof.
  intros Hm Hr. split; [apply findDownloadURL_first|]. split.
  - intros Hnone.
    assert (Hrun : run w = [ EvLogInfo "Fetching latest GitHub release metadata...";
                EvHttpGet apiURL true;
                EvLogInfo ("Latest tag: " ++ TagName release);
                EvLogErr "no mmdb file found in release";
                EvExit 1 ]).
    { unfold run, main, call, main_body, main_fetch, bind, logInfo, logErr, emit, os_Exit.
      cbn [trace deferred]. rewrite Hm. cbn [check ret is_ok defer trace deferred].
      rewrite Hr. cbn [check ret is_ok defer trace deferred].
      rewrite findDownloadURL_first, Hnone. reflexivity. }
    rewrite Hrun. repeat split.
  - intros a Hsome Hurl.
    assert (Hu : String.eqb (BrowserDownloadURL a) "" = false)
      by now apply String.eqb_neq.
    set (k := fun _ : unit =>
      check (w_Create w tmpMMDB) ;;
      defer (ResFile tmpMMDB) ;;
      emit (EvHttpGet (BrowserDownloadURL a)
              (is_ok (w_GetDownload w (BrowserDownloadURL a)))) ;;
      resp2 <- check (w_GetDownload w (BrowserDownloadURL a)) ;;
      defer (ResBody (BrowserDownloadURL a)) ;;
      (if negb (StatusCode resp2 =? 200) then
         logErr ("download failed: " ++ fmt_d (StatusCode resp2)) ;; os_Exit 1
       else ret tt) ;;
      data <- check (BodyCopy resp2) ;;
      emit (EvWrite tmpMMDB data true) ;;
      logInfo "Download complete." ;;
      logInfo "Replacing old MMDB..." ;;
      emit (EvRename tmpMMDB saveMMDB (is_ok (w_Rename w))) ;;
      check (w_Rename w)).
    apply (run_from w
             (mkState
                [ EvLogInfo "Fetching latest GitHub release metadata...";
                  EvHttpGet apiURL true;
                  EvLogInfo ("Latest tag: " ++ TagName release);
                  EvLogInfo ("MMDB download URL: " ++ BrowserDownloadURL a);
                  EvLogInfo "Downloading MMDB...";
                  EvCreate tmpMMDB (is_ok (w_Create w tmpMMDB)) ] [ResBody apiURL])
             (bind (k tt) (fun _ => main_generate w))).
    + unfold main_body, main_fetch.
      unfold bind at 1. unfold bind at 1. unfold logInfo at 1, emit at 1.
      cbn [trace deferred app].
      unfold bind at 1. unfold emit at 1. cbn [trace deferred app].
      rewrite Hm. unfold bind at 1. cbn [check ret is_ok].
      unfold bind at 1. cbn [defer trace deferred].
      rewrite Hr. unfold bind at 1. cbn [check ret].
      unfold bind at 1. unfold logInfo at 1, emit at 1. cbn [trace deferred app].
      rewrite findDownloadURL_first, Hsome, Hu.
      unfold bind at 1. cbn [ret].
      unfold bind at 1. unfold logInfo at 1, emit at 1. cbn [trace deferred app].
      unfold bind at 1. unfold logInfo at 1, emit at 1. cbn [trace deferred app].
      unfold bind at 1. unfold emit at 1. cbn [trace deferred app].
      reflexivity.
    + unfold k. extends_tac.
Qed.

Lemma asset_resolution_witness :
  findDownloadURL (Assets sample_release) = "https://example.org/country.mmdb"
  /\ (exists rest,
        run sample_world
        = ([ EvLogInfo "Fetching latest GitHub release metadata...";
             EvHttpGet apiURL true;
             EvLogInfo "Latest tag: 2026.10.30";
             EvLogInfo "MMDB download URL: https://example.org/country.mmdb";
             EvLogInfo "Downloading MMDB...";
             EvCreate tmpMMDB true ] ++ rest)%list)
  /\ run world_no_asset
     = [ EvLogInfo "Fetching latest GitHub release metadata...";
         EvHttpGet apiURL true;
         EvLogInfo "Latest tag: 2026.10.30";
         EvLogErr "no mmdb file found in release";
         EvExit 1 ]
  /\ exit_status (run world_no_asset) = 1
  /\ forallb (fun e => negb (download_event e)) (run world_no_asset) = true.
Proof.
  split; [|split].
  - apply (proj1 (asset_resolution sample_world
                    (mkResponse 200 (Ok sample_release) (Err "not read"))
                    sample_release eq_refl eq_refl)).
  - apply (proj2 (proj2 (asset_resolution sample_world
                    (mkResponse 200 (Ok sample_release) (Err "not read"))
                    sample_release eq_refl eq_refl))
             (mkAsset "GeoLite2-Country.mmdb" "https://example.org/country.mmdb"));
      [reflexivity | discriminate].
  - apply (proj1 (proj2 (asset_resolution world_no_asset
                    (mkResponse 200
                       (Ok (mkRelease "2026.10.30"
                              [ mkAsset "GeoLite2-ASN.tar.gz" "https://example.org/asn.tar.gz";
                                mkAsset "mmdb" "https://example.org/mmdb" ]))
                       (Err "not read"))
                    _ eq_refl eq_refl))).
    reflexivity.
Defined.

(** ** The metadata request *)

Lemma write_events_status (status : Z) (w : World) (path : string)
    (texts : list string) :
  forall k,
    write_events (with_meta_status status w) path k texts
    = write_events w path k texts.
Proof. induction texts as [|t rest IH]; intros k; simpl; [|rewrite IH]; reflexivity. Qed.

Lemma writeSetFile_status (status : Z) (w : World) (path setName addrType : string)
    (items : list string) (st : state) :
  writeSetFile (with_meta_status status w) path setName addrType items st
  = writeSetFile w path setName addrType items st.
Proof.
  unfold writeSetFile, call, bind, emit, defer.
  change (w_Create (with_meta_status status w) path) with (w_Create w path).
  destruct (w_Create w path) as [[]|e]; cbn [check ret is_ok trace deferred];
    [|reflexivity].
  now rewrite !Fprintf_all_trace, write_events_status.
Qed.

Lemma main_generate_status (status : Z) (w : World) (st : state) :
  main_generate (with_meta_status status w) st = main_generate w st.
Proof.
  unfold main_generate, bind.
  change (w_Open (with_meta_status status w)) with (w_Open w).
  change (w_Restart (with_meta_status status w)) with (w_Restart w).
  destruct (logInfo "Parsing MMDB and generating nftables sets..." st) as [[u|] st1];
    [|reflexivity].
  destruct (emit (EvOpenDB saveMMDB (is_ok (w_Open w))) st1) as [[u1|] st2];
    [|reflexivity].
  destruct (check (w_Open w) st2) as [[db|] st3]; [|reflexivity].
  destruct (defer (ResDB saveMMDB) st3) as [[u3|] st4]; [|reflexivity].
  destruct (extract db) as [cnIPv4 cnIPv6].
  rewrite writeSetFile_status.
  destruct (writeSetFile w outCN4 "cn4" "ipv4_addr" cnIPv4 st4) as [[u4|] st5];
    [|reflexivity].
  rewrite writeSetFile_status. reflexivity.
Qed.

(** C10: the status of the metadata response is not read: the run is the
    same for every status; it ends at this stage exactly when the request
    fails or the body does not decode, and goes on to the asset resolution
    otherwise. *)
Theorem metadata_status_not_inspected (w : World) (status : Z) :
  run (with_meta_status status w) = run w
  /\ match w_GetMeta w with
     | Err e =>
         run w = [ EvLogInfo "Fetching latest GitHub release metadata...";
                   EvHttpGet apiURL false; EvLogErr e; EvExit 1 ]
     | Ok resp =>
         match BodyRelease resp with
         | Err e =>
             run w = [ EvLogInfo "Fetching latest GitHub release metadata...";
                       EvHttpGet apiURL true; EvLogErr e; EvExit 1 ]
         | Ok release =>
             exists rest,
               run w = ([ EvLogInfo "Fetching latest GitHub release metadata...";
                          EvHttpGet apiURL true;
                          EvLogInfo ("Latest tag: " ++ TagName release) ] ++ rest)%list
         end
     end.
Proof.
  split.
  - assert (Hf : forall st, main_fetch (with_meta_status status w) st = main_fetch w st).
    { intros st. unfold main_fetch, with_meta_status, bind, logInfo, emit.
      cbn [w_GetMeta w_GetDownload w_Create w_Fprintf w_Rename w_Open w_Restart].
      destruct (w_GetMeta w) as [resp|e]; reflexivity. }
    unfold run, main, call, main_body, bind. rewrite Hf.
    destruct (main_fetch w (mkState (trace (mkState [] [])) [])) as [[u|] st1];
      [|reflexivity].
    now rewrite main_generate_status.
  - destruct (w_GetMeta w) as [resp|e] eqn:Hm.
    + destruct (BodyRelease resp) as [release|e] eqn:Hr.
      * set (k :=
          (if String.eqb (findDownloadURL (Assets release)) "" then
             logErr "no mmdb file found in release" ;; os_Exit 1
           else ret tt) ;;
          logInfo ("MMDB download URL: " ++ findDownloadURL (Assets release)) ;;
          logInfo "Downloading MMDB..." ;;
          emit (EvCreate tmpMMDB (is_ok (w_Create w tmpMMDB))) ;;
          check (w_Create w tmpMMDB) ;;
          defer (ResFile tmpMMDB) ;;
          emit (EvHttpGet (findDownloadURL (Assets release))
                  (is_ok (w_GetDownload w (findDownloadURL (Assets release))))) ;;
          resp2 <- check (w_GetDownload w (findDownloadURL (Assets release))) ;;
          defer (ResBody (findDownloadURL (Assets release))) ;;
          (if negb (StatusCode resp2 =? 200) then
             logErr ("download failed: " ++ fmt_d (StatusCode resp2)) ;; os_Exit 1
           else ret tt) ;;
          data <- check (BodyCopy resp2) ;;
          emit (EvWrite tmpMMDB data true) ;;
          logInfo "Download complete." ;;
          logInfo "Replacing old MMDB..." ;;
          emit (EvRename tmpMMDB saveMMDB (is_ok (w_Rename w))) ;;
          check (w_Rename w)).
        apply (run_from w
                 (mkState
                    [ EvLogInfo "Fetching latest GitHub release metadata...";
                      EvHttpGet apiURL true;
                      EvLogInfo ("Latest tag: " ++ TagName release) ] [ResBody apiURL])
                 (bind k (fun _ => main_generate w))).
        -- unfold main_body, main_fetch.
           unfold bind at 1. unfold bind at 1. unfold logInfo at 1, emit at 1.
           cbn [trace deferred app].
           unfold bind at 1. unfold emit at 1. cbn [trace deferred app].
           rewrite Hm. unfold bind at 1. cbn [check ret is_ok].
           unfold bind at 1. cbn [defer trace deferred].
           rewrite Hr. unfold bind at 1. cbn [check ret].
           unfold bind at 1. unfold logInfo at 1, emit at 1. cbn [trace deferred app].
           reflexivity.
        -- unfold k. extends_tac.
      * unfold run, main, call, main_body, main_fetch, bind, logInfo, logErr, emit, os_Exit.
        cbn [trace deferred]. rewrite Hm. cbn [check ret is_ok defer trace deferred].
        rewrite Hr. reflexivity.
    + unfold run, main, call, main_body, main_fetch, bind, logInfo, logErr, emit, os_Exit.
      cbn [trace deferred]. rewrite Hm. reflexivity.
Qed.

(** ** Failures of the writes, and what stays open *)

(** C8, at a failing input: when the second write to the IPv4 set file
    fails, no error is logged, nftables is reloaded and the process ends
    with status 0, with a set file that is not the serialization of the
    extracted list. *)
Theorem write_failure_not_fatal :
  In (EvWrite outCN4 ("    type ipv4_addr" ++ nl) false) (run world_write_fails)
  /\ existsb is_log_err (run world_write_fails) = false
  /\ In (EvExec "systemctl restart nftables" true) (run world_write_fails)
  /\ exit_status (run world_write_fails) = 0
  /\ file_content (run world_write_fails) outCN4 None
     <> Some (serialize "cn4" "ipv4_addr" (fst (extract sample_db))).
Proof.
  split; [|split; [|split; [|split]]].
  - vm_compute. tauto.
  - vm_compute. reflexivity.
  - vm_compute. tauto.
  - vm_compute. reflexivity.
  - vm_compute. discriminate.
Qed.

(** C9, at a failing input: when the database does not open, the process
    exits with status 1 while the two response bodies and the downloaded
    file are still open; when the metadata does not decode, its body is
    still open; a run that reaches the end of [main] closes everything. *)
Theorem fatal_exit_skips_deferred_closes :
  exit_status (run world_bad_db) = 1
  /\ open_after (run world_bad_db) []
     = [ ResBody "https://example.org/country.mmdb"; ResFile tmpMMDB; ResBody apiURL ]
  /\ exit_status (run world_bad_json) = 1
  /\ open_after (run world_bad_json) [] = [ ResBody apiURL ]
  /\ exit_status (run sample_world) = 0
  /\ open_after (run sample_world) [] = [].
Proof. repeat split; vm_compute; reflexivity. Qed.


(** ** Every checked failure ends the run *)

Lemma existsb_write_events (w : World) (path : string) (texts : list string) :
  forall k, existsb is_log_err (write_events w path k texts) = false.
Proof. induction texts as [|t rest IH]; intros k; simpl; auto. Qed.

Lemma forallb_write_events (w : World) (path : string) (texts : list string) :
  forall k, forallb closes_set_file (write_events w path k texts) = true.
Proof. induction texts as [|t rest IH]; intros k; simpl; auto. Qed.

Lemma exit_status_exit (pre : list event) (code : Z) :
  exit_status (pre ++ [EvExit code]) = code.
Proof. unfold exit_status. now rewrite last_last. Qed.

Ltac fatal_shape :=
  rewrite <- (app_assoc _ [EvLogErr _] [EvExit 1]);
  do 2 eexists; split; [reflexivity|];
  rewrite ?existsb_app, ?forallb_app, ?existsb_write_events, ?forallb_write_events;
  split; reflexivity.

(** A run in which a checked call fails logs that one error and exits with
    status 1; none of the [Close] calls that [main] deferred has run. *)
Lemma run_fatal (w : World) :
  all_ok w = false ->
  exists pre msg,
    run w = (pre ++ [EvLogErr msg; EvExit 1])%list
    /\ existsb is_log_err pre = false
    /\ forallb closes_set_file pre = true.
Proof.
  unfold all_ok, fetch_ok. intros H.
  unfold run, main, call, main_body, main_fetch, bind, logInfo, logErr, emit, os_Exit.
  cbn [trace deferred].
  destruct (w_GetMeta w) as [resp|e]; cbn [check ret is_ok defer trace deferred bind
    logErr emit os_Exit snd]; [|fatal_shape].
  destruct (BodyRelease resp) as [release|e]; cbn [check ret is_ok defer trace deferred
    bind logErr emit os_Exit snd]; [|fatal_shape].
  destruct (String.eqb (findDownloadURL (Assets release)) ""); cbn [check ret is_ok
    defer trace deferred bind logErr emit os_Exit snd negb andb]; [fatal_shape|].
  destruct (w_Create w tmpMMDB) as [[]|e]; cbn [check ret is_ok defer trace deferred
    bind logErr emit os_Exit snd negb andb] in *; [|fatal_shape].
  destruct (w_GetDownload w (findDownloadURL (Assets release))) as [resp2|e];
    cbn [check ret is_ok defer trace deferred bind logErr emit os_Exit snd negb andb]
      in *; [|fatal_shape].
  destruct (StatusCode resp2 =? 200); cbn [check ret is_ok defer trace deferred bind
    logErr emit os_Exit snd negb andb] in *; [|fatal_shape].
  destruct (BodyCopy resp2) as [data|e]; cbn [check ret is_ok defer trace deferred bind
    logErr emit os_Exit snd negb andb] in *; [|fatal_shape].
  destruct (w_Rename w) as [[]|e]; cbn [check ret is_ok defer trace deferred bind
    logErr emit os_Exit snd negb andb] in *; [|fatal_shape].
  unfold main_generate, bind, logInfo, logErr, emit, os_Exit.
  cbn [trace deferred].
  destruct (w_Open w) as [db|e]; cbn [check ret is_ok defer trace deferred bind
    logErr emit os_Exit snd negb andb] in *; [|fatal_shape].
  destruct (extract db) as [cnIPv4 cnIPv6].
  destruct (w_Create w outCN4) as [[]|e] eqn:Hc4; cbn [is_ok andb] in H.
  2:{ rewrite (writeSetFile_failed _ _ _ _ _ _ _ Hc4). cbn [trace snd].
      rewrite (app_assoc _ [EvCreate outCN4 false] [EvLogErr e; EvExit 1]).
      do 2 eexists. split; [reflexivity|].
      rewrite ?existsb_app, ?forallb_app. split; reflexivity. }
  rewrite (writeSetFile_created _ _ _ _ _ _ Hc4). cbn [trace deferred].
  destruct (w_Create w outCN6) as [[]|e] eqn:Hc6; cbn [is_ok andb] in H.
  2:{ rewrite (writeSetFile_failed _ _ _ _ _ _ _ Hc6). cbn [trace snd].
      rewrite (app_assoc _ [EvCreate outCN6 false] [EvLogErr e; EvExit 1]).
      do 2 eexists. split; [reflexivity|].
      rewrite ?existsb_app, ?forallb_app. cbn [existsb forallb is_log_err
        closes_set_file orb andb].
      rewrite ?existsb_app, ?forallb_app, ?existsb_write_events, ?forallb_write_events.
      split; reflexivity. }
  rewrite (writeSetFile_created _ _ _ _ _ _ Hc6). cbn [trace deferred].
  destruct (snd (w_Restart w)); [discriminate|].
  cbn [negb ret trace deferred snd].
  rewrite <- (app_assoc _ [EvLogErr _] [EvExit 1]).
  do 2 eexists. split; [reflexivity|].
  rewrite ?existsb_app, ?forallb_app. cbn [existsb forallb is_log_err
    closes_set_file orb andb].
  rewrite ?existsb_app, ?forallb_app, ?existsb_write_events, ?forallb_write_events.
  split; reflexivity.
Qed.

Lemma open_after_app (tr1 tr2 : list event) :
  forall held, open_after (tr1 ++ tr2) held = open_after tr2 (open_after tr1 held).
Proof.
  induction tr1 as [|e tr1 IH]; intros held; [reflexivity|].
  cbn [app open_after]. destruct e; try apply IH; destruct ok; apply IH.
Qed.

Lemma open_after_write_events (w : World) (path : string) (texts : list string) :
  forall k held, open_after (write_events w path k texts) held = held.
Proof. induction texts as [|t rest IH]; intros k held; simpl; auto. Qed.

Lemma remove_first_head (r : resource) (held : list resource) :
  remove_first r (r :: held) = held.
Proof.
  cbn [remove_first]. destruct r; cbn [resource_eqb]; now rewrite String.eqb_refl.
Qed.

(** A run in which every checked call succeeds logs no error, ends with
    status 0 and has closed everything it opened. *)
Lemma run_completes (w : World) :
  all_ok w = true ->
  exit_status (run w) = 0
  /\ existsb is_log_err (run w) = false
  /\ open_after (run w) [] = [].
Proof.
  unfold all_ok, fetch_ok. intros H.
  remember (run w) as tr eqn:Htr.
  unfold run, main, call, main_body, main_fetch, bind, logInfo, logErr, emit, os_Exit
    in Htr.
  cbn [trace deferred] in Htr.
  destruct (w_GetMeta w) as [resp|e]; [|discriminate].
  cbn [check ret is_ok defer trace deferred snd negb] in Htr.
  destruct (BodyRelease resp) as [release|e]; [|discriminate].
  cbn [check ret is_ok defer trace deferred snd negb] in Htr.
  destruct (String.eqb (findDownloadURL (Assets release)) ""); [discriminate|].
  cbn [check ret is_ok defer trace deferred snd negb] in Htr.
  destruct (w_Create w tmpMMDB) as [[]|e]; [|discriminate].
  cbn [check ret is_ok defer trace deferred snd negb] in Htr.
  destruct (w_GetDownload w (findDownloadURL (Assets release))) as [resp2|e];
    [|discriminate].
  cbn [check ret is_ok defer trace deferred snd negb] in Htr.
  destruct (StatusCode resp2 =? 200); [|discriminate].
  cbn [check ret is_ok defer trace deferred snd negb] in Htr.
  destruct (BodyCopy resp2) as [data|e]; [|discriminate].
  cbn [check ret is_ok defer trace deferred snd negb] in Htr.
  destruct (w_Rename w) as [[]|e]; [|discriminate].
  cbn [check ret is_ok defer trace deferred snd negb] in Htr.
  unfold main_generate, bind, logInfo, logErr, emit, os_Exit in Htr.
  cbn [trace deferred] in Htr.
  destruct (w_Open w) as [db|e]; [|discriminate].
  cbn [check ret is_ok defer trace deferred snd negb] in Htr.
  destruct (extract db) as [cnIPv4 cnIPv6].
  destruct (w_Create w outCN4) as [[]|e] eqn:Hc4; [|discriminate].
  rewrite (writeSetFile_created _ _ _ _ _ _ Hc4) in Htr. cbn [trace deferred] in Htr.
  destruct (w_Create w outCN6) as [[]|e] eqn:Hc6; [|discriminate].
  rewrite (writeSetFile_created _ _ _ _ _ _ Hc6) in Htr. cbn [trace deferred] in Htr.
  destruct (snd (w_Restart w)); [|discriminate].
  cbn [negb ret trace deferred snd map] in Htr. subst tr.
  split; [|split].
  - change [EvClose (ResDB saveMMDB); EvClose (ResBody (findDownloadURL (Assets release)));
            EvClose (ResFile tmpMMDB); EvClose (ResBody apiURL)]
      with ([EvClose (ResDB saveMMDB); EvClose (ResBody (findDownloadURL (Assets release)));
             EvClose (ResFile tmpMMDB)] ++ [EvClose (ResBody apiURL)])%list.
    rewrite app_assoc. unfold exit_status. now rewrite last_last.
  - rewrite !existsb_app. cbn [existsb is_log_err orb].
    rewrite !existsb_app, !existsb_write_events. reflexivity.
  - rewrite !open_after_app. cbn [open_after acquired].
    rewrite !open_after_app, !open_after_write_events. cbn [open_after acquired].
    now rewrite !remove_first_head.
Qed.

(** * Further properties of the program *)

(** ** The run, stage by stage *)

Lemma run_is_run_events (w : World) : run w = run_events w.
Proof.
  unfold run, main, call, main_body, main_fetch, bind, logInfo, logErr, emit, os_Exit.
  unfold run_events, download_events, die.
  cbn [trace deferred].
  destruct (w_GetMeta w) as [resp|e]; cbn [check ret is_ok defer trace deferred bind
    logErr emit os_Exit snd]; [|reflexivity].
  destruct (BodyRelease resp) as [release|e]; cbn [check ret is_ok defer trace deferred
    bind logErr emit os_Exit snd]; [|reflexivity].
  destruct (String.eqb (findDownloadURL (Assets release)) ""); cbn [check ret is_ok
    defer trace deferred bind logErr emit os_Exit snd negb andb]; [reflexivity|].
  destruct (w_Create w tmpMMDB) as [[]|e]; cbn [check ret is_ok defer trace deferred
    bind logErr emit os_Exit snd negb andb] in *; [|reflexivity].
  destruct (w_GetDownload w (findDownloadURL (Assets release))) as [resp2|e];
    cbn [check ret is_ok defer trace deferred bind logErr emit os_Exit snd negb andb]
      in *; [|reflexivity].
  destruct (StatusCode resp2 =? 200); cbn [check ret is_ok defer trace deferred bind
    logErr emit os_Exit snd negb andb] in *; [|reflexivity].
  destruct (BodyCopy resp2) as [data|e]; cbn [check ret is_ok defer trace deferred bind
    logErr emit os_Exit snd negb andb] in *; [|reflexivity].
  destruct (w_Rename w) as [[]|e]; cbn [check ret is_ok defer trace deferred bind
    logErr emit os_Exit snd negb andb] in *; [|reflexivity].
  unfold main_generate, generate_events, set_file_events, die, bind, logInfo, logErr,
    emit, os_Exit.
  cbn [trace deferred].
  destruct (w_Open w) as [db|e]; cbn [check ret is_ok defer trace deferred bind
    logErr emit os_Exit snd negb andb] in *; [|reflexivity].
  destruct (extract db) as [cnIPv4 cnIPv6].
  destruct (w_Create w outCN4) as [[]|e] eqn:Hc4.
  2:{ rewrite (writeSetFile_failed _ _ _ _ _ _ _ Hc4). cbn [trace snd].
      rewrite <- !app_assoc. reflexivity. }
  rewrite (writeSetFile_created _ _ _ _ _ _ Hc4). cbn [trace deferred].
  destruct (w_Create w outCN6) as [[]|e] eqn:Hc6.
  2:{ rewrite (writeSetFile_failed _ _ _ _ _ _ _ Hc6). cbn [trace snd].
      rewrite <- !app_assoc. cbn [app]. rewrite <- !app_assoc. reflexivity. }
  rewrite (writeSetFile_created _ _ _ _ _ _ Hc6). cbn [trace deferred].
  destruct (snd (w_Restart w)); cbn [negb ret trace deferred snd map];
    rewrite <- !app_assoc; cbn [app]; rewrite <- !app_assoc; cbn [app];
    rewrite <- ?app_assoc; reflexivity.
Qed.

(** ** The run as a whole *)

Lemma filter_none {A} (P : A -> bool) (l : list A) :
  existsb P l = false -> filter P l = [].
Proof.
  induction l as [|x l IH]; simpl; [reflexivity|].
  destruct (P x); [discriminate | exact IH].
Qed.

(** X1: the exit status of the process is 0 exactly when every call whose
    error is checked succeeds, and 1 otherwise; a failing run logs exactly
    one error, immediately before it exits. *)
Theorem exit_status_by_checked_calls (w : World) :
  exit_status (run w) = (if all_ok w then 0 else 1)
  /\ count is_log_err (run w) = (if all_ok w then 0 else 1)%nat
  /\ (if all_ok w then True
      else exists pre msg, run w = (pre ++ [EvLogErr msg; EvExit 1])%list).
Proof.
  destruct (all_ok w) eqn:E.
  - destruct (run_completes w E) as (H1 & H2 & _).
    split; [exact H1|]. split; [|exact I].
    unfold count. now rewrite (filter_none _ _ H2).
  - destruct (run_fatal w E) as (pre & msg & Hr & Hp & _).
    rewrite Hr. split; [|split].
    + change [EvLogErr msg; EvExit 1] with ([EvLogErr msg] ++ [EvExit 1])%list.
      rewrite app_assoc. apply exit_status_exit.
    + unfold count. rewrite filter_app, (filter_none _ _ Hp). reflexivity.
    + now exists pre, msg.
Qed.


Ltac stages w :=
  unfold run_events, download_events, generate_events, set_file_events, die;
  destruct (w_GetMeta w) as [resp|e] eqn:Hmeta;
  [ destruct (BodyRelease resp) as [release|e] eqn:Hrel;
    [ destruct (String.eqb (findDownloadURL (Assets release)) "") eqn:Hurl;
      [ | destruct (w_Create w tmpMMDB) as [[]|e] eqn:Htmp;
          [ destruct (w_GetDownload w (findDownloadURL (Assets release)))
              as [resp2|e] eqn:Hdl;
            [ destruct (StatusCode resp2 =? 200) eqn:Hst;
              [ destruct (BodyCopy resp2) as [data|e] eqn:Hcopy;
                [ destruct (w_Rename w) as [[]|e] eqn:Hren;
                  [ destruct (w_Open w) as [db|e] eqn:Hopen;
                    [ destruct (extract db) as [cnIPv4 cnIPv6] eqn:Hex;
                      destruct (w_Create w outCN4) as [[]|e] eqn:Hc4;
                      [ destruct (w_Create w outCN6) as [[]|e] eqn:Hc6;
                        [ destruct (w_Restart w) as [output restarted] eqn:Hrs;
                          cbn [fst snd]; destruct restarted
                        | ]
                      | ]
                    | ]
                  | ]
                | ]
              | ]
            | ]
          | ] ]
    | ]
  | ].

Lemma split_here {A} (x : A) (post : list A) : x :: post = ([] ++ x :: post)%list.
Proof. reflexivity. Qed.

Lemma split_cons {A} (a x : A) (l pre post : list A) :
  l = (pre ++ x :: post)%list -> a :: l = ((a :: pre) ++ x :: post)%list.
Proof. now intros ->. Qed.

Lemma split_app {A} (x : A) (l1 l pre post : list A) :
  l = (pre ++ x :: post)%list -> (l1 ++ l)%list = ((l1 ++ pre) ++ x :: post)%list.
Proof. intros ->. now rewrite app_assoc. Qed.

(** Find the place of an event in a trace. *)
Ltac split_at :=
  repeat first [ apply split_here | apply split_cons | apply split_app ].

Ltac find_in :=
  solve [ repeat first [ apply in_eq | apply in_cons | apply in_or_app; right ] ].

Lemma in_write_events (w : World) (path : string) (texts : list string) (e : event) :
  forall k, In e (write_events w path k texts) -> is_write e = true.
Proof.
  induction texts as [|t rest IH]; intros k; cbn [write_events In]; [tauto|].
  intros [<-|H]; [reflexivity | exact (IH _ H)].
Qed.

(** Go through the events of a trace of which [H] says that it holds an
    event that is no write. *)
Ltac in_cases H :=
  repeat match type of H with
         | In _ (_ ++ _)%list => apply in_app_or in H; destruct H as [H|H]
         | In _ (write_events _ _ _ _) => apply in_write_events in H; discriminate H
         | In _ (_ :: _) => destruct H as [H|H]; [try discriminate H|]
         | In _ [] => destruct H
         end.

Lemma filter_write_events (P : event -> bool) (w : World) (path : string)
    (texts : list string) :
  (forall p d ok, P (EvWrite p d ok) = false) ->
  forall k, filter P (write_events w path k texts) = [].
Proof.
  intros HP. induction texts as [|t rest IH]; intros k; cbn [write_events filter];
    [reflexivity|].
  now rewrite HP.
Qed.

Lemma count_app (P : event -> bool) (tr1 tr2 : list event) :
  count P (tr1 ++ tr2) = (count P tr1 + count P tr2)%nat.
Proof. unfold count. now rewrite filter_app, length_app. Qed.

Lemma count_cons (P : event -> bool) (e : event) (tr : list event) :
  count P (e :: tr) = ((if P e then 1 else 0) + count P tr)%nat.
Proof. unfold count. cbn [filter]. now destruct (P e). Qed.

Lemma count_write_events (P : event -> bool) (w : World) (path : string)
    (texts : list string) (k : nat) :
  (forall p d ok, P (EvWrite p d ok) = false) ->
  count P (write_events w path k texts) = 0%nat.
Proof. intros HP. unfold count. now rewrite filter_write_events. Qed.

Lemma count_writes (w : World) (path : string) (texts : list string) :
  forall k, count is_write (write_events w path k texts) = List.length texts.
Proof.
  induction texts as [|t rest IH]; intros k; [reflexivity|].
  cbn [write_events]. rewrite count_cons, IH. reflexivity.
Qed.

(** X2: a run in which every checked call succeeds ends with the log line
    "Done." and then the calls that [main] deferred, in the reverse of the
    order in which the resources were acquired; nothing stays open. *)
Theorem successful_run_closes_in_reverse (w : World) :
  all_ok w = true ->
  (exists pre url,
     run w = (pre ++ [ EvLogInfo "Done.";
                       EvClose (ResDB saveMMDB); EvClose (ResBody url);
                       EvClose (ResFile tmpMMDB); EvClose (ResBody apiURL) ])%list
     /\ open_after pre [] = [ ResDB saveMMDB; ResBody url; ResFile tmpMMDB;
                              ResBody apiURL ])
  /\ open_after (run w) [] = [].
Proof.
  intros H. split; [|now apply run_completes].
  rewrite run_is_run_events. unfold all_ok, fetch_ok in H.
  stages w; rewrite ?Hrs in H; try discriminate H.
  eexists. exists (findDownloadURL (Assets release)). split.
  - split_at.
  - cbn [app open_after acquired is_ok].
    rewrite !open_after_app, !open_after_write_events. cbn [open_after acquired].
    rewrite !open_after_app, !open_after_write_events. cbn [open_after acquired].
    now rewrite !remove_first_head.
Qed.

Lemma successful_run_closes_in_reverse_witness :
  (exists pre url,
     run sample_world
     = (pre ++ [ EvLogInfo "Done.";
                 EvClose (ResDB saveMMDB); EvClose (ResBody url);
                 EvClose (ResFile tmpMMDB); EvClose (ResBody apiURL) ])%list
     /\ open_after pre [] = [ ResDB saveMMDB; ResBody url; ResFile tmpMMDB;
                              ResBody apiURL ])
  /\ open_after (run sample_world) [] = [].
Proof. apply (successful_run_closes_in_reverse sample_world). reflexivity. Defined.

Lemma existsb_download_writes (w : World) (path : string) (texts : list string) :
  String.eqb path tmpMMDB = false ->
  forall k, existsb download_event (write_events w path k texts) = false.
Proof.
  intros E. induction texts as [|t rest IH]; intros k;
    cbn [write_events existsb download_event]; [reflexivity|].
  now rewrite E, IH.
Qed.

(** X3: the live database is replaced at most by a complete download: when
    the trace has a rename, it is the rename of the temporary file to the
    live path, the download request was answered with status 200, the body
    was copied without error, and the copy was written before the rename;
    nothing is downloaded or written to the temporary file after it. *)
Theorem rename_only_after_complete_download (w : World) (src dst : string)
    (ok : bool) :
  In (EvRename src dst ok) (run w) ->
  src = tmpMMDB /\ dst = saveMMDB /\ ok = is_ok (w_Rename w)
  /\ exists resp release resp2 data pre post,
       w_GetMeta w = Ok resp /\ BodyRelease resp = Ok release
       /\ w_GetDownload w (findDownloadURL (Assets release)) = Ok resp2
       /\ StatusCode resp2 = 200 /\ BodyCopy resp2 = Ok data
       /\ run w = (pre ++ EvRename src dst ok :: post)%list
       /\ In (EvWrite tmpMMDB data true) pre
       /\ existsb download_event post = false.
Proof.
  rewrite run_is_run_events. intros H.
  revert H. stages w; intros H; in_cases H;
    inversion H; subst src dst ok; clear H;
    (split; [reflexivity|]); (split; [reflexivity|]); (split; [reflexivity|]);
    exists resp, release, resp2, data; do 2 eexists;
    (split; [reflexivity|]); (split; [assumption|]); (split; [assumption|]);
    (split; [now apply Z.eqb_eq|]); (split; [assumption|]);
    (split; [split_at|]); (split; [find_in|]).
  all: repeat first [ rewrite existsb_app
                    | rewrite existsb_download_writes by reflexivity
                    | progress cbn [existsb download_event app] ];
    reflexivity.
Qed.

Lemma rename_only_after_complete_download_witness :
  tmpMMDB = tmpMMDB /\ saveMMDB = saveMMDB /\ true = is_ok (w_Rename sample_world)
  /\ exists resp release resp2 data pre post,
       w_GetMeta sample_world = Ok resp /\ BodyRelease resp = Ok release
       /\ w_GetDownload sample_world (findDownloadURL (Assets release)) = Ok resp2
       /\ StatusCode resp2 = 200 /\ BodyCopy resp2 = Ok data
       /\ run sample_world = (pre ++ EvRename tmpMMDB saveMMDB true :: post)%list
       /\ In (EvWrite tmpMMDB data true) pre
       /\ existsb download_event post = false.
Proof.
  apply (rename_only_after_complete_download sample_world tmpMMDB saveMMDB true).
  vm_compute. tauto.
Defined.

(** X4: nftables is restarted in exactly the runs in which everything before
    the restart succeeded: the whole download stage, the opening of the
    database and the creation of the two set files. *)
Theorem restart_iff_sets_written (w : World) :
  (exists cmd ok, In (EvExec cmd ok) (run w)) <-> sets_written w = true.
Proof.
  rewrite run_is_run_events. unfold sets_written, fetch_ok.
  stages w; cbn [is_ok negb andb]; rewrite ?Hurl, ?Htmp, ?Hdl, ?Hst, ?Hcopy, ?Hren;
    cbn [is_ok negb andb];
    (split; [intros (cmd & ok & H); in_cases H; reflexivity|]); intros H;
    try discriminate H.
  all: do 2 eexists; find_in.
Qed.



(** X6: no call is repeated: a run makes at most two requests, creates at
    most three files, renames, opens the database and runs a command at
    most once each, and logs at most one error. *)
Theorem no_call_is_repeated (w : World) :
  (count is_http_get (run w) <= 2)%nat
  /\ (count is_create (run w) <= 3)%nat
  /\ (count is_rename (run w) <= 1)%nat
  /\ (count is_open_db (run w) <= 1)%nat
  /\ (count is_exec (run w) <= 1)%nat
  /\ (count is_log_err (run w) <= 1)%nat.
Proof.
  rewrite run_is_run_events.
  stages w; repeat split;
    repeat first [ rewrite count_cons | rewrite count_app
                 | rewrite count_write_events by reflexivity ];
    cbn [is_http_get is_create is_rename is_open_db is_exec is_log_err];
    unfold count; cbn [filter List.length]; lia.
Qed.

(** X7: [writeSetFile], when the file is created, returns to its caller
    whatever the writes do: it makes the four header writes, one write for
    each item and the footer write, logs no error, closes the file it
    opened and leaves the deferred calls of its caller as they are; when
    the file is not created it writes nothing, logs the error and exits with
    status 1. *)
Theorem writeSetFile_returns_and_closes (w : World) (path setName addrType : string)
    (items : list string) (st : state) :
  match w_Create w path with
  | Ok _ =>
      exists evs,
        writeSetFile w path setName addrType items st
        = (Some tt, mkState (trace st ++ evs) (deferred st))
        /\ count is_write evs = (5 + List.length items)%nat
        /\ existsb is_log_err evs = false
        /\ (forall held, open_after evs held = held)
        /\ last evs (EvExit 0) = EvClose (ResFile path)
  | Err e =>
      writeSetFile w path setName addrType items st
      = (None, mkState (trace st ++ [EvCreate path false; EvLogErr e; EvExit 1]) [])
  end.
Proof.
  destruct (w_Create w path) as [[]|e] eqn:Hc.
  - rewrite (writeSetFile_created _ _ _ _ _ _ Hc). eexists. split; [reflexivity|].
    split; [|split; [|split]].
    + repeat first [ rewrite count_cons | rewrite count_app | rewrite count_writes ].
      cbn [is_write]. unfold set_writes, set_header, count.
      rewrite !length_app, !length_map. cbn [List.length filter]. lia.
    + cbn [existsb is_log_err orb]. now rewrite existsb_app, existsb_write_events.
    + intros held. cbn [open_after acquired].
      rewrite open_after_app, open_after_write_events. cbn [open_after].
      apply remove_first_head.
    + rewrite app_comm_cons. apply last_last.
  - now apply writeSetFile_failed.
Qed.

(** X8: when everything up to the restart succeeds and the restart fails,
    the run exits with status 1 after logging the output of the command,
    and the two set files stay as they were written: complete. *)
Theorem failed_restart_keeps_set_files (w : World) (entries : list entry) :
  fetch_ok w = true -> writes_ok w -> w_Open w = Ok entries ->
  snd (w_Restart w) = false ->
  exit_status (run w) = 1
  /\ (exists pre,
        run w = (pre ++ [EvLogErr ("systemctl output: " ++ fst (w_Restart w));
                         EvExit 1])%list
        /\ existsb is_log_err pre = false)
  /\ file_content (run w) outCN4 None
     = Some (serialize "cn4" "ipv4_addr" (fst (extract entries)))
  /\ file_content (run w) outCN6 None
     = Some (serialize "cn6" "ipv6_addr" (snd (extract entries))).
Proof.
  intros Hf Hw Ho Hr.
  split; [|split; [|exact (run_contents w entries Hf Hw Ho)]].
  - assert (Ha : all_ok w = false).
    { unfold all_ok. rewrite Hr. now rewrite andb_false_r. }
    destruct (run_fatal w Ha) as (pre & msg & -> & _).
    change [EvLogErr msg; EvExit 1] with ([EvLogErr msg] ++ [EvExit 1])%list.
    rewrite app_assoc. apply exit_status_exit.
  - destruct Hw as (Hw4 & Hw6 & _). revert Hf Hr.
    rewrite run_is_run_events. unfold fetch_ok.
    stages w; cbn [snd]; intros Hf Hr; try discriminate.
    eexists. split.
    + split_at.
    + cbn [app existsb is_log_err orb]. rewrite existsb_app, existsb_write_events.
      cbn [existsb is_log_err orb]. rewrite existsb_app, existsb_write_events.
      reflexivity.
Qed.

Lemma failed_restart_keeps_set_files_witness :
  exit_status (run world_restart_fails) = 1
  /\ (exists pre,
        run world_restart_fails
        = (pre ++ [EvLogErr ("systemctl output: " ++ fst (w_Restart world_restart_fails));
                   EvExit 1])%list
        /\ existsb is_log_err pre = false)
  /\ file_content (run world_restart_fails) outCN4 None
     = Some (serialize "cn4" "ipv4_addr" (fst (extract sample_db)))
  /\ file_content (run world_restart_fails) outCN6 None
     = Some (serialize "cn6" "ipv6_addr" (snd (extract sample_db))).
Proof.
  apply (failed_restart_keeps_set_files world_restart_fails sample_db).
  - reflexivity.
  - repeat split.
  - reflexivity.
  - reflexivity.
Defined.

(** ** The extension of a name *)

Lemma string_of_list_app (a b : list ascii) :
  string_of_list_ascii (a ++ b) = (string_of_list_ascii a ++ string_of_list_ascii b)%string.
Proof. induction a as [|c a IH]; cbn; [reflexivity | now rewrite IH]. Qed.

Lemma list_of_string_app (a b : string) :
  list_ascii_of_string (a ++ b) = (list_ascii_of_string a ++ list_ascii_of_string b)%list.
Proof. induction a as [|c a IH]; cbn; [reflexivity | now rewrite IH]. Qed.

(** The scan from the end stops at the first dot, when no separator comes
    before it. *)
Lemma Ext_scan_dot (r rest : list ascii) :
  forall suffix,
    forallb (fun c => negb (Ascii.eqb c "/") && negb (Ascii.eqb c ".")) r = true ->
    Ext_scan (r ++ "."%char :: rest) suffix
    = String "." (string_of_list_ascii (rev r) ++ suffix).
Proof.
  induction r as [|c r IH]; intros suffix H; [reflexivity|].
  cbn [forallb] in H. rewrite !andb_true_iff, !negb_true_iff in H.
  destruct H as [[H1 H2] H]. cbn [app Ext_scan rev]. rewrite H1, H2, (IH _ H).
  now rewrite string_of_list_app, string_app_assoc.
Qed.

Lemma Ext_scan_inv (r : list ascii) :
  forall suffix,
    Ext_scan r suffix = ""
    \/ exists r1 r2,
         r = (r1 ++ "."%char :: r2)%list
         /\ Ext_scan r suffix = String "." (string_of_list_ascii (rev r1) ++ suffix).
Proof.
  induction r as [|c r IH]; intros suffix; [now left|].
  cbn [Ext_scan]. destruct (Ascii.eqb c "/") eqn:E1; [now left|].
  destruct (Ascii.eqb_spec c ".") as [->|E2].
  - right. now exists [], r.
  - destruct (IH (String c suffix)) as [H|(r1 & r2 & -> & H)]; [now left|].
    right. exists (c :: r1), r2. split; [reflexivity|]. rewrite H. cbn [rev].
    now rewrite string_of_list_app, string_app_assoc.
Qed.

Lemma Ext_of_mmdb (base : string) : Ext (base ++ ".mmdb") = ".mmdb".
Proof.
  unfold Ext. rewrite list_of_string_app, rev_app_distr.
  exact (Ext_scan_dot ["b"; "d"; "m"; "m"]%char (rev (list_ascii_of_string base)) ""
           eq_refl).
Qed.

(** X9: [filepath.Ext] gives ".mmdb" for exactly the names that end with
    ".mmdb", the name ".mmdb" itself included, whatever comes before. *)
Theorem Ext_mmdb_iff_suffix (name : string) :
  Ext name = ".mmdb" <-> exists base, name = (base ++ ".mmdb")%string.
Proof.
  split.
  - unfold Ext. intros H.
    destruct (Ext_scan_inv (rev (list_ascii_of_string name)) "")
      as [E|(r1 & r2 & Er & E)]; rewrite E in H; [discriminate|].
    rewrite string_app_nil_r in H. injection H as H.
    exists (string_of_list_ascii (rev r2)). rewrite <- H.
    change (String "." (string_of_list_ascii (rev r1)))
      with (string_of_list_ascii ("."%char :: rev r1)).
    rewrite <- string_of_list_app.
    rewrite <- (string_of_list_ascii_of_string name) at 1. f_equal.
    rewrite <- (rev_involutive (list_ascii_of_string name)), Er.
    rewrite rev_app_distr. cbn [rev]. now rewrite <- app_assoc.
  - intros [base ->]. apply Ext_of_mmdb.
Qed.

(** X10: the first asset whose name ends with ".mmdb" decides: when it has
    no address, the run fails with "no mmdb file found in release" before
    anything is created or downloaded, whatever assets come after it. *)
Theorem first_database_asset_decides (w : World) (resp : Response)
    (release : GitHubRelease) (before after : list GitHubAsset) (a : GitHubAsset)
    (base : string) :
  w_GetMeta w = Ok resp -> BodyRelease resp = Ok release ->
  Assets release = (before ++ a :: after)%list ->
  forallb (fun x => negb (has_mmdb_ext x)) before = true ->
  Name a = (base ++ ".mmdb")%string ->
  findDownloadURL (Assets release) = BrowserDownloadURL a
  /\ (BrowserDownloadURL a = "" ->
      run w = [ EvLogInfo "Fetching latest GitHub release metadata...";
                EvHttpGet apiURL true;
                EvLogInfo ("Latest tag: " ++ TagName release);
                EvLogErr "no mmdb file found in release"; EvExit 1 ]).
Proof.
  intros Hm Hr Ha Hb Hn.
  assert (Hu : findDownloadURL (Assets release) = BrowserDownloadURL a).
  { rewrite Ha. clear Ha. induction before as [|x before IH]; cbn [app findDownloadURL].
    - now rewrite Hn, Ext_of_mmdb.
    - cbn [forallb] in Hb. apply andb_true_iff in Hb. destruct Hb as [Hx Hb].
      unfold has_mmdb_ext in Hx. apply negb_true_iff in Hx. rewrite Hx. now apply IH. }
  split; [exact Hu|]. intros He.
  rewrite run_is_run_events. unfold run_events, die.
  now rewrite Hm, Hr, Hu, He.
Qed.

Lemma first_database_asset_decides_witness :
  findDownloadURL
    [ mkAsset "GeoLite2-ASN.tar.gz" "https://example.org/asn.tar.gz";
      mkAsset "GeoLite2-Country.mmdb" "";
      mkAsset "GeoLite2-City.mmdb" "https://example.org/city.mmdb" ] = ""
  /\ run world_empty_url
     = [ EvLogInfo "Fetching latest GitHub release metadata...";
         EvHttpGet apiURL true; EvLogInfo "Latest tag: 2026.10.30";
         EvLogErr "no mmdb file found in release"; EvExit 1 ].
Proof.
  destruct (first_database_asset_decides world_empty_url
              (mkResponse 200
                 (Ok (mkRelease "2026.10.30"
                        [ mkAsset "GeoLite2-ASN.tar.gz" "https://example.org/asn.tar.gz";
                          mkAsset "GeoLite2-Country.mmdb" "";
                          mkAsset "GeoLite2-City.mmdb" "https://example.org/city.mmdb" ]))
                 (Err "not read"))
              (mkRelease "2026.10.30"
                 [ mkAsset "GeoLite2-ASN.tar.gz" "https://example.org/asn.tar.gz";
                   mkAsset "GeoLite2-Country.mmdb" "";
                   mkAsset "GeoLite2-City.mmdb" "https://example.org/city.mmdb" ])
              [ mkAsset "GeoLite2-ASN.tar.gz" "https://example.org/asn.tar.gz" ]
              [ mkAsset "GeoLite2-City.mmdb" "https://example.org/city.mmdb" ]
              (mkAsset "GeoLite2-Country.mmdb" "")
              "GeoLite2-Country"
              eq_refl eq_refl eq_refl eq_refl eq_refl) as [H1 H2].
  split; [exact H1 | exact (H2 eq_refl)].
Defined.

(** ** The elements of the two lists *)

Lemma slice_land_12_16 (b m : list Z) :
  bytes 16 b -> bytes 16 m ->
  slice (land_bytes b m) 12 16 = land_bytes (slice b 12 16) (slice m 12 16).
Proof.
  intros [Hb _] [Hm _].
  destruct (length16 b Hb) as (b0 & b1 & b2 & b3 & b4 & b5 & b6 & b7 & b8 & b9
                                 & b10 & b11 & b12 & b13 & b14 & b15 & ->).
  destruct (length16 m Hm) as (m0 & m1 & m2 & m3 & m4 & m5 & m6 & m7 & m8 & m9
                                 & m10 & m11 & m12 & m13 & m14 & m15 & ->).
  reflexivity.
Qed.

(** What ParseCIDR returns prints in canonical form, in the family that
    [To4] decides. *)
Lemma ParseCIDR_canonical (s : string) (ip : IP) (n : IPNet) :
  ParseCIDR s = Some (ip, n) ->
  (To4 (ipn_IP n) <> [] /\ canonical4 (IPNet_String n))
  \/ (To4 (ipn_IP n) = [] /\ canonical6 (IPNet_String n)).
Proof.
  intros H. destruct (ParseCIDR_inv s ip n H) as (a & k & Hwf & Hz & Hk & -> & ->).
  destruct a as [b|b zone]; cbn [wf_addr BitLen As16 Zone ipn_IP] in *.
  - left. destruct (CIDRMask_32 k Hk) as [Hm Hsm].
    rewrite (Mask_4 b _ Hwf Hm).
    pose proof (land_bytes_bytes 4 b _ Hwf Hm) as Hc.
    split.
    + rewrite (To4_4 _ Hc). destruct Hc as [Hl _]. intros E. now rewrite E in Hl.
    + exists (land_bytes b (CIDRMask k 32)), k.
      split; [exact Hc|]. split; [exact Hk|]. split; [apply land_bytes_idem|].
      apply IPNet_String_4; auto. lia.
  - destruct (CIDRMask_128 k Hk) as (Hm & Hsm & Hsl).
    rewrite (Mask_16 b _ Hwf Hm).
    pose proof (land_bytes_bytes 16 b _ Hwf Hm) as Hc.
    rewrite (To4_16 _ Hc).
    destruct (Is4In6 (land_bytes b (CIDRMask k 128))) eqn:E4.
    + left. pose proof (slice_12_16 _ Hc) as Hd. split.
      * destruct Hd as [Hl _]. intros E. now rewrite E in Hl.
      * assert (Hk4 : 0 <= Z.max 0 (k - 96) <= 32) by lia.
        destruct (CIDRMask_32 _ Hk4) as [Hm4 Hsm4].
        exists (slice (land_bytes b (CIDRMask k 128)) 12 16), (Z.max 0 (k - 96)).
        split; [exact Hd|]. split; [exact Hk4|]. split.
        -- rewrite (slice_land_12_16 _ _ Hwf Hm), Hsl. apply land_bytes_idem.
        -- apply IPNet_String_mapped; auto; [now rewrite Hsl | lia].
    + right. split; [reflexivity|].
      exists (land_bytes b (CIDRMask k 128)), k.
      split; [exact Hc|]. split; [exact E4|]. split; [exact Hk|].
      split; [apply land_bytes_idem|].
      apply IPNet_String_16; auto. lia.
Qed.

(** X11: every element of the IPv4 list is a dotted-decimal address, "/"
    and a prefix length of at most 32; every element of the IPv6 list is
    the IPv6 text of an address that is not IPv4-mapped, "/" and a prefix
    length of at most 128; in both, no bit of the address is set beyond the
    prefix.  No element is "<nil>" or has a mask in hexadecimal. *)
Theorem extracted_elements_canonical (db : list entry) :
  (forall x, In x (fst (extract db)) -> canonical4 x)
  /\ (forall x, In x (snd (extract db)) -> canonical6 x).
Proof.
  rewrite extract_is_filterMap. unfold spec_extract. cbn [fst snd].
  split; intros x Hx; apply in_flat_map in Hx; destruct Hx as (e & _ & He);
    destruct e as [|network rec]; cbn [spec_classify of_family] in He;
    try (now destruct He);
    (destruct (String.eqb (ISOCode rec) "CN"); [|now destruct He]);
    (destruct (ParseCIDR (IPNet_String network)) as [[ip ipNet]|] eqn:E;
       [|now destruct He]);
    destruct (ParseCIDR_canonical _ ip ipNet E) as [[Hf Hc]|[Hf Hc]];
    destruct (To4 (ipn_IP ipNet)); cbn [of_family In] in He;
    try (now destruct He); try congruence;
    destruct He as [<-|[]]; exact Hc.
Qed.

(** ** What the loop does with a network of the database *)

Lemma extract_step_printed (cn4 cn6 : list string) (network : IPNet)
    (rec : CountryRecord) (addr : string) (a : Addr) (k : Z) :
  IPNet_String network = (addr ++ "/" ++ uitoa k)%string ->
  str_forall (fun x => negb (is_char x "/")) addr = true ->
  ParseAddr addr = Some a -> Zone a = "" -> 0 <= k <= BitLen a ->
  extract_step (cn4, cn6) (Decoded network rec)
  = if String.eqb (ISOCode rec) "CN" then
      match To4 (Mask (As16 a) (CIDRMask k (BitLen a))) with
      | [] => (cn4, (cn6 ++ [IPNet_String
                               (mkIPNet (Mask (As16 a) (CIDRMask k (BitLen a)))
                                        (CIDRMask k (BitLen a)))])%list)
      | _ => ((cn4 ++ [IPNet_String
                         (mkIPNet (Mask (As16 a) (CIDRMask k (BitLen a)))
                                  (CIDRMask k (BitLen a)))])%list, cn6)
      end
    else (cn4, cn6).
Proof.
  intros Hs Hns Hp Hz Hk.
  pose proof (ParseCIDR_printed addr a k Hns Hp Hz Hk) as H. rewrite <- Hs in H.
  now rewrite (extract_step_match cn4 cn6 network rec _ _ H).
Qed.

(** X12: an IPv4 network of the database, four bytes with a prefix length
    [k], is added to the IPv4 list when the code is "CN", as the dotted
    decimal text of its address with the bits beyond the prefix cleared,
    "/" and [k]; with another code nothing is added. *)
Theorem ipv4_network_emitted (c : list Z) (k : Z) (rec : CountryRecord)
    (cn4 cn6 : list string) :
  bytes 4 c -> 0 <= k <= 32 ->
  extract_step (cn4, cn6) (Decoded (mkIPNet c (CIDRMask k 32)) rec)
  = if String.eqb (ISOCode rec) "CN"
    then ((cn4 ++ [string4 (land_bytes c (CIDRMask k 32)) ++ "/" ++ uitoa k]%string)%list,
          cn6)
    else (cn4, cn6).
Proof.
  intros Hc Hk. destruct (CIDRMask_32 k Hk) as [Hm Hsm].
  destruct (ParseAddr_string4_bytes c Hc) as [Hp Hns].
  assert (Hs : IPNet_String (mkIPNet c (CIDRMask k 32))
               = (string4 c ++ "/" ++ uitoa k)%string)
    by (apply IPNet_String_4; auto; lia).
  rewrite (extract_step_printed cn4 cn6 _ rec _ (AddrFrom4 c) k Hs Hns Hp eq_refl Hk).
  cbn [As16 BitLen]. rewrite (Mask_4 c _ Hc Hm).
  pose proof (land_bytes_bytes 4 c _ Hc Hm) as Hd.
  rewrite (To4_4 _ Hd), (IPNet_String_4 _ _ k Hd Hm Hsm) by lia.
  destruct (String.eqb (ISOCode rec) "CN"); [|reflexivity].
  destruct Hd as [Hl _].
  destruct (land_bytes c (CIDRMask k 32)); [discriminate Hl | reflexivity].
Qed.

Lemma ipv4_network_emitted_witness :
  extract_step (["10.0.0.0/8"], []) (Decoded (mkIPNet [1; 2; 3; 4] (CIDRMask 24 32))
                                       (mkCountryRecord "CN"))
  = (["10.0.0.0/8"; "1.2.3.0/24"], []).
Proof.
  apply (ipv4_network_emitted [1; 2; 3; 4] 24 (mkCountryRecord "CN")
           ["10.0.0.0/8"] []).
  - split; [reflexivity|]. repeat constructor; unfold is_byte; lia.
  - lia.
Defined.

Lemma mapped_mask_ok_all (k : Z) : 0 <= k <= 128 -> mapped_mask_ok k = true.
Proof.
  intros H. apply (forall_upto mapped_mask_ok 129); [vm_compute; reflexivity | lia].
Qed.

Lemma land_byte_full (a b : Z) : is_byte a -> is_byte b -> Z.land a b = 255 -> b = 255.
Proof.
  unfold is_byte. intros Ha Hb H.
  rewrite <- (Z2N.id a), <- (Z2N.id b), <- N2Z.inj_land in H by lia.
  pose proof (N.land_le_l (Z.to_N b) (Z.to_N a)) as Hle.
  rewrite N.land_comm in Hle. lia.
Qed.

Lemma land_byte_255 (a : Z) : is_byte a -> Z.land a 255 = a.
Proof.
  unfold is_byte. intros Ha. change 255 with (Z.ones 8).
  rewrite Z.land_ones by lia. apply Z.mod_small. lia.
Qed.

(** Masking does not make an IPv4-mapped address out of another one. *)
Lemma Is4In6_land (c : list Z) (k : Z) :
  bytes 16 c -> 0 <= k <= 128 ->
  Is4In6 (land_bytes c (CIDRMask k 128)) = true -> Is4In6 c = true.
Proof.
  intros [Hl Hb] Hk. destruct (CIDRMask_128 k Hk) as ([Hlm Hbm] & _ & _).
  pose proof (mapped_mask_ok_all k Hk) as Hok. unfold mapped_mask_ok in Hok.
  destruct (length16 c Hl) as (c0 & c1 & c2 & c3 & c4 & c5 & c6 & c7 & c8 & c9
                                 & c10 & c11 & c12 & c13 & c14 & c15 & ->).
  destruct (length16 _ Hlm) as (m0 & m1 & m2 & m3 & m4 & m5 & m6 & m7 & m8 & m9
                                  & m10 & m11 & m12 & m13 & m14 & m15 & Em).
  rewrite Em in *.
  change (at_ [m0; m1; m2; m3; m4; m5; m6; m7; m8; m9; m10; m11; m12; m13; m14; m15] 11)
    with m11 in Hok.
  change (allFF (slice [m0; m1; m2; m3; m4; m5; m6; m7; m8; m9; m10; m11; m12; m13;
                        m14; m15] 0 12))
    with ((m0 =? 255) && ((m1 =? 255) && ((m2 =? 255) && ((m3 =? 255) && ((m4 =? 255)
          && ((m5 =? 255) && ((m6 =? 255) && ((m7 =? 255) && ((m8 =? 255)
          && ((m9 =? 255) && ((m10 =? 255) && ((m11 =? 255) && true))))))))))))
    in Hok.
  change (Is4In6 (land_bytes [c0; c1; c2; c3; c4; c5; c6; c7; c8; c9; c10; c11; c12;
                              c13; c14; c15]
                             [m0; m1; m2; m3; m4; m5; m6; m7; m8; m9; m10; m11; m12;
                              m13; m14; m15]))
    with ((Z.land c0 m0 =? 0) && ((Z.land c1 m1 =? 0) && ((Z.land c2 m2 =? 0)
          && ((Z.land c3 m3 =? 0) && ((Z.land c4 m4 =? 0) && ((Z.land c5 m5 =? 0)
          && ((Z.land c6 m6 =? 0) && ((Z.land c7 m7 =? 0) && ((Z.land c8 m8 =? 0)
          && ((Z.land c9 m9 =? 0) && true)))))))))
          && (Z.land c10 m10 =? 255) && (Z.land c11 m11 =? 255)).
  change (Is4In6 [c0; c1; c2; c3; c4; c5; c6; c7; c8; c9; c10; c11; c12; c13; c14; c15])
    with ((c0 =? 0) && ((c1 =? 0) && ((c2 =? 0) && ((c3 =? 0) && ((c4 =? 0)
          && ((c5 =? 0) && ((c6 =? 0) && ((c7 =? 0) && ((c8 =? 0) && ((c9 =? 0)
          && true))))))))) && (c10 =? 255) && (c11 =? 255)).
  rewrite !andb_true_iff, !Z.eqb_eq. intros [[H0 H10] H11].
  repeat match goal with
         | H : Forall is_byte (_ :: _) |- _ =>
             let Hx := fresh "Hx" in let Hr := fresh "Hr" in
             inversion H as [|? ? Hx Hr]; subst; clear H
         end.
  assert (E11 : m11 = 255) by (apply (land_byte_full c11); assumption).
  subst m11. cbn [Z.eqb Pos.eqb negb orb] in Hok.
  rewrite !andb_true_iff, !Z.eqb_eq in Hok.
  destruct Hok as (-> & -> & -> & -> & -> & -> & -> & -> & -> & -> & -> & _ & _).
  rewrite !land_byte_255 in H0 by assumption.
  rewrite land_byte_255 in H10, H11 by assumption.
  tauto.
Qed.

(** X13: an IPv6 network of the database whose address is not an
    IPv4-mapped one, sixteen bytes with a prefix length [k], is added to the
    IPv6 list when the code is "CN", as the IPv6 text of its address with
    the bits beyond the prefix cleared, "/" and [k]; it is never added to
    the IPv4 list. *)
Theorem ipv6_network_emitted (c : list Z) (k : Z) (rec : CountryRecord)
    (cn4 cn6 : list string) :
  bytes 16 c -> Is4In6 c = false -> 0 <= k <= 128 ->
  extract_step (cn4, cn6) (Decoded (mkIPNet c (CIDRMask k 128)) rec)
  = if String.eqb (ISOCode rec) "CN"
    then (cn4,
          (cn6 ++ [string6 (land_bytes c (CIDRMask k 128)) ++ "/" ++ uitoa k]%string)%list)
    else (cn4, cn6).
Proof.
  intros Hc H4 Hk. destruct (CIDRMask_128 k Hk) as (Hm & Hsm & _).
  assert (Hs : IPNet_String (mkIPNet c (CIDRMask k 128))
               = (string6 c ++ "/" ++ uitoa k)%string)
    by (apply IPNet_String_16; auto; lia).
  rewrite (extract_step_printed cn4 cn6 _ rec _ (AddrFrom16 c "") k Hs
             (string6_no_slash c Hc)
             (ParseAddr_string6 c (proj1 Hc) (proj2 Hc)) eq_refl Hk).
  cbn [As16 BitLen]. rewrite (Mask_16 c _ Hc Hm).
  pose proof (land_bytes_bytes 16 c _ Hc Hm) as Hd.
  assert (E : Is4In6 (land_bytes c (CIDRMask k 128)) = false).
  { destruct (Is4In6 (land_bytes c (CIDRMask k 128))) eqn:E; [|reflexivity].
    rewrite (Is4In6_land c k Hc Hk E) in H4. discriminate. }
  rewrite (To4_16 _ Hd), E, (IPNet_String_16 _ _ k Hd Hm E Hsm) by lia.
  reflexivity.
Qed.

Lemma ipv6_network_emitted_witness :
  extract_step ([], ["2001:db8::/32"])
    (Decoded (mkIPNet [36; 14; 0; 0; 0; 0; 0; 0; 0; 0; 0; 0; 0; 0; 0; 1]
                      (CIDRMask 20 128)) (mkCountryRecord "CN"))
  = ([], ["2001:db8::/32"; "240e::/20"]).
Proof.
  apply (ipv6_network_emitted [36; 14; 0; 0; 0; 0; 0; 0; 0; 0; 0; 0; 0; 0; 0; 1] 20
           (mkCountryRecord "CN") [] ["2001:db8::/32"]).
  - split; [reflexivity|]. repeat constructor; unfold is_byte; lia.
  - reflexivity.
  - lia.
Defined.

(** X14: a network of the database whose sixteen-byte address is an
    IPv4-mapped one goes to the IPv4 list, not to the IPv6 list: it is
    printed with its last four bytes and the prefix length less 96, and a
    prefix length below 96 becomes 0, which clears the whole address. *)
Theorem mapped_network_emitted_as_ipv4 (c : list Z) (k : Z) (rec : CountryRecord)
    (cn4 cn6 : list string) :
  bytes 16 c -> Is4In6 c = true -> 0 <= k <= 128 ->
  extract_step (cn4, cn6) (Decoded (mkIPNet c (CIDRMask k 128)) rec)
  = if String.eqb (ISOCode rec) "CN"
    then ((cn4 ++ [string4 (land_bytes (slice c 12 16) (CIDRMask (Z.max 0 (k - 96)) 32))
                   ++ "/" ++ uitoa (Z.max 0 (k - 96))]%string)%list,
          cn6)
    else (cn4, cn6).
Proof.
  intros Hc H4 Hk. destruct (CIDRMask_128 k Hk) as (Hm & _ & Hsl).
  assert (Hk4 : 0 <= Z.max 0 (k - 96) <= 32) by lia.
  destruct (CIDRMask_32 _ Hk4) as [Hm4 Hsm4].
  pose proof (slice_12_16 c Hc) as Hd.
  destruct (ParseAddr_string4_bytes _ Hd) as [Hp Hns].
  assert (Hs : IPNet_String (mkIPNet c (CIDRMask k 128))
               = (string4 (slice c 12 16) ++ "/" ++ uitoa (Z.max 0 (k - 96)))%string).
  { apply IPNet_String_mapped; auto; [now rewrite Hsl | lia]. }
  rewrite (extract_step_printed cn4 cn6 _ rec _ (AddrFrom4 (slice c 12 16)) _ Hs Hns Hp
             eq_refl Hk4).
  cbn [As16 BitLen]. rewrite (Mask_4 _ _ Hd Hm4).
  pose proof (land_bytes_bytes 4 _ _ Hd Hm4) as He.
  rewrite (To4_4 _ He), (IPNet_String_4 _ _ _ He Hm4 Hsm4) by lia.
  destruct (String.eqb (ISOCode rec) "CN"); [|reflexivity].
  destruct He as [Hl _].
  destruct (land_bytes (slice c 12 16) (CIDRMask (Z.max 0 (k - 96)) 32));
    [discriminate Hl | reflexivity].
Qed.

Lemma mapped_network_emitted_as_ipv4_witness :
  extract_step ([], [])
    (Decoded (mkIPNet [0; 0; 0; 0; 0; 0; 0; 0; 0; 0; 255; 255; 1; 2; 3; 4]
                      (CIDRMask 64 128)) (mkCountryRecord "CN"))
  = (["0.0.0.0/0"], []).
Proof.
  apply (mapped_network_emitted_as_ipv4
           [0; 0; 0; 0; 0; 0; 0; 0; 0; 0; 255; 255; 1; 2; 3; 4] 64
           (mkCountryRecord "CN") [] []).
  - split; [reflexivity|]. repeat constructor; unfold is_byte; lia.
  - reflexivity.
  - lia.
Defined.

Lemma len_nil (l : list Z) : len l = 0 -> l = [].
Proof. unfold len. destruct l; [reflexivity | cbn [List.length]; lia]. Qed.

(** X15: a network that Go prints as "<nil>" is skipped, whatever its
    code: one whose address has neither 4 nor 16 bytes, one whose mask has
    neither 4 nor 16 bytes, and one with a 4-byte mask on a 16-byte address
    that is not IPv4-mapped. *)
Theorem unprintable_network_skipped (network : IPNet) (rec : CountryRecord)
    (st : list string * list string) :
  (len (ipn_IP network) <> 4 /\ len (ipn_IP network) <> 16)
  \/ (len (ipn_Mask network) <> 4 /\ len (ipn_Mask network) <> 16)
  \/ (len (ipn_Mask network) = 4 /\ len (ipn_IP network) = 16
      /\ Is4In6 (ipn_IP network) = false) ->
  IPNet_String network = "<nil>"
  /\ extract_step st (Decoded network rec) = st.
Proof.
  intros H.
  assert (Hn : networkNumberAndMask network = None).
  { unfold networkNumberAndMask, To4, IPv4len, IPv6len.
    destruct H as [[H4 H16]|[[H4 H16]|(H4 & H16 & Hm)]].
    - apply Z.eqb_neq in H4, H16. rewrite H4, H16. reflexivity.
    - apply Z.eqb_neq in H4, H16. rewrite H4, H16.
      match goal with |- match ?x with _ => _ end = _ => now destruct x end.
    - unfold Is4In6 in Hm. rewrite H16, H4.
      change (16 =? 4) with false. change (16 =? 16) with true.
      cbn [andb]. rewrite Hm. cbn [negb].
      change (len [] =? 0) with true. cbv beta iota. now rewrite H16. }
  assert (Hs : IPNet_String network = "<nil>") by (unfold IPNet_String; now rewrite Hn).
  split; [exact Hs|].
  destruct st as [cn4 cn6]. cbn [extract_step]. rewrite Hs.
  replace (ParseCIDR "<nil>") with (@None (IP * IPNet)) by (vm_compute; reflexivity).
  now destruct (String.eqb (ISOCode rec) "CN").
Qed.

Lemma unprintable_network_skipped_witness :
  IPNet_String (mkIPNet [10; 0; 0; 0] []) = "<nil>"
  /\ extract_step (["10.0.0.0/8"], [])
       (Decoded (mkIPNet [10; 0; 0; 0] []) (mkCountryRecord "CN"))
     = (["10.0.0.0/8"], []).
Proof.
  apply (unprintable_network_skipped (mkIPNet [10; 0; 0; 0] [])
           (mkCountryRecord "CN") (["10.0.0.0/8"], [])).
  right. left. cbn. split; discriminate.
Defined.
